(** * PMKB normalizer ([scripts/pmkb2db.py]) and report matcher: a shallow embedding

    The script loads the PMKB spreadsheet into a pandas data frame, cleans it
    ([clean_pmkb_df]), derives the entries table ([make_entries]) and saves
    the selected artifacts ([main]).  The embedding keeps the source's names.

    Conventions of the model:
    - a character is a code point below 256 ([ascii]); text with larger code
      points is outside the model;
    - a cell of a text column is [option string]: [None] is what pandas
      holds for an empty spreadsheet cell (NaN), and stands as well for a
      cell that is not a string, which the [.str] methods turn into NaN;
    - a data frame is the list of its rows, in row order;
    - the integers of [astype(int)] have 64 bits, as numpy has them on Linux
      and macOS, and a float beyond them is cast as x86-64 does it;
    - a file is named by its path as it is written: two different paths
      are two files;
    - [Script] takes every output path as one that can be written; [Os] is
      the script on a file system that refuses writes. *)

From Stdlib Require Import List Arith ZArith QArith Bool Lia Permutation.
From Stdlib Require Import Ascii String DecimalString.
From Stdlib Require DecimalFacts DecimalPos DecimalZ.
From Equations Require Import Equations.
Import ListNotations.

Close Scope Q_scope.
Open Scope string_scope.
Open Scope nat_scope.
Open Scope list_scope.

(** ** Python strings *)

Module PyStr.

(** [str.isspace] on one character, which is also the class [\s] of a
    Python 3 [str] pattern: TAB..CR, FS..US, space, NEL and NBSP. *)
Definition is_space (c : ascii) : bool :=
  let n := nat_of_ascii c in
  ((9 <=? n) && (n <=? 13)) || ((28 <=? n) && (n <=? 32))
  || (n =? 133) || (n =? 160).

(** The class [[A-Z]]. *)
Definition is_upper (c : ascii) : bool :=
  let n := nat_of_ascii c in (65 <=? n) && (n <=? 90).

Definition is_empty (s : string) : bool :=
  match s with EmptyString => true | String _ _ => false end.

Fixpoint all_space (s : string) : bool :=
  match s with
  | EmptyString => true
  | String c s' => is_space c && all_space s'
  end.

(** [s.lstrip()] *)
Fixpoint lstrip (s : string) : string :=
  match s with
  | EmptyString => EmptyString
  | String c s' => if is_space c then lstrip s' else s
  end.

(** [s.rstrip()] *)
Fixpoint rstrip (s : string) : string :=
  match s with
  | EmptyString => EmptyString
  | String c s' =>
      let r := rstrip s' in
      if is_space c && is_empty r then EmptyString else String c r
  end.

(** [s.strip()] *)
Definition strip (s : string) : string := rstrip (lstrip s).

(** The line feed, ['\n']. *)
Definition newline : string := String "010" EmptyString.

(** [sep.join(l)] *)
Definition join (sep : string) (l : list string) : string :=
  String.concat sep l.

(** Puts one more character in front of the first piece of a split. *)
Definition push (c : ascii) (l : list string) : list string :=
  match l with
  | [] => [String c EmptyString]
  | t :: ts => String c t :: ts
  end.

(** [s.split(sep)] for a separator of one character. *)
Fixpoint split (sep : ascii) (s : string) : list string :=
  match s with
  | EmptyString => [EmptyString]
  | String c s' =>
      if Ascii.eqb c sep then EmptyString :: split sep s'
      else push c (split sep s')
  end.

End PyStr.

(** ** The pattern of the variant splitter

    [r'\s*,\s*(?=[A-Z])'], matched the way Python's backtracking engine
    does: a starred class takes as many characters as it can and gives them
    back one at a time while the rest of the pattern fails. *)

Module Re.

Import PyStr.

(** Greedy [cls*] followed by the continuation [k]; the result is the text
    left after the whole match. *)
Fixpoint star (cls : ascii -> bool) (s : string)
    (k : string -> option string) : option string :=
  match s with
  | EmptyString => k s
  | String c s' =>
      if cls c then
        match star cls s' k with
        | Some r => Some r
        | None => k s
        end
      else k s
  end.

(** A literal character followed by [k]. *)
Definition lit (a : ascii) (s : string)
    (k : string -> option string) : option string :=
  match s with
  | String c s' => if Ascii.eqb c a then k s' else None
  | EmptyString => None
  end.

(** The lookahead [(?=cls)]: consumes nothing. *)
Definition ahead (cls : ascii -> bool) (s : string) : option string :=
  match s with
  | String c _ => if cls c then Some s else None
  | EmptyString => None
  end.

Definition starts_upper (s : string) : bool :=
  match s with
  | String c _ => is_upper c
  | EmptyString => false
  end.

(** Some comma of [s] is followed by optional blanks and then an upper-case
    letter. *)
Fixpoint splitting_comma (s : string) : bool :=
  match s with
  | EmptyString => false
  | String c s' =>
      (Ascii.eqb c "," && starts_upper (lstrip s')) || splitting_comma s'
  end.

(** A match of [\s*,\s*(?=[A-Z])] at the start of [s]: the text after it. *)
Definition match_sep (s : string) : option string :=
  star is_space s (fun s1 =>
    lit "," s1 (fun s2 =>
      star is_space s2 (fun s3 => ahead is_upper s3))).

End Re.

(** ** [re.split] with the variant pattern *)

Module ReSplit.

Import PyStr Re.

(** A value together with the equation that it is the value. *)
Definition inspect {A : Type} (a : A) : {b : A | a = b} := exist _ a eq_refl.

(** [re.split(r'\s*,\s*(?=[A-Z])', s)]: the text is scanned from the left;
    where the pattern matches, the current piece ends and the scan goes on
    after the match; elsewhere the character joins the current piece.  The
    pattern has no group and never matches the empty text. *)
Equations? re_split (s : string) : list string by wf (String.length s) lt :=
  re_split EmptyString := [EmptyString];
  re_split (String c s') with inspect (match_sep (String c s')) => {
    | exist _ (Some rest) _ := EmptyString :: re_split rest;
    | exist _ None _ := push c (re_split s') }.
Proof.
  assert (Hstar : forall cls k d,
    (forall t r, k t = Some r -> String.length r + d <= String.length t) ->
    forall t r, star cls t k = Some r ->
      String.length r + d <= String.length t).
  { intros cls k d Hk t. induction t as [|a t IH]; intros r Hr; simpl in Hr.
    - apply Hk. exact Hr.
    - destruct (cls a).
      + destruct (star cls t k) as [r'|] eqn:E.
        * injection Hr as <-. specialize (IH _ eq_refl). simpl. lia.
        * apply Hk. exact Hr.
      + apply Hk. exact Hr. }
  assert (H1 : String.length rest + 1 <= String.length (String c s')).
  { apply (Hstar is_space _ 1) with (2 := e).
    intros t r Hr. destruct t as [|a t]; simpl in Hr; [discriminate|].
    destruct (Ascii.eqb a ","); [|discriminate].
    assert (H0 : String.length r + 0 <= String.length t).
    { apply (Hstar is_space _ 0) with (2 := Hr).
      intros t' r' Hr'. destruct t' as [|b t']; simpl in Hr'; [discriminate|].
      destruct (is_upper b); [|discriminate]. injection Hr' as <-. lia. }
    simpl. lia. }
  simpl in H1. lia.
Qed.

End ReSplit.

(** ** Python errors and the result of a computation that may raise *)

Inductive PyError : Type :=
| ValueError        (* [int()] on text that is no integer literal, or has
                       too many digits *)
| AttributeError    (* [.str] on a column without text, [.stack] on a Series *)
| KeyError          (* a sheet that the workbook does not have *)
| FileNotFoundError (* the workbook is not there *)
| DatabaseError     (* sqlite: not a database, no such table or column *)
| OverflowError     (* a Python integer that does not fit 64 bits *)
| OSError           (* a file that cannot be written, also for the subclasses
                       of [OSError] that [open] raises *)
| OperationalError. (* sqlite: a database file that cannot be opened or
                       written *)

Inductive Result (A : Type) : Type :=
| Ok (a : A)
| Raise (e : PyError).
Arguments Ok {A} a.
Arguments Raise {A} e.

Definition bind {A B : Type} (m : Result A) (f : A -> Result B) : Result B :=
  match m with
  | Ok a => f a
  | Raise e => Raise e
  end.

Declare Scope result_scope.
Delimit Scope result_scope with result.
Notation "x <- m ;; k" := (bind m (fun x => k))
  (at level 61, m at next level, right associativity) : result_scope.

(** Runs [f] on the elements from left to right; the first error ends it. *)
Fixpoint mapM {A B : Type} (f : A -> Result B) (l : list A) : Result (list B) :=
  match l with
  | [] => Ok []
  | a :: l' =>
      (b <- f a ;; bs <- mapM f l' ;; Ok (b :: bs))%result
  end.

(** ** Cells and values *)

Definition Cell : Type := option string.

(** [fillna('')] on one cell. *)
Definition fillna (c : Cell) : string :=
  match c with
  | Some s => s
  | None => EmptyString
  end.

Definition notna (c : Cell) : bool :=
  match c with
  | Some _ => true
  | None => false
  end.

(** A cell of the [Tier] column: empty, a number or text.  A number is a
    float of pandas, taken as the rational that it is; a whole number that
    pandas holds as an integer is a number of the model as long as it fits
    64 bits. *)
Inductive TierCell : Type :=
| TierMissing
| TierNumber (q : Q)
| TierText (s : string).

(** [int(x)] on a Python float: the fraction is cut off, towards zero; the
    result is a Python integer, of any size. *)
Definition truncate (q : Q) : Z := Z.quot (Qnum q) (Zpos (Qden q)).

Definition digit (c : ascii) : option Z :=
  let n := nat_of_ascii c in
  if (48 <=? n) && (n <=? 57) then Some (Z.of_nat (n - 48)) else None.

(** The digits of an integer literal; one underscore may stand between two
    digits.  [seen] says that the character before was a digit. *)
Fixpoint digits (acc : Z) (seen : bool) (s : string) : option Z :=
  match s with
  | EmptyString => if seen then Some acc else None
  | String c s' =>
      match digit c with
      | Some d => digits (10 * acc + d) true s'
      | None => if Ascii.eqb c "_" && seen then digits acc false s' else None
      end
  end.

Fixpoint has_digit (s : string) : bool :=
  match s with
  | EmptyString => false
  | String c s' =>
      match digit c with
      | Some _ => true
      | None => has_digit s'
      end
  end.

(** What [int()] needs besides the digits (CPython 3.11). *)
Module PyInt.

(** The blanks that [int()] skips at both ends of its text: those of C
    ([isspace]: TAB..CR and the space) and, beyond ASCII, the Unicode blanks
    NEL and NBSP.  The separators FS..US, which [str.strip] drops, are none
    of them. *)
Definition is_blank (c : ascii) : bool :=
  let n := nat_of_ascii c in
  ((9 <=? n) && (n <=? 13)) || (n =? 32) || (n =? 133) || (n =? 160).

Fixpoint all_blank (s : string) : bool :=
  match s with
  | EmptyString => true
  | String c s' => is_blank c && all_blank s'
  end.

Fixpoint lskip (s : string) : string :=
  match s with
  | EmptyString => EmptyString
  | String c s' => if is_blank c then lskip s' else s
  end.

Fixpoint rskip (s : string) : string :=
  match s with
  | EmptyString => EmptyString
  | String c s' =>
      let r := rskip s' in
      if is_blank c && PyStr.is_empty r then EmptyString else String c r
  end.

Fixpoint count_digits (s : string) : Z :=
  match s with
  | EmptyString => 0
  | String c s' =>
      match digit c with
      | Some _ => 1 + count_digits s'
      | None => count_digits s'
      end
  end.

(** [sys.get_int_max_str_digits()], as it is set by default: text with more
    digits is refused. *)
Definition max_str_digits : Z := 4300.

End PyInt.

(** An integer literal: a sign may come first, then the digits. *)
Definition literal (t : string) : option Z :=
  match t with
  | String "-" r => option_map Z.opp (digits 0 false r)
  | String "+" r => digits 0 false r
  | t => digits 0 false t
  end.

(** [int(s)] on text: the blanks around it are dropped, what is left is an
    integer literal, and its digits are not more than the limit. *)
Definition int_of_str (s : string) : Result Z :=
  let t := PyInt.rskip (PyInt.lskip s) in
  match literal t with
  | Some z =>
      if (PyInt.count_digits t <=? PyInt.max_str_digits)%Z then Ok z
      else Raise ValueError
  | None => Raise ValueError
  end.

(** ** The 64-bit integers of [astype(int)]

    [int] is the C long of numpy, with 64 bits as on Linux and macOS. *)
Module Int64.

Definition min : Z := -9223372036854775808.
Definition max : Z := 9223372036854775807.

Definition fits (z : Z) : bool := (min <=? z)%Z && (z <=? max)%Z.

(** The cast of a float to a 64-bit integer, as [astype(int)] does it on a
    float column: the fraction is cut off; a float beyond the range gives
    the least integer, as the conversion of x86-64 does. *)
Definition of_float (q : Q) : Z :=
  let z := truncate q in
  if fits z then z else min.

(** A Python integer put into an array of 64-bit integers, as
    [astype(int)] does it on an object column. *)
Definition of_int (z : Z) : Result Z :=
  if fits z then Ok z else Raise OverflowError.

End Int64.

(** ** The frames of the normalizer *)

(** A row of the [Interpretations] sheet as [xlsx2df] returns it.  The sheet
    has the seven columns that the script reads by name, in the order [Gene],
    [Tumor Type(s)], [Tissue Type(s)], [Variant(s)], [Tier],
    [Interpretations], [Citations], and after them columns without header,
    which load as [Unnamed: n]; [Citations] holds the cells from the column
    [Citations] to the last column.  A sheet with other columns is outside
    the model. *)
Module Sheet.
Record row : Type := mk {
  Gene : Cell;
  TumorTypes : Cell;        (* 'Tumor Type(s)' *)
  TissueTypes : Cell;       (* 'Tissue Type(s)' *)
  Variants : Cell;          (* 'Variant(s)' *)
  Tier : TierCell;
  Interpretations : Cell;
  Citations : list Cell
}.
End Sheet.

(** A row of the frame that [clean_pmkb_df] returns. *)
Module Row.
Record row : Type := mk {
  Source : nat;
  Gene : Cell;
  TumorType : Cell;
  TissueType : Cell;
  Variant : Cell;
  Tier : Z;
  Interpretation : Cell;
  Citation : string
}.
End Row.

(** A row of the frame that [make_interpretations] returns. *)
Module Interp.
Record row : Type := mk {
  Source : nat;
  Interpretation : Cell;
  Citation : string
}.
End Interp.

(** A row of the frame that [make_entries] returns. *)
Module Entry.
Record row : Type := mk {
  Source : nat;
  TumorType : string;
  TissueType : string;
  Variant : string;
  Tier : Z;
  Gene : Cell
}.
End Entry.

Module Pmkb.

Import PyStr.

(** [enumerate(l)]: every element with its position, the index of a frame
    whose index is the default one. *)
Definition enumerate {A : Type} (l : list A) : list (nat * A) :=
  combine (seq 0 (List.length l)) l.

(** Line 42: the cells from [Citation] on, with [fillna('')], joined by
    newlines, and the whole stripped. *)
Definition collapse_citations (cells : list Cell) : string :=
  strip (join newline (map fillna cells)).

Definition is_text (t : TierCell) : bool :=
  match t with
  | TierText _ => true
  | _ => false
  end.

(** The [Tier] column is an object column when it holds text; without text
    it is a column of floats (or of 64-bit integers). *)
Definition object_tiers (df : list Sheet.row) : bool :=
  existsb (fun r => is_text (Sheet.Tier r)) df.

(** Line 50, on one cell: [fillna(0)], then [astype(int)].  In a column of
    floats a number is cast; in an object column ([object = true]) every
    cell goes through [int()] and has to fit 64 bits. *)
Definition coerce_tier (object : bool) (t : TierCell) : Result Z :=
  match t with
  | TierMissing => Ok 0%Z
  | TierNumber q =>
      if object then Int64.of_int (truncate q) else Ok (Int64.of_float q)
  | TierText s => (z <- int_of_str s ;; Int64.of_int z)%result
  end.

(** One row of [clean_pmkb_df]: the renamed columns, the collapsed
    citations, the row number as [Source] and the tier as an integer. *)
Definition clean_row (object : bool) (ir : nat * Sheet.row)
  : Result Row.row :=
  let (i, r) := ir in
  (tier <- coerce_tier object (Sheet.Tier r) ;;
   Ok {| Row.Source := i;
         Row.Gene := Sheet.Gene r;
         Row.TumorType := Sheet.TumorTypes r;
         Row.TissueType := Sheet.TissueTypes r;
         Row.Variant := Sheet.Variants r;
         Row.Tier := tier;
         Row.Interpretation := Sheet.Interpretations r;
         Row.Citation := collapse_citations (Sheet.Citations r) |})%result.

Definition clean_pmkb_df (df : list Sheet.row) : Result (list Row.row) :=
  mapM (clean_row (object_tiers df)) (enumerate df).

(** [df[['Source', 'Interpretation', 'Citation']]] *)
Definition make_interpretations (df : list Row.row) : list Interp.row :=
  map (fun r => {| Interp.Source := Row.Source r;
                   Interp.Interpretation := Row.Interpretation r;
                   Interp.Citation := Row.Citation r |}) df.

(** Lines 73 to 84 for one column:
    [col.str.split(pat).apply(pd.Series, 1).stack().map(strip).reset_index()]
    with the [Entry] column left out, which the merges do not read.
    - [.str] raises on a column without any text (it is then a float column,
      or empty, and [.apply] returns a Series, which has no [.stack]);
    - an empty cell splits to NaN, and [.stack] drops NaN: it gives no row;
    - a text cell gives one row for each piece, keyed by the row's index. *)
Definition split_stack (splitter : string -> list string) (col : list Cell)
  : Result (list (nat * string)) :=
  if existsb notna col then
    let stacked :=
      flat_map (fun ic : nat * Cell =>
                  match snd ic with
                  | Some s => map (fun t => (fst ic, t)) (splitter s)
                  | None => []
                  end)
               (enumerate col) in
    Ok (map (fun it => (fst it, strip (snd it))) stacked)
  else Raise AttributeError.

(** The rows that one cell gives in [split_stack]: its stripped pieces. *)
Definition tokens (splitter : string -> list string) (c : Cell) : list string :=
  match c with
  | Some s => map strip (splitter s)
  | None => []
  end.

(** The test that a keyed row has the key [i]. *)
Definition key_is {A : Type} (i : nat) (x : nat * A) : bool := fst x =? i.

(** [pd.merge(left, right, on = 'Source')], an inner join: every left row
    with every right row of the same [Source]. *)
Definition merge {A B : Type} (left : list (nat * A)) (right : list (nat * B))
  : list (nat * (A * B)) :=
  flat_map (fun l =>
              map (fun r => (fst l, (snd l, snd r)))
                  (filter (fun r => fst r =? fst l) right))
           left.

(** A row of the last join as a row of the entries frame. *)
Definition entry_of
    (x : nat * ((((string * string) * string) * Z) * Cell)) : Entry.row :=
  match x with
  | (source, ((((tumor_type, tissue_type), variant), tier), gene)) =>
      {| Entry.Source := source;
         Entry.TumorType := tumor_type;
         Entry.TissueType := tissue_type;
         Entry.Variant := variant;
         Entry.Tier := tier;
         Entry.Gene := gene |}
  end.

Definition make_entries (df : list Row.row) : Result (list Entry.row) :=
  let tier := map (fun r => (Row.Source r, Row.Tier r)) df in
  let gene := map (fun r => (Row.Source r, Row.Gene r)) df in
  (tumor <- split_stack (split ",") (map Row.TumorType df) ;;
   tissue <- split_stack (split ",") (map Row.TissueType df) ;;
   variant <- split_stack ReSplit.re_split (map Row.Variant df) ;;
   let df2 := merge tumor tissue in
   let df2 := merge df2 variant in
   let df2 := merge df2 tier in
   let df2 := merge df2 gene in
   Ok (map entry_of df2))%result.

End Pmkb.

(** ** Saved tables and the file system *)

Module Store.

(** A value of a saved table. *)
Inductive value : Type :=
| VText (s : string)
| VInt (z : Z)
| VNull.

Definition value_eqb (a b : value) : bool :=
  match a, b with
  | VText s, VText t => String.eqb s t
  | VInt x, VInt y => Z.eqb x y
  | VNull, VNull => true
  | _, _ => false
  end.

Definition of_cell (c : Cell) : value :=
  match c with
  | Some s => VText s
  | None => VNull
  end.

(** ["{0}".format(v)] *)
Definition format (v : value) : string :=
  match v with
  | VText s => s
  | VInt z => NilZero.string_of_int (Z.to_int z)
  | VNull => "None"
  end.

(** A frame as it is saved: the header and the rows under it. *)
Record Table : Type := mkTable {
  columns : list string;
  records : list (list value)
}.

(** The cleaned frame: [Source], which [reset_index] puts first, then the
    columns of the sheet under their new names; line 43 has dropped the
    [Unnamed] ones. *)
Definition table_of_df (df : list Row.row) : Table :=
  {| columns := ["Source"; "Gene"; "TumorType"; "TissueType"; "Variant";
                 "Tier"; "Interpretation"; "Citation"];
     records := map (fun r =>
       [VInt (Z.of_nat (Row.Source r)); of_cell (Row.Gene r);
        of_cell (Row.TumorType r); of_cell (Row.TissueType r);
        of_cell (Row.Variant r); VInt (Row.Tier r);
        of_cell (Row.Interpretation r); VText (Row.Citation r)]) df |}.

Definition table_of_interpretations (df : list Interp.row) : Table :=
  {| columns := ["Source"; "Interpretation"; "Citation"];
     records := map (fun r =>
       [VInt (Z.of_nat (Interp.Source r)); of_cell (Interp.Interpretation r);
        VText (Interp.Citation r)]) df |}.

Definition table_of_entries (df : list Entry.row) : Table :=
  {| columns := ["Source"; "TumorType"; "TissueType"; "Variant"; "Tier";
                 "Gene"];
     records := map (fun e =>
       [VInt (Z.of_nat (Entry.Source e)); VText (Entry.TumorType e);
        VText (Entry.TissueType e); VText (Entry.Variant e);
        VInt (Entry.Tier e); of_cell (Entry.Gene e)]) df |}.

(** What a file holds.  The encodings of the saved tables are not modelled:
    a file written by [to_csv] holds its table. *)
Inductive FileContent : Type :=
| Workbook (sheets : list (string * list Sheet.row))
| TsvUtf16 (t : Table)    (* [to_csv(sep = '\t', encoding = 'utf-16')] *)
| CsvQuoted (t : Table)   (* [to_csv(sep = ',', quoting = QUOTE_ALL)] *)
| Sqlite (tables : list (string * Table))
| Text (s : string).

(** The file system is the list of the writes made so far, the last one
    first, in front of the files that were there before. *)
Definition FileSystem : Type := list (string * FileContent).

Fixpoint lookup {A : Type} (k : string) (l : list (string * A)) : option A :=
  match l with
  | [] => None
  | (k', a) :: l' => if String.eqb k k' then Some a else lookup k l'
  end.

Definition write (path : string) (c : FileContent) (fs : FileSystem)
  : FileSystem := (path, c) :: fs.

(** A computation on the file system; what was written before an error
    stays written. *)
Definition IO (A : Type) : Type := FileSystem -> Result A * FileSystem.

Definition ret {A : Type} (a : A) : IO A := fun fs => (Ok a, fs).

Definition raise {A : Type} (e : PyError) : IO A := fun fs => (Raise e, fs).

Definition lift {A : Type} (m : Result A) : IO A := fun fs => (m, fs).

Definition bindIO {A B : Type} (m : IO A) (f : A -> IO B) : IO B :=
  fun fs =>
    match m fs with
    | (Ok a, fs') => f a fs'
    | (Raise e, fs') => (Raise e, fs')
    end.

Definition put (path : string) (c : FileContent) : IO unit :=
  fun fs => (Ok tt, write path c fs).

Definition get (path : string) : IO (option FileContent) :=
  fun fs => (Ok (lookup path fs), fs).

End Store.

Declare Scope io_scope.
Delimit Scope io_scope with io.
Notation "x <- m ;; k" := (Store.bindIO m (fun x => k))
  (at level 61, m at next level, right associativity) : io_scope.
Notation "m ;; k" := (Store.bindIO m (fun _ => k))
  (at level 61, right associativity) : io_scope.

(** ** Saving, and the main control function *)

Module Script.

Import PyStr Pmkb Store.

(** [xlsx2df(xlsx_file)]: the sheet ['Interpretations'] of the workbook. *)
Definition xlsx2df (xlsx_file : string) : IO (list Sheet.row) :=
  (f <- get xlsx_file ;;
   match f with
   | None => raise FileNotFoundError
   | Some (Workbook sheets) =>
       match lookup "Interpretations" sheets with
       | Some df => ret df
       | None => raise KeyError
       end
   | Some _ => raise ValueError
   end)%io.

Definition save_interpretations (df : Table) (output : string) : IO unit :=
  put output (TsvUtf16 df).

Definition save_entries (df : Table) (output : string) : IO unit :=
  put output (CsvQuoted df).

(** The tables of the file that sqlite opens: no file, or an empty file, is
    an empty database; a file that is no database is refused.  The empty
    file that sqlite makes where there is none is in [Os.connect]. *)
Definition opened (f : option FileContent) : Result (list (string * Table)) :=
  match f with
  | None => Ok []
  | Some (Sqlite tables) => Ok tables
  | Some (Text EmptyString) => Ok []
  | Some _ => Raise DatabaseError
  end.

(** [sqlite3.connect(path)] and the first statement on the connection. *)
Definition connect (path : string) : IO (list (string * Table)) :=
  (f <- get path ;; lift (opened f))%io.

(** [df.to_sql(name, conn, if_exists = "replace", index = False)] *)
Definition to_sql (name : string) (df : Table) (tables : list (string * Table))
  : list (string * Table) :=
  (name, df) :: filter (fun t => negb (String.eqb (fst t) name)) tables.

Definition save_db (interpretations entries : Table) (output : string)
  : IO unit :=
  (tables <- connect output ;;
   let tables := to_sql "interpretations" interpretations tables in
   let tables := to_sql "entries" entries tables in
   put output (Sqlite tables))%io.

Fixpoint index_of (name : string) (l : list string) : option nat :=
  match l with
  | [] => None
  | x :: l' =>
      if String.eqb x name then Some 0
      else option_map S (index_of name l')
  end.

(** [pd.read_sql_query("select <column> from <table>;", conn)[column]] *)
Definition select (column table : string) (tables : list (string * Table))
  : Result (list value) :=
  match lookup table tables with
  | None => Raise DatabaseError
  | Some t =>
      match index_of column (columns t) with
      | None => Raise DatabaseError
      | Some i => Ok (map (fun r => nth i r VNull) (records t))
      end
  end.

(** [Series.unique()]: the values in the order in which they first appear. *)
Fixpoint unique_from (seen : list value) (l : list value) : list value :=
  match l with
  | [] => []
  | v :: l' =>
      if existsb (value_eqb v) seen then unique_from seen l'
      else v :: unique_from (v :: seen) l'
  end.

Definition unique (l : list value) : list value := unique_from [] l.

(** The loop [for x in xs: f.write("{0}\n".format(x))] on a file opened
    with ["w"]. *)
Definition write_lines (xs : list value) : FileContent :=
  Text (String.concat EmptyString
          (map (fun x => (format x ++ String "010" EmptyString)%string) xs)).

(** Lines 118 to 125. *)
Definition save_db_tissues (db output : string) : IO unit :=
  (tables <- connect db ;;
   tissues <- lift (select "TumorType" "entries" tables) ;;
   put output (write_lines (unique tissues)))%io.

(** Lines 127 to 134. *)
Definition save_db_tumor (db output : string) : IO unit :=
  (tables <- connect db ;;
   tumors <- lift (select "TissueType" "entries" tables) ;;
   put output (write_lines (unique tumors)))%io.

(** The keyword arguments of [main], as [parse] passes them: an option that
    the command line does not give is [None]. *)
Record Args : Type := mkArgs {
  pmkb_db : option string;
  pmkb_xlsx : string;
  interpretations_file : option string;
  entries_file : option string;
  tumors_file : option string;
  tissues_file : option string
}.

(** The value of an optional path under [if path:], where [None] and ['']
    are false: the path when the test holds. *)
Definition given (o : option string) : option string :=
  match o with
  | Some s => if is_empty s then None else Some s
  | None => None
  end.

(** [if a: body(a)] *)
Definition if_given (a : option string) (body : string -> IO unit) : IO unit :=
  match given a with
  | Some x => body x
  | None => ret tt
  end.

(** [if a and b: body(a, b)] *)
Definition if_both (a b : option string) (body : string -> string -> IO unit)
  : IO unit :=
  match given a, given b with
  | Some x, Some y => body x y
  | _, _ => ret tt
  end.

Definition main (a : Args) : IO unit :=
  (pmkb_df <- xlsx2df (pmkb_xlsx a) ;;
   pmkb_df <- lift (clean_pmkb_df pmkb_df) ;;
   let interpretations := table_of_df pmkb_df in
   (* interpretations = make_interpretations(pmkb_df) *)
   entries <- lift (make_entries pmkb_df) ;;
   let entries := table_of_entries entries in
   if_given (interpretations_file a)
     (fun output => save_interpretations interpretations output) ;;
   if_given (entries_file a)
     (fun output => save_entries entries output) ;;
   if_given (pmkb_db a)
     (fun output => save_db interpretations entries output) ;;
   if_both (tumors_file a) (pmkb_db a)
     (fun output db => save_db_tumor db output) ;;
   if_both (tissues_file a) (pmkb_db a)
     (fun output db => save_db_tissues db output))%io.

(** The kinds of output of the script. *)
Inductive Artifact : Type :=
| InterpretationsFile
| EntriesFile
| Database
| TumorTerms
| TissueTerms.

Definition artifact_eqb (x y : Artifact) : bool :=
  match x, y with
  | InterpretationsFile, InterpretationsFile => true
  | EntriesFile, EntriesFile => true
  | Database, Database => true
  | TumorTerms, TumorTerms => true
  | TissueTerms, TissueTerms => true
  | _, _ => false
  end.

Definition output_if (o : option string) (k : Artifact) (c : FileContent)
  : list (Artifact * (string * FileContent)) :=
  match o with
  | Some path => [(k, (path, c))]
  | None => []
  end.

Definition both (a b : option string) : option string :=
  match given a, given b with
  | Some x, Some _ => Some x
  | _, _ => None
  end.

(** The writes of a run of [main] that ends well, in the order in which they
    are made: [df] is the cleaned frame, [es] are the entries and [tables]
    are the tables that the database file held before the run.  The
    theorems below relate it to [main]. *)
Definition outputs (a : Args) (df : list Row.row) (es : list Entry.row)
    (tables : list (string * Table))
  : list (Artifact * (string * FileContent)) :=
  let interpretations := table_of_df df in
  let entries := table_of_entries es in
  output_if (given (interpretations_file a)) InterpretationsFile
    (TsvUtf16 interpretations)
  ++ output_if (given (entries_file a)) EntriesFile (CsvQuoted entries)
  ++ output_if (given (pmkb_db a)) Database
       (Sqlite (to_sql "entries" entries
                  (to_sql "interpretations" interpretations tables)))
  ++ output_if (both (tumors_file a) (pmkb_db a)) TumorTerms
       (write_lines (unique (map (fun e => VText (Entry.TissueType e)) es)))
  ++ output_if (both (tissues_file a) (pmkb_db a)) TissueTerms
       (write_lines (unique (map (fun e => VText (Entry.TumorType e)) es))).

(** The paths of a run do not get in each other's way: the database file
    is not one of the text outputs. *)
Definition db_apart (a : Args) : bool :=
  match given (pmkb_db a) with
  | None => true
  | Some db =>
      forallb (fun o => match given o with
                        | Some p => negb (String.eqb p db)
                        | None => true
                        end)
        [interpretations_file a; entries_file a; tumors_file a]
  end.





(** The options of the command line as [argparse] returns them; only the
    input has a default other than [None]. *)
Record Options : Type := mkOptions {
  opt_pmkb_xlsx : option string;     (* --pmkb-xlsx *)
  opt_db : option string;            (* --db *)
  opt_interpretations : option string; (* --interpretations *)
  opt_entries : option string;       (* --entries *)
  opt_tumors : option string;        (* --tumors *)
  opt_tissues : option string        (* --tissues *)
}.

Definition parse (o : Options) : IO unit :=
  main {| pmkb_db := opt_db o;
          pmkb_xlsx := match opt_pmkb_xlsx o with
                       | Some p => p
                       | None => "pmkb.xlsx"
                       end;
          interpretations_file := opt_interpretations o;
          entries_file := opt_entries o;
          tumors_file := opt_tumors o;
          tissues_file := opt_tissues o |}.

End Script.

(** ** The script on a file system that refuses writes

    [Script] takes every path as one that can be written.  Here the
    operating system has its say: a file can be created or overwritten at
    the paths that [writable] accepts (the directory is there, the path is
    no directory, the permissions allow it), and at no other; this does not
    change during a run.  Reading the workbook, cleaning and the entries are
    those of [Script]. *)

Module Os.

Import PyStr Pmkb Store Script.

Section Access.

Variable writable : string -> bool.

(** [open(path, "w")] with what is written until the file is closed, and
    the same inside [to_csv]: at a path that cannot be written [OSError]
    (or a subclass of it) is raised and no file is made. *)
Definition to_file (path : string) (c : FileContent) : IO unit :=
  if writable path then put path c else raise OSError.

Definition save_interpretations (df : Table) (output : string) : IO unit :=
  to_file output (TsvUtf16 df).

Definition save_entries (df : Table) (output : string) : IO unit :=
  to_file output (CsvQuoted df).

(** [sqlite3.connect(path)] and the first statement on the connection: a
    file that is missing is created, empty; where it cannot be created the
    connection fails with [OperationalError]. *)
Definition connect (path : string) : IO (list (string * Table)) :=
  (f <- get path ;;
   match f with
   | Some _ => lift (opened f)
   | None =>
       if writable path then (put path (Text EmptyString) ;; ret [])
       else raise OperationalError
   end)%io.

(** The tables go to the file of the connection; a file that cannot be
    written makes the statement fail with [OperationalError]. *)
Definition commit (path : string) (tables : list (string * Table))
  : IO unit :=
  if writable path then put path (Sqlite tables) else raise OperationalError.

Definition save_db (interpretations entries : Table) (output : string)
  : IO unit :=
  (tables <- connect output ;;
   let tables := to_sql "interpretations" interpretations tables in
   let tables := to_sql "entries" entries tables in
   commit output tables)%io.

(** Lines 118 to 125. *)
Definition save_db_tissues (db output : string) : IO unit :=
  (tables <- connect db ;;
   tissues <- lift (select "TumorType" "entries" tables) ;;
   to_file output (write_lines (unique tissues)))%io.

(** Lines 127 to 134. *)
Definition save_db_tumor (db output : string) : IO unit :=
  (tables <- connect db ;;
   tumors <- lift (select "TissueType" "entries" tables) ;;
   to_file output (write_lines (unique tumors)))%io.

Definition main (a : Args) : IO unit :=
  (pmkb_df <- xlsx2df (pmkb_xlsx a) ;;
   pmkb_df <- lift (clean_pmkb_df pmkb_df) ;;
   let interpretations := table_of_df pmkb_df in
   (* interpretations = make_interpretations(pmkb_df) *)
   entries <- lift (make_entries pmkb_df) ;;
   let entries := table_of_entries entries in
   if_given (interpretations_file a)
     (fun output => save_interpretations interpretations output) ;;
   if_given (entries_file a)
     (fun output => save_entries entries output) ;;
   if_given (pmkb_db a)
     (fun output => save_db interpretations entries output) ;;
   if_both (tumors_file a) (pmkb_db a)
     (fun output db => save_db_tumor db output) ;;
   if_both (tissues_file a) (pmkb_db a)
     (fun output db => save_db_tissues db output))%io.

End Access.




(** Two file systems hold the same files. *)
Definition same_files (fs fs' : FileSystem) : Prop :=
  forall p, lookup p fs = lookup p fs'.

(** The same files, the file at [db] among them. *)
Definition same_with (db : string) (fs fs' : FileSystem) : Prop :=
  same_files fs fs' /\ lookup db fs <> None.

(** Two computations agree from [P] to [Q]: on file systems in [P] they
    have the same result and leave the same files, in [Q] when they end
    well. *)
Definition agree (m m' : IO unit) (P Q : FileSystem -> FileSystem -> Prop)
  : Prop :=
  forall fs fs', P fs fs' ->
    fst (m fs) = fst (m' fs')
    /\ same_files (snd (m fs)) (snd (m' fs'))
    /\ (fst (m fs) = Ok tt -> Q (snd (m fs)) (snd (m' fs'))).

End Os.

(** ** The matcher *)

Module Matcher.

(** Modelled from the spec: the [SampleVariant] of section 3, a reported
    variant of a sample; the report path that builds it is not among the
    sources. *)
Record SampleVariant : Type := mkSample {
  gene : string;
  variant_description : option string;
  tumor_context : option string;
  tissue_context : option string
}.

(** Modelled from the spec: the outcomes of the lookup of section 4.2, an
    ordered sequence of interpretations or the invalid-input error. *)
Inductive Outcome : Type :=
| Found (interpretations : list Interp.row)
| InvalidQueryError.

(** Modelled from the spec: the exact, case-sensitive match of section 4.2
    on a cell. *)
Definition cell_is (c : Cell) (s : string) : bool :=
  match c with
  | Some t => String.eqb t s
  | None => false
  end.

(** Modelled from the spec: the context filter of section 4.2; a context
    that is not supplied restricts nothing. *)
Definition in_context (ctx : option string) (s : string) : bool :=
  match ctx with
  | Some c => String.eqb s c
  | None => true
  end.

(** Modelled from the spec: the filter of section 4.2 on one entry. *)
Definition matches (q : SampleVariant) (v : string) (e : Entry.row) : bool :=
  cell_is (Entry.Gene e) (gene q) && String.eqb (Entry.Variant e) v
  && in_context (tumor_context q) (Entry.TumorType e)
  && in_context (tissue_context q) (Entry.TissueType e).

(** Modelled from the spec: the distinct source ids of section 4.2, as the
    entries whose [Source] was not seen before, in their order. *)
Fixpoint distinct_sources (seen : list nat) (l : list Entry.row)
  : list Entry.row :=
  match l with
  | [] => []
  | e :: l' =>
      if existsb (Nat.eqb (Entry.Source e)) seen then distinct_sources seen l'
      else e :: distinct_sources (Entry.Source e :: seen) l'
  end.

(** Modelled from the spec: the ascending order of tier of section 4.2, by
    insertion. *)
Fixpoint insert_by_tier (e : Entry.row) (l : list Entry.row) : list Entry.row :=
  match l with
  | [] => [e]
  | x :: l' =>
      if (Entry.Tier e <? Entry.Tier x)%Z then e :: l
      else x :: insert_by_tier e l'
  end.

(** Modelled from the spec: ascending by tier, as section 4.2 orders the
    result. *)
Definition sort_by_tier (l : list Entry.row) : list Entry.row :=
  fold_right insert_by_tier [] l.

(** Modelled from the spec: the resolution of a source id by the key of the
    interpretations table; the interpretation with the key [source], when
    there is one. *)
Definition resolve (interpretations : list Interp.row) (source : nat)
  : list Interp.row :=
  match find (fun i => Interp.Source i =? source) interpretations with
  | Some i => [i]
  | None => []
  end.

(** Modelled from the spec: the lookup of the report path
    ([pmkb.PMKB] and [ir.IRTable.lookup_all_interpretations], which
    [make_report] calls, are not among the sources).  The entries are
    filtered by gene and variant, and by the contexts that are supplied; the
    distinct source ids of the entries that are left are put in ascending
    order of tier and each is resolved to its interpretation. *)
Definition find_interpretations (q : SampleVariant)
    (entries : list Entry.row) (interpretations : list Interp.row) : Outcome :=
  match variant_description q with
  | None => InvalidQueryError
  | Some v =>
      let hits := filter (matches q v) entries in
      let ids := map Entry.Source (sort_by_tier (distinct_sources [] hits)) in
      Found (flat_map (resolve interpretations) ids)
  end.

End Matcher.

(** ** Sheets, arguments and files of the examples *)

Module Examples.

Import Store Script.

Definition fact (gene tumor tissue variant : Cell) (tier : TierCell)
    (citations : list Cell) : Sheet.row :=
  {| Sheet.Gene := gene;
     Sheet.TumorTypes := tumor;
     Sheet.TissueTypes := tissue;
     Sheet.Variants := variant;
     Sheet.Tier := tier;
     Sheet.Interpretations := Some "Sensitizing mutation.";
     Sheet.Citations := citations |}.

(** One fact, two tumor types, and an empty citation cell between two
    citations. *)
Definition egfr : Sheet.row :=
  fact (Some "EGFR") (Some "Lung Cancer, Glioma") (Some "Lung")
       (Some "L858R") (TierNumber (1 # 1)) [Some "A"; None; Some "B"].

(** A fact without tumor type and without tier. *)
Definition kras : Sheet.row :=
  fact (Some "KRAS") None (Some "Lung") (Some "G12C") TierMissing
       [Some "C"; None].

(** A fact whose tier is text that is no number. *)
Definition braf : Sheet.row :=
  fact (Some "BRAF") (Some "Melanoma") (Some "Skin") (Some "V600E, V600K")
       (TierText "high") [Some "D"].

Definition sheet_egfr : list Sheet.row := [egfr].
Definition sheet_kras : list Sheet.row := [egfr; kras].
Definition sheet_braf : list Sheet.row := [egfr; braf].

Definition disk (sheet : list Sheet.row) : FileSystem :=
  [("pmkb.xlsx", Workbook [("Interpretations", sheet)])].

Definition args (db interpretations entries tumors tissues : option string)
  : Args :=
  {| pmkb_db := db;
     pmkb_xlsx := "pmkb.xlsx";
     interpretations_file := interpretations;
     entries_file := entries;
     tumors_file := tumors;
     tissues_file := tissues |}.

(** The entries and the interpretations of [sheet_egfr], and a sample
    with the variant of its fact. *)
Definition egfr_entries : list Entry.row :=
  [Entry.mk 0 "Lung Cancer" "Lung" "L858R" 1 (Some "EGFR");
   Entry.mk 0 "Glioma" "Lung" "L858R" 1 (Some "EGFR")].

Definition egfr_interpretations : list Interp.row :=
  [Interp.mk 0 (Some "Sensitizing mutation.")
     ("A" ++ PyStr.newline ++ PyStr.newline ++ "B")].

Definition egfr_sample : Matcher.SampleVariant :=
  {| Matcher.gene := "EGFR";
     Matcher.variant_description := Some "L858R";
     Matcher.tumor_context := None;
     Matcher.tissue_context := None |}.

End Examples.

(** ** Characters of a text *)

Module Chars.

(** [c in s] for one character. *)
Fixpoint contains (c : ascii) (s : string) : bool :=
  match s with
  | EmptyString => false
  | String x s' => Ascii.eqb x c || contains c s'
  end.

(** [s.count(c)] for one character. *)
Fixpoint count (c : ascii) (s : string) : nat :=
  match s with
  | EmptyString => 0
  | String x s' => (if Ascii.eqb x c then 1 else 0) + count c s'
  end.

End Chars.

(** ** The report script ([app/report.py]) *)

Module Report.

Import PyStr Store Script.

(** [s.rfind(c)] for one character: the last index of [c], or -1.  [i] is
    the index of the head of [s] and [last] the result so far. *)
Fixpoint rfind_from (c : ascii) (s : string) (i last : Z) : Z :=
  match s with
  | EmptyString => last
  | String x s' => rfind_from c s' (i + 1) (if Ascii.eqb x c then i else last)
  end.

Definition rfind (c : ascii) (s : string) : Z := rfind_from c s 0 (-1).

(** [p[i:j]] for indices within the text. *)
Definition slice (p : string) (i j : Z) : string :=
  substring (Z.to_nat i) (Z.to_nat (j - i)) p.

Fixpoint all_dots (s : string) : bool :=
  match s with
  | EmptyString => true
  | String x s' => Ascii.eqb x "." && all_dots s'
  end.

(** [os.path.splitext(p)] of [posixpath]: the extension starts at the last
    dot, when that dot comes after the last slash and after a character of
    the file name that is no dot (the loop that skips the leading dots). *)
Definition splitext (p : string) : string * string :=
  let sepIndex := rfind "/" p in
  let dotIndex := rfind "." p in
  if (sepIndex <? dotIndex)%Z
     && negb (all_dots (slice p (sepIndex + 1) dotIndex))
  then (slice p 0 dotIndex, slice p dotIndex (Z.of_nat (String.length p)))
  else (p, EmptyString).

Section WithRender.

(** What [make_report] does between its first and its last step, lines 38 to
    44: [ir.IRTable(source = input)], [pmkb.PMKB()],
    [lookup_all_interpretations] and [template.render].  The modules [ir]
    and [pmkb] and the template are not among the sources: the text that
    they make of the input, or their error, is a parameter. *)
Variable render : string -> IO string.

(** Lines 35 to 48. *)
Definition make_report (input : string) (output : option string) : IO unit :=
  let output :=
    match given output with
    | Some o => o
    | None => (fst (splitext input) ++ ".html")%string
    end in
  (parsed <- render input ;;
   put output (Text parsed))%io.

(** Lines 54 to 56; [input] is the list that [nargs = 1] makes.  [None]
    stands for the [IndexError] of [[0]] on an empty list, which is raised
    before anything is done. *)
Definition main (input : list string) (output : option string)
  : option (IO unit) :=
  match input with
  | x :: _ => Some (make_report x output)
  | [] => None
  end.

End WithRender.

End Report.

(** ** Paths that keep apart *)

Module Paths.

Import Script.

(** The path of the option [o], when it is given, is not [path]. *)
Definition away_from (path : string) (o : option string) : bool :=
  match given o with
  | Some p => negb (String.eqb p path)
  | None => true
  end.

(** No output goes to the workbook, and no text output to the database. *)
Definition paths_apart (a : Args) : bool :=
  forallb (away_from (pmkb_xlsx a))
    [interpretations_file a; entries_file a; pmkb_db a; tumors_file a;
     tissues_file a]
  && match given (pmkb_db a) with
     | Some db =>
         forallb (away_from db)
           [interpretations_file a; entries_file a; tumors_file a;
            tissues_file a]
     | None => true
     end.

End Paths.

(** * Properties *)

(** ** Strings *)

Section StringFacts.

Import PyStr.

Lemma append_nil_r (s : string) : (s ++ "")%string = s.
Proof. induction s as [|c s IH]; simpl; [reflexivity | now rewrite IH]. Qed.

Lemma append_assoc (a b c : string) :
  ((a ++ b) ++ c)%string = (a ++ (b ++ c))%string.
Proof. induction a as [|x a IH]; simpl; [reflexivity | now rewrite IH]. Qed.

Lemma all_space_app (a b : string) :
  all_space (a ++ b) = all_space a && all_space b.
Proof.
  induction a as [|c a IH]; simpl; [reflexivity|].
  rewrite IH. now rewrite andb_assoc.
Qed.

Lemma rstrip_all_space (s : string) : all_space s = true -> rstrip s = "".
Proof.
  induction s as [|c s IH]; simpl; [reflexivity|].
  intros H. apply andb_prop in H as [Hc Hs].
  rewrite (IH Hs), Hc. reflexivity.
Qed.

Lemma rstrip_empty_all_space (s : string) : rstrip s = "" -> all_space s = true.
Proof.
  induction s as [|c s IH]; simpl; [reflexivity|].
  destruct (is_space c) eqn:Hc; simpl.
  - destruct (rstrip s) eqn:Hr; simpl; [intros _; now apply IH | discriminate].
  - discriminate.
Qed.

Lemma lstrip_all_space (s : string) : all_space s = true -> lstrip s = "".
Proof.
  induction s as [|c s IH]; simpl; [reflexivity|].
  intros H. apply andb_prop in H as [Hc Hs]. rewrite Hc. now apply IH.
Qed.

(** Blank text at the end does not survive [rstrip]. *)
Lemma rstrip_app_space (s w : string) :
  all_space w = true -> rstrip (s ++ w) = rstrip s.
Proof.
  intros Hw. induction s as [|c s IH]; simpl.
  - now apply rstrip_all_space.
  - now rewrite IH.
Qed.

Lemma lstrip_app (s w : string) :
  lstrip (s ++ w) = if all_space s then lstrip w else (lstrip s ++ w)%string.
Proof.
  induction s as [|c s IH]; simpl; [reflexivity|].
  destruct (is_space c); simpl; [exact IH | reflexivity].
Qed.

Lemma strip_app_space (s w : string) :
  all_space w = true -> strip (s ++ w) = strip s.
Proof.
  intros Hw. unfold strip. rewrite lstrip_app.
  destruct (all_space s) eqn:Hs.
  - now rewrite (lstrip_all_space _ Hw), (lstrip_all_space _ Hs).
  - now apply rstrip_app_space.
Qed.

Lemma strip_all_space (s : string) : all_space s = true -> strip s = "".
Proof. intros H. unfold strip. now rewrite (lstrip_all_space _ H). Qed.

Lemma rstrip_idem (s : string) : rstrip (rstrip s) = rstrip s.
Proof.
  induction s as [|c s IH]; simpl; [reflexivity|].
  destruct (is_space c && is_empty (rstrip s)) eqn:E; simpl; [reflexivity|].
  now rewrite IH, E.
Qed.

Lemma lstrip_rstrip (s : string) : lstrip (rstrip s) = rstrip (lstrip s).
Proof.
  induction s as [|c s IH]; simpl; [reflexivity|].
  destruct (is_space c) eqn:Hc; simpl.
  - destruct (rstrip s) eqn:Hr; simpl.
    + rewrite <- IH. reflexivity.
    + rewrite Hc. exact IH.
  - rewrite ?Hc. simpl. rewrite ?Hc. reflexivity.
Qed.

Lemma strip_rstrip (s : string) : strip (rstrip s) = strip s.
Proof.
  unfold strip. now rewrite lstrip_rstrip, rstrip_idem.
Qed.

(** [join] with blank cells at the end: they add blank text only. *)
Lemma join_blanks (sep : string) (l : list string) (k : nat) :
  all_space sep = true ->
  exists w, all_space w = true /\
            join sep (l ++ repeat "" k) = (join sep l ++ w)%string.
Proof.
  intros Hsep. induction l as [|x l IH].
  - simpl. exists (join sep (repeat "" k)). split; [|reflexivity].
    induction k as [|k IHk]; [reflexivity|].
    simpl. destruct (repeat "" k) eqn:Hk; [reflexivity|].
    rewrite all_space_app, Hsep. exact IHk.
  - destruct IH as [w [Hw IH]]. unfold join in *. simpl.
    destruct (l ++ repeat "" k) as [|y l'] eqn:Hl.
    + apply app_eq_nil in Hl as [-> _]. exists "". now rewrite append_nil_r.
    + destruct l as [|z l].
      * simpl in Hl. exists (sep ++ String.concat sep (y :: l'))%string.
        split; [|reflexivity].
        rewrite all_space_app, Hsep, IH. simpl. exact Hw.
      * exists w. split; [exact Hw|].
        rewrite IH. now rewrite !append_assoc.
Qed.

End StringFacts.

(** ** The pattern and [re_split] *)

Section PatternFacts.

Import PyStr Re ReSplit.

Lemma upper_not_space (c : ascii) : is_upper c = true -> is_space c = false.
Proof.
  destruct c as [[] [] [] [] [] [] [] []]; vm_compute; congruence.
Qed.

Lemma lstrip_split (s : string) :
  exists w, all_space w = true /\ s = (w ++ lstrip s)%string.
Proof.
  induction s as [|c s [w [Hw IH]]].
  - exists "". split; reflexivity.
  - simpl. destruct (is_space c) eqn:Hc.
    + exists (String c w). simpl. rewrite Hc, Hw. split; [reflexivity|].
      now rewrite <- IH.
    + exists "". split; reflexivity.
Qed.

Lemma lstrip_length (s : string) : String.length (lstrip s) <= String.length s.
Proof.
  induction s as [|c s IH]; simpl; [lia|].
  destruct (is_space c); simpl; lia.
Qed.

Lemma lstrip_not_all_space (s : string) :
  all_space s = false -> exists c t, lstrip s = String c t /\ is_space c = false.
Proof.
  induction s as [|c s IH]; simpl; [discriminate|].
  destruct (is_space c) eqn:Hc; simpl.
  - exact IH.
  - intros _. now exists c, s.
Qed.

Lemma lstrip_starts_upper (s : string) : starts_upper s = true -> lstrip s = s.
Proof.
  destruct s as [|c s]; simpl; [reflexivity|].
  intros H. now rewrite (upper_not_space _ H).
Qed.

(** A starred blank class gives back nothing when what follows it cannot
    start with a blank: the backtracking never finds a second way. *)
Lemma star_lstrip (k : string -> option string) (s : string) :
  (forall c t, is_space c = true -> k (String c t) = None) ->
  star is_space s k = k (lstrip s).
Proof.
  intros Hk. induction s as [|c s IH]; simpl; [reflexivity|].
  destruct (is_space c) eqn:Hc; [|reflexivity].
  rewrite IH, (Hk c s Hc). now destruct (k (lstrip s)).
Qed.

(** The match without backtracking: blanks, the comma, blanks, and an
    upper-case letter in sight. *)
Lemma match_sep_eq (s : string) :
  match_sep s = lit "," (lstrip s) (fun s2 => ahead is_upper (lstrip s2)).
Proof.
  unfold match_sep. rewrite star_lstrip.
  - destruct (lstrip s) as [|c s2]; simpl; [reflexivity|].
    destruct (Ascii.eqb c ","); [|reflexivity].
    apply star_lstrip. intros a t Ha. simpl.
    destruct (is_upper a) eqn:Hu; [|reflexivity].
    apply upper_not_space in Hu. congruence.
  - intros c t Hc. simpl. destruct (Ascii.eqb c ",") eqn:E; [|reflexivity].
    apply Ascii.eqb_eq in E. subst c. discriminate Hc.
Qed.

Lemma match_sep_shorter (s r : string) :
  match_sep s = Some r -> String.length r < String.length s.
Proof.
  rewrite match_sep_eq. pose proof (lstrip_length s) as H1.
  destruct (lstrip s) as [|c s2]; simpl; [discriminate|].
  destruct (Ascii.eqb c ","); [|discriminate].
  pose proof (lstrip_length s2) as H2.
  destruct (lstrip s2) as [|u t]; simpl; [discriminate|].
  destruct (is_upper u); [|discriminate].
  intros [= <-]. simpl in *. lia.
Qed.

(** What a match looks like. *)
Lemma match_sep_inv (s r : string) :
  match_sep s = Some r ->
  exists w1 w2, s = (w1 ++ "," ++ w2 ++ r)%string /\
                all_space w1 = true /\ all_space w2 = true /\
                starts_upper r = true.
Proof.
  rewrite match_sep_eq.
  destruct (lstrip_split s) as [w1 [Hw1 Hs]].
  destruct (lstrip s) as [|c s2]; simpl; [discriminate|].
  destruct (Ascii.eqb c ",") eqn:E; [|discriminate].
  apply Ascii.eqb_eq in E. subst c.
  destruct (lstrip_split s2) as [w2 [Hw2 Hs2]].
  destruct (lstrip s2) as [|u t]; simpl; [discriminate|].
  destruct (is_upper u) eqn:Hu; [|discriminate].
  intros [= <-]. exists w1, w2. repeat split; try assumption.
  rewrite Hs. simpl. now rewrite <- Hs2.
Qed.

(** A match does not look further than its upper-case letter. *)
Lemma match_sep_app (s r t : string) :
  match_sep s = Some r -> match_sep (s ++ t) = Some (r ++ t)%string.
Proof.
  rewrite !match_sep_eq, lstrip_app.
  destruct (all_space s) eqn:Hs.
  - rewrite (lstrip_all_space _ Hs). discriminate.
  - destruct (lstrip s) as [|c s2]; simpl; [discriminate|].
    destruct (Ascii.eqb c ","); [|discriminate].
    rewrite lstrip_app. destruct (all_space s2) eqn:Hs2.
    + rewrite (lstrip_all_space _ Hs2). discriminate.
    + destruct (lstrip s2) as [|u v]; simpl; [discriminate|].
      destruct (is_upper u); [|discriminate].
      intros H. injection H as <-. reflexivity.
Qed.

(** Blanks, a comma, blanks and an upper-case letter: a match. *)
Lemma match_sep_here (a w b : string) :
  all_space a = true -> all_space w = true -> starts_upper b = true ->
  match_sep (a ++ "," ++ w ++ b) = Some b.
Proof.
  intros Ha Hw Hb. rewrite match_sep_eq, lstrip_app, Ha. simpl.
  rewrite lstrip_app, Hw, (lstrip_starts_upper _ Hb).
  destruct b as [|u t]; simpl in *; [discriminate|]. now rewrite Hb.
Qed.

Lemma splitting_comma_app (a y : string) :
  starts_upper (lstrip y) = true -> splitting_comma (a ++ "," ++ y) = true.
Proof.
  intros H. induction a as [|c a IH]; simpl.
  - now rewrite H.
  - simpl in IH. rewrite IH. apply orb_true_r.
Qed.

Lemma splitting_comma_inv (s : string) :
  splitting_comma s = true ->
  exists a w b, s = (a ++ "," ++ w ++ b)%string /\
                all_space w = true /\ starts_upper b = true.
Proof.
  induction s as [|c s IH]; simpl; [discriminate|].
  intros H. apply orb_prop in H as [H|H].
  - apply andb_prop in H as [Hc Hu]. apply Ascii.eqb_eq in Hc. subst c.
    destruct (lstrip_split s) as [w [Hw Hs]].
    exists "", w, (lstrip s). simpl. rewrite <- Hs. now repeat split.
  - destruct (IH H) as [a [w [b [-> [Hw Hb]]]]].
    exists (String c a), w, b. now repeat split.
Qed.

(** A comma put after text with something in it makes no match where there
    was none. *)
Lemma match_sep_none_app (a x : string) :
  match_sep a = None -> all_space a = false ->
  match_sep (a ++ "," ++ x) = None.
Proof.
  rewrite !match_sep_eq, lstrip_app. intros Hm Ha. rewrite Ha.
  destruct (lstrip_not_all_space _ Ha) as [c [t [Hl Hc]]].
  rewrite Hl in *. simpl in *.
  destruct (Ascii.eqb c ","); [|reflexivity].
  rewrite lstrip_app. destruct (all_space t) eqn:Ht.
  - reflexivity.
  - destruct (lstrip t) as [|u v]; simpl in *; [reflexivity|].
    destruct (is_upper u); [discriminate | reflexivity].
Qed.

Lemma re_split_cons (c : ascii) (s : string) :
  re_split (String c s) =
  match match_sep (String c s) with
  | Some rest => "" :: re_split rest
  | None => push c (re_split s)
  end.
Proof.
  simp re_split. unfold inspect.
  generalize (@eq_refl _ (match_sep (String c s))).
  generalize (match_sep (String c s)) at 2 4 5.
  intros [rest|] e; simp re_split; reflexivity.
Qed.

Lemma re_split_not_nil (s : string) : re_split s <> [].
Proof.
  destruct s as [|c s]; [simp re_split; discriminate|].
  rewrite re_split_cons. destruct (match_sep (String c s)); [discriminate|].
  destruct (re_split s); discriminate.
Qed.

Lemma match_sep_all_space (s : string) :
  all_space s = true -> match_sep s = None.
Proof.
  intros H. rewrite match_sep_eq, (lstrip_all_space _ H). reflexivity.
Qed.

(** Text without a match anywhere is one piece. *)
Lemma re_split_no_match (s : string) :
  (forall p x, s = (p ++ x)%string -> match_sep x = None) ->
  re_split s = [s].
Proof.
  induction s as [|c s IH]; intros H; [now simp re_split|].
  rewrite re_split_cons, (H "" (String c s) eq_refl).
  rewrite IH; [reflexivity|].
  intros p x ->. apply (H (String c p) x). reflexivity.
Qed.

Lemma re_split_all_space (s : string) : all_space s = true -> re_split s = [s].
Proof.
  intros H. apply re_split_no_match. intros p x ->.
  rewrite all_space_app in H. apply andb_prop in H as [_ H].
  now apply match_sep_all_space.
Qed.

(** One piece is the whole text. *)
Lemma re_split_single (s t : string) : re_split s = [t] -> t = s.
Proof.
  revert t. induction s as [|c s IH]; intros t.
  - simp re_split. now intros [= <-].
  - rewrite re_split_cons. destruct (match_sep (String c s)) as [rest|].
    + intros [= _ H]. now apply re_split_not_nil in H.
    + destruct (re_split s) as [|x [|y l]] eqn:E; simpl.
      * now apply re_split_not_nil in E.
      * intros [= <-]. now rewrite (IH x eq_refl).
      * discriminate.
Qed.

(** Splitting at a comma that the pattern accepts: the pieces of the text
    before it, the last of them without the blanks at its end (they belong
    to the match), and then the pieces of the text after it. *)
Lemma re_split_at_comma (a w b : string) :
  all_space w = true -> starts_upper b = true ->
  exists ts t, re_split a = ts ++ [t] /\
    re_split (a ++ "," ++ w ++ b) = ts ++ [rstrip t] ++ re_split b.
Proof.
  intros Hw Hb.
  remember (String.length a) as n eqn:Hn.
  revert a Hn. induction n as [n IH] using lt_wf_ind. intros a Hn.
  destruct a as [|c a].
  - exists [], "". split; [now simp re_split|].
    change ("" ++ "," ++ w ++ b)%string with (String "," (w ++ b)).
    rewrite re_split_cons.
    pose proof (match_sep_here "" w b eq_refl Hw Hb) as Hm.
    simpl in Hm. now rewrite Hm.
  - change (String c a ++ "," ++ w ++ b)%string
      with (String c (a ++ "," ++ w ++ b)).
    rewrite !re_split_cons.
    change (String c (a ++ "," ++ w ++ b))
      with (String c a ++ "," ++ w ++ b)%string.
    destruct (match_sep (String c a)) as [rest|] eqn:Hm.
    + rewrite (match_sep_app _ _ ("," ++ w ++ b) Hm).
      pose proof (match_sep_shorter _ _ Hm) as Hlt.
      destruct (IH (String.length rest) ltac:(lia) rest eq_refl)
        as [ts [t [H1 H2]]].
      exists ("" :: ts), t. rewrite H1, H2. split; reflexivity.
    + destruct (all_space (String c a)) eqn:Hs.
      * rewrite (match_sep_here _ w b Hs Hw Hb).
        exists [], (String c a).
        pose proof (re_split_all_space _ Hs) as Ha.
        rewrite re_split_cons, Hm in Ha. rewrite Ha.
        rewrite (rstrip_all_space _ Hs). split; reflexivity.
      * rewrite (match_sep_none_app _ (w ++ b) Hm Hs).
        destruct (IH (String.length a) ltac:(simpl in Hn; lia) a eq_refl)
          as [ts [t [H1 H2]]].
        rewrite H1, H2. destruct ts as [|x ts].
        -- simpl. exists [], (String c t). split; [reflexivity|].
           simpl. destruct (is_space c && is_empty (rstrip t)) eqn:E;
             [|reflexivity].
           apply andb_prop in E as [Ec Et].
           apply re_split_single in H1. subst t.
           simpl in Hs. rewrite Ec in Hs. simpl in Hs.
           rewrite rstrip_empty_all_space in Hs; [discriminate|].
           now destruct (rstrip a).
        -- exists (String c x :: ts), t. split; reflexivity.
Qed.

End PatternFacts.

(** ** The variant splitter *)

Section VariantSplitter.

Import PyStr Re ReSplit Pmkb.

(** C3, as stated, fails on its own example: in ["p.Arg100Gln, p.Arg100His"]
    the comma is followed by a blank and a lower-case [p], so the cell stays
    one piece and is not split in two. *)
Lemma variant_lowercase_p_not_split :
  tokens re_split (Some "p.Arg100Gln, p.Arg100His")
  <> ["p.Arg100Gln"; "p.Arg100His"].
Proof. vm_compute. discriminate. Qed.

(** C3, amended: a [Variant] cell is split at a comma exactly when the comma
    is followed by optional blanks and then an upper-case letter.  A comma of
    that kind separates the pieces of the text before it from the pieces of
    the text after it, so that a cell with such a comma gives two pieces or
    more; a cell without such a comma is one piece.  So
    ["L858R, T790M"] gives two pieces, while ["p.Arg100Gln, p.Arg100His"]
    (lower-case [p]) and ["exon 19 deletion, in-frame"] stay whole. *)
Theorem variant_split_rule :
  (forall a w b : string,
      all_space w = true -> starts_upper b = true ->
      tokens re_split (Some (a ++ "," ++ w ++ b)%string)
      = tokens re_split (Some a) ++ tokens re_split (Some b))
  /\ (forall s : string,
      splitting_comma s = true ->
      2 <= List.length (tokens re_split (Some s)))
  /\ (forall s : string,
      splitting_comma s = false -> tokens re_split (Some s) = [strip s])
  /\ tokens re_split (Some "L858R, T790M") = ["L858R"; "T790M"]
  /\ tokens re_split (Some "p.Arg100Gln, p.Arg100His")
     = ["p.Arg100Gln, p.Arg100His"]
  /\ tokens re_split (Some "exon 19 deletion, in-frame")
     = ["exon 19 deletion, in-frame"].
Proof.
  assert (Hsplit : forall a w b : string,
      all_space w = true -> starts_upper b = true ->
      tokens re_split (Some (a ++ "," ++ w ++ b)%string)
      = tokens re_split (Some a) ++ tokens re_split (Some b)).
  { intros a w b Hw Hb. unfold tokens.
    destruct (re_split_at_comma a w b Hw Hb) as [ts [t [H1 H2]]].
    rewrite H1, H2, !map_app. simpl.
    now rewrite strip_rstrip, <- app_assoc. }
  split; [exact Hsplit|].
  split; [|split; [|repeat split; vm_compute; reflexivity]].
  - intros s H.
    destruct (splitting_comma_inv _ H) as [a [w [b [-> [Hw Hb]]]]].
    rewrite (Hsplit a w b Hw Hb), length_app. unfold tokens.
    rewrite !length_map.
    pose proof (re_split_not_nil a). pose proof (re_split_not_nil b).
    destruct (re_split a); [congruence|].
    destruct (re_split b); [congruence|]. simpl. lia.
  - intros s H. unfold tokens. rewrite re_split_no_match; [reflexivity|].
    intros p x ->. destruct (match_sep x) as [r|] eqn:Hm; [|reflexivity].
    destruct (match_sep_inv _ _ Hm) as [w1 [w2 [-> [_ [Hw2 Hr]]]]].
    rewrite <- append_assoc, splitting_comma_app in H.
    + discriminate.
    + now rewrite lstrip_app, Hw2, (lstrip_starts_upper _ Hr).
Qed.

Lemma variant_split_rule_witness :
  tokens re_split (Some "V600E ,  V600K, in cis")
  = tokens re_split (Some "V600E ") ++ tokens re_split (Some "V600K, in cis")
  /\ tokens re_split (Some "deletion, exon 19") = ["deletion, exon 19"].
Proof.
  split.
  - apply (proj1 variant_split_rule "V600E " "  " "V600K, in cis");
      reflexivity.
  - apply (proj2 (proj2 variant_split_rule)). reflexivity.
Defined.

End VariantSplitter.

(** ** The cleaned frame *)

Section CleanFacts.

Import PyStr Pmkb.

Lemma combine_seq_nth {A : Type} (l : list A) (start i : nat) :
  nth_error (combine (seq start (List.length l)) l) i
  = option_map (pair (start + i)) (nth_error l i).
Proof.
  revert start i. induction l as [|a l IH]; intros start i.
  - now destruct i.
  - destruct i as [|i]; simpl.
    + now rewrite Nat.add_0_r.
    + rewrite IH. now rewrite Nat.add_succ_r.
Qed.

Lemma enumerate_nth {A : Type} (l : list A) (i : nat) :
  nth_error (enumerate l) i = option_map (pair i) (nth_error l i).
Proof. apply (combine_seq_nth l 0 i). Qed.

Lemma mapM_Ok {A B : Type} (f : A -> Result B) (l : list A) (l' : list B) :
  mapM f l = Ok l' -> Forall2 (fun a b => f a = Ok b) l l'.
Proof.
  revert l'. induction l as [|a l IH]; intros l'; simpl.
  - intros [= <-]. constructor.
  - destruct (f a) as [b|e] eqn:Hf; simpl; [|discriminate].
    destruct (mapM f l) as [bs|e]; simpl; [|discriminate].
    intros [= <-]. constructor; [exact Hf | now apply IH].
Qed.

Lemma mapM_Raise {A B : Type} (f : A -> Result B) (l : list A) (e : PyError) :
  mapM f l = Raise e -> exists a, In a l /\ f a = Raise e.
Proof.
  induction l as [|a l IH]; simpl; [discriminate|].
  destruct (f a) as [b|e'] eqn:Hf; simpl.
  - destruct (mapM f l) as [bs|e'']; simpl; [discriminate|].
    intros [= <-]. destruct (IH eq_refl) as [x [Hx Hfx]].
    exists x. split; [now right | exact Hfx].
  - intros [= <-]. exists a. split; [now left | exact Hf].
Qed.

Lemma mapM_total {A B : Type} (f : A -> Result B) (l : list A) :
  (forall a, In a l -> exists b, f a = Ok b) -> exists l', mapM f l = Ok l'.
Proof.
  induction l as [|a l IH]; intros H; simpl.
  - now exists [].
  - destruct (H a (or_introl eq_refl)) as [b ->].
    destruct IH as [l' ->]; [intros x Hx; apply H; now right|].
    now exists (b :: l').
Qed.

Lemma Forall2_nth_l {A B : Type} (R : A -> B -> Prop) l l' i a :
  Forall2 R l l' -> nth_error l i = Some a ->
  exists b, nth_error l' i = Some b /\ R a b.
Proof.
  intros H. revert i. induction H as [|x y l l' Hxy H IH]; intros i.
  - now destruct i.
  - destruct i as [|i]; simpl.
    + intros [= <-]. now exists y.
    + apply IH.
Qed.

Lemma Forall2_nth_r {A B : Type} (R : A -> B -> Prop) l l' i b :
  Forall2 R l l' -> nth_error l' i = Some b ->
  exists a, nth_error l i = Some a /\ R a b.
Proof.
  intros H. revert i. induction H as [|x y l l' Hxy H IH]; intros i.
  - now destruct i.
  - destruct i as [|i]; simpl.
    + intros [= <-]. now exists x.
    + apply IH.
Qed.

(** Row [i] of the cleaned frame comes from row [i] of the sheet. *)
Lemma clean_nth sheet df i r :
  clean_pmkb_df sheet = Ok df -> nth_error sheet i = Some r ->
  exists row, nth_error df i = Some row
              /\ clean_row (object_tiers sheet) (i, r) = Ok row.
Proof.
  intros H Hr. apply mapM_Ok in H.
  apply (Forall2_nth_l _ _ _ i (i, r) H).
  now rewrite enumerate_nth, Hr.
Qed.

Lemma clean_nth_inv sheet df i row :
  clean_pmkb_df sheet = Ok df -> nth_error df i = Some row ->
  exists r, nth_error sheet i = Some r
            /\ clean_row (object_tiers sheet) (i, r) = Ok row.
Proof.
  intros H Hr. apply mapM_Ok in H.
  destruct (Forall2_nth_r _ _ _ i row H Hr) as [[j r] [Hj Hc]].
  rewrite enumerate_nth in Hj.
  destruct (nth_error sheet i) as [r'|]; [|discriminate].
  injection Hj as <- <-. now exists r'.
Qed.

Lemma clean_row_inv o i r row :
  clean_row o (i, r) = Ok row ->
  coerce_tier o (Sheet.Tier r) = Ok (Row.Tier row)
  /\ row = {| Row.Source := i;
              Row.Gene := Sheet.Gene r;
              Row.TumorType := Sheet.TumorTypes r;
              Row.TissueType := Sheet.TissueTypes r;
              Row.Variant := Sheet.Variants r;
              Row.Tier := Row.Tier row;
              Row.Interpretation := Sheet.Interpretations r;
              Row.Citation := collapse_citations (Sheet.Citations r) |}.
Proof.
  unfold clean_row. destruct (coerce_tier o (Sheet.Tier r)) as [z|e]; simpl.
  - intros [= <-]. split; reflexivity.
  - discriminate.
Qed.

Lemma clean_length sheet df :
  clean_pmkb_df sheet = Ok df -> List.length df = List.length sheet.
Proof.
  intros H. apply mapM_Ok, Forall2_length in H.
  unfold enumerate in H. rewrite length_combine, length_seq in H. lia.
Qed.

End CleanFacts.

(** ** Citations *)

Section Citations.

Import PyStr Pmkb Examples.

Lemma collapse_blank_tail (cells blanks : list Cell) :
  forallb (fun c => is_empty (fillna c)) blanks = true ->
  collapse_citations (cells ++ blanks) = collapse_citations cells.
Proof.
  intros Hb. unfold collapse_citations. rewrite map_app.
  assert (E : map fillna blanks = repeat ""%string (List.length blanks)).
  { induction blanks as [|c l IH]; [reflexivity|].
    simpl in Hb. apply andb_prop in Hb as [Hc Hl]. simpl.
    rewrite (IH Hl). destruct (fillna c); [reflexivity | discriminate]. }
  rewrite E.
  destruct (join_blanks newline (map fillna cells) (List.length blanks)
              eq_refl) as [w [Hw ->]].
  now apply strip_app_space.
Qed.

(** C2, as stated, fails: the citation cells ["A"], empty, ["B"] of the
    first fact of [sheet_egfr] give ["A\n\nB"], with an empty line, and not
    ["A\nB"]. *)
Lemma citations_keep_inner_blank :
  exists row,
    clean_pmkb_df sheet_egfr = Ok [row]
    /\ Sheet.Citations egfr = [Some "A"; None; Some "B"]
    /\ Row.Citation row = ("A" ++ newline ++ newline ++ "B")%string
    /\ Row.Citation row <> ("A" ++ newline ++ "B")%string.
Proof.
  eexists. split; [vm_compute; reflexivity|].
  repeat split. vm_compute. discriminate.
Qed.

(** C2, amended: for every fact, the cells at or after the first citation
    column are newline-joined in left-to-right order, an empty cell counting
    as empty text, and the blanks at both ends of the result are stripped.
    Empty cells after the last citation therefore leave no trace, while an
    empty cell between two citations leaves an empty line: the cells ["A"],
    empty, ["B"] give ["A\n\nB"]. *)
Theorem citations_collapsed (sheet : list Sheet.row) (df : list Row.row) :
  clean_pmkb_df sheet = Ok df ->
  forall i r, nth_error sheet i = Some r ->
  exists row,
    nth_error df i = Some row
    /\ Row.Citation row
       = strip (join newline (map fillna (Sheet.Citations r)))
    /\ (forall cells blanks,
          Sheet.Citations r = cells ++ blanks ->
          forallb (fun c => is_empty (fillna c)) blanks = true ->
          Row.Citation row = strip (join newline (map fillna cells)))
    /\ (Sheet.Citations r = [Some "A"; None; Some "B"]%string ->
        Row.Citation row = ("A" ++ newline ++ newline ++ "B")%string).
Proof.
  intros H i r Hr. destruct (clean_nth _ _ _ _ H Hr) as [row [Hrow Hc]].
  exists row. split; [exact Hrow|].
  apply clean_row_inv in Hc as [_ ->]. simpl.
  split; [reflexivity|]. split.
  - intros cells blanks -> Hb. now apply collapse_blank_tail.
  - intros ->. reflexivity.
Qed.

Lemma citations_collapsed_witness :
  exists row,
    nth_error [{| Row.Source := 0;
                  Row.Gene := Some "KRAS";
                  Row.TumorType := Some "Lung Cancer";
                  Row.TissueType := Some "Lung";
                  Row.Variant := Some "G12C";
                  Row.Tier := 2;
                  Row.Interpretation := Some "Sensitizing mutation.";
                  Row.Citation := ("C" ++ newline ++ "D")%string |}] 0
    = Some row
    /\ Row.Citation row = strip (join newline ["C"; "D"]%string).
Proof.
  destruct (citations_collapsed
              [Examples.fact (Some "KRAS") (Some "Lung Cancer") (Some "Lung")
                 (Some "G12C") (TierText " 2 ") [Some "C"; Some "D"; None]]
              _ eq_refl 0 _ eq_refl) as [row [Hrow [_ [Hc _]]]].
  exists row. split; [exact Hrow|].
  apply (Hc [Some "C"; Some "D"]%string [None]); reflexivity.
Defined.

End Citations.

(** ** Tiers *)

Section Tiers.

Import PyStr PyInt Pmkb Store Script Examples.

Lemma has_digit_lskip (s : string) :
  has_digit (lskip s) = true -> has_digit s = true.
Proof.
  induction s as [|c s IH]; simpl; [discriminate|].
  destruct (is_blank c); simpl; [|exact (fun H => H)].
  intros H. rewrite (IH H). now destruct (digit c).
Qed.

Lemma has_digit_rskip (s : string) :
  has_digit (rskip s) = true -> has_digit s = true.
Proof.
  induction s as [|c s IH]; simpl; [discriminate|].
  destruct (is_blank c && is_empty (rskip s)); simpl; [discriminate|].
  destruct (digit c); [reflexivity | exact IH].
Qed.

Lemma digits_has_digit (s : string) (acc : Z) (z : Z) :
  digits acc false s = Some z -> has_digit s = true.
Proof.
  destruct s as [|c s]; simpl; [discriminate|].
  destruct (digit c); [reflexivity|].
  rewrite andb_false_r. discriminate.
Qed.

Lemma literal_has_digit (t : string) (z : Z) :
  literal t = Some z -> has_digit t = true.
Proof.
  assert (Hd : forall t z, digits 0 false t = Some z -> has_digit t = true)
    by (intros ? ?; apply digits_has_digit).
  destruct t as [|c t]; [discriminate|].
  assert (Ht : forall z, digits 0 false t = Some z ->
                         has_digit (String c t) = true).
  { intros z' H. simpl. rewrite (Hd _ _ H). now destruct (digit c). }
  destruct c as [[] [] [] [] [] [] [] []]; try apply Hd; unfold literal.
  - apply Ht.
  - destruct (digits 0 false t) as [z'|] eqn:E; [|discriminate].
    intros _. now apply (Ht z').
Qed.

(** Text without a digit is no integer literal. *)
Lemma int_of_str_no_digit (s : string) :
  has_digit s = false -> int_of_str s = Raise ValueError.
Proof.
  intros H. unfold int_of_str.
  destruct (literal (rskip (lskip s))) as [z|] eqn:E; [|reflexivity].
  apply literal_has_digit, has_digit_rskip, has_digit_lskip in E. congruence.
Qed.

Lemma int_of_str_error (s : string) (e : PyError) :
  int_of_str s = Raise e -> e = ValueError.
Proof.
  unfold int_of_str.
  destruct (literal (rskip (lskip s))); [|now intros [= <-]].
  destruct (count_digits (rskip (lskip s)) <=? max_str_digits)%Z;
    [discriminate | now intros [= <-]].
Qed.

(** Text whose first character is no blank, no sign and no digit is
    refused: the separators FS..US, which [str.strip] would drop, are such
    characters. *)
Lemma int_of_str_first (c : ascii) (s : string) :
  is_blank c = false -> digit c = None -> c <> "-"%char -> c <> "+"%char ->
  int_of_str (String c s) = Raise ValueError.
Proof.
  intros Hb Hd Hm Hp. unfold int_of_str. cbn [lskip rskip]. rewrite Hb.
  cbn [rskip]. rewrite Hb. cbn [andb].
  assert (E : literal (String c (rskip s))
              = digits 0 false (String c (rskip s))).
  { destruct c as [[] [] [] [] [] [] [] []]; try reflexivity; congruence. }
  rewrite E. cbn [digits]. rewrite Hd, andb_false_r. reflexivity.
Qed.

(** *** Decimal text *)

Lemma digits_of_uint_acc (d : Decimal.uint) (p : positive) :
  digits (Zpos p) true (NilEmpty.string_of_uint d)
  = Some (Zpos (Pos.of_uint_acc d p)).
Proof.
  revert p. induction d; intros p;
    cbn [NilEmpty.string_of_uint digits Pos.of_uint_acc]; [reflexivity|..];
    match goal with
    | |- context [digit ?c] =>
        let v := eval vm_compute in (digit c) in change (digit c) with v
    end; cbv iota beta;
    match goal with
    | |- digits ?z true _ = Some (Zpos (Pos.of_uint_acc _ ?q)) =>
        replace z with (Zpos q) by lia
    end; apply IHd.
Qed.

Lemma digits_of_uint (d : Decimal.uint) (seen : bool) :
  digits 0 seen (NilEmpty.string_of_uint d)
  = match d with
    | Decimal.Nil => if seen then Some 0%Z else None
    | _ => Some (Z.of_N (Pos.of_uint d))
    end.
Proof.
  revert seen. induction d; intros seen;
    cbn [NilEmpty.string_of_uint digits Pos.of_uint]; [reflexivity|..];
    match goal with
    | |- context [digit ?c] =>
        let v := eval vm_compute in (digit c) in change (digit c) with v
    end; cbv iota beta; change (10 * 0 + 0)%Z with 0%Z;
    [rewrite IHd; now destruct d|..];
    match goal with
    | |- digits ?z true _ = _ =>
        let v := eval vm_compute in z in change z with v
    end; apply digits_of_uint_acc.
Qed.

Lemma literal_of_uint (d : Decimal.uint) :
  d <> Decimal.Nil ->
  literal (NilEmpty.string_of_uint d) = Some (Z.of_N (Pos.of_uint d))
  /\ literal (String "-" (NilEmpty.string_of_uint d))
     = Some (- Z.of_N (Pos.of_uint d))%Z.
Proof.
  intros Hd. split.
  - transitivity (digits 0 false (NilEmpty.string_of_uint d)).
    + destruct d; [congruence | reflexivity..].
    + rewrite digits_of_uint. destruct d; [congruence | reflexivity..].
  - unfold literal. rewrite (digits_of_uint d false).
    destruct d; [congruence | reflexivity..].
Qed.

Lemma count_digits_of_uint (d : Decimal.uint) :
  count_digits (NilEmpty.string_of_uint d) = Z.of_nat (Decimal.nb_digits d).
Proof.
  induction d; cbn [NilEmpty.string_of_uint count_digits Decimal.nb_digits];
    [reflexivity|..];
    match goal with
    | |- context [digit ?c] =>
        let v := eval vm_compute in (digit c) in change (digit c) with v
    end; cbv iota beta; rewrite IHd; lia.
Qed.

(** Decimal text has no blank in it. *)
Lemma rskip_of_uint (d : Decimal.uint) (w : string) :
  all_blank w = true ->
  rskip (NilEmpty.string_of_uint d ++ w) = NilEmpty.string_of_uint d.
Proof.
  intros Hw. induction d; cbn [NilEmpty.string_of_uint append rskip];
    [|rewrite IHd; reflexivity..].
  induction w as [|c w IH]; [reflexivity|].
  simpl in *. apply andb_prop in Hw as [Hc Hw]. now rewrite (IH Hw), Hc.
Qed.

Lemma lskip_blank (w s : string) :
  all_blank w = true -> lskip (w ++ s) = lskip s.
Proof.
  intros Hw. induction w as [|c w IH]; [reflexivity|].
  simpl in *. apply andb_prop in Hw as [Hc Hw]. now rewrite Hc, (IH Hw).
Qed.

Lemma lskip_of_uint (d : Decimal.uint) (s : string) :
  d <> Decimal.Nil ->
  lskip (NilEmpty.string_of_uint d ++ s)
  = (NilEmpty.string_of_uint d ++ s)%string.
Proof. destruct d; [congruence | reflexivity..]. Qed.

(** [int()] reads a decimal numeral between blanks, with or without the
    minus sign, when it has no more digits than the limit. *)
Lemma int_of_str_uint (d : Decimal.uint) (w w' : string) :
  d <> Decimal.Nil ->
  (Z.of_nat (Decimal.nb_digits d) <= max_str_digits)%Z ->
  all_blank w = true -> all_blank w' = true ->
  int_of_str (w ++ NilEmpty.string_of_uint d ++ w')
  = Ok (Z.of_N (Pos.of_uint d))
  /\ int_of_str (w ++ String "-" (NilEmpty.string_of_uint d) ++ w')
     = Ok (- Z.of_N (Pos.of_uint d))%Z.
Proof.
  intros Hd Hn Hw Hw'. destruct (literal_of_uint d Hd) as [Hp Hm].
  apply Z.leb_le in Hn. unfold int_of_str. split.
  - rewrite (lskip_blank _ _ Hw), (lskip_of_uint _ _ Hd),
      (rskip_of_uint _ _ Hw'), Hp, count_digits_of_uint, Hn. reflexivity.
  - rewrite (lskip_blank _ _ Hw). cbn [append lskip].
    change (is_blank "-") with false. cbv iota. cbn [rskip].
    change (is_blank "-") with false. cbn [andb].
    rewrite (rskip_of_uint _ _ Hw'), Hm. cbn [count_digits].
    change (digit "-") with (@None Z). cbv iota.
    rewrite count_digits_of_uint, Hn. reflexivity.
Qed.

(** A numeral without leading zero is at least the power of ten of its
    length. *)
Lemma of_uint_acc_bound (d : Decimal.uint) (p : positive) :
  (Zpos p * 10 ^ Z.of_nat (Decimal.nb_digits d)
   <= Zpos (Pos.of_uint_acc d p))%Z.
Proof.
  revert p. induction d; intros p;
    cbn [Pos.of_uint_acc Decimal.nb_digits]; [simpl; lia|..];
    rewrite Nat2Z.inj_succ, Z.pow_succ_r by lia;
    (eapply Z.le_trans; [|apply IHd]);
    pose proof (Z.pow_nonneg 10 (Z.of_nat (Decimal.nb_digits d))) as Hp;
    nia.
Qed.

(** The decimal numeral of a 64-bit integer has at most 19 digits. *)
Lemma nb_digits_to_uint (p : positive) :
  (Zpos p < 10 ^ 19)%Z ->
  (Z.of_nat (Decimal.nb_digits (Pos.to_uint p)) <= 19)%Z.
Proof.
  intros Hp.
  pose proof (DecimalPos.Unsigned.of_to p) as Hof.
  pose proof (DecimalPos.Unsigned.to_of (Pos.to_uint p)) as Hto.
  rewrite Hof in Hto. cbn [N.to_uint] in Hto.
  destruct (Pos.to_uint p) as [|d|d|d|d|d|d|d|d|d|d] eqn:E;
    cbn [Decimal.nb_digits]; [lia| |..].
  1: { exfalso.
       destruct (Decimal.uint_eq_dec d Decimal.Nil) as [->|Hd].
       - now apply (DecimalPos.Unsigned.to_uint_nonzero p).
       - pose proof (DecimalFacts.nb_digits_unorm d Hd) as Hn.
         rewrite DecimalFacts.unorm_D0 in Hto. rewrite <- Hto in Hn.
         cbn [Decimal.nb_digits] in Hn. lia. }
  all: cbn [Pos.of_uint] in Hof; injection Hof as Hof;
      match type of Hof with
      | Pos.of_uint_acc ?l ?k = _ =>
          pose proof (of_uint_acc_bound l k) as Hb;
          rewrite Hof in Hb;
          destruct (Z.le_gt_cases (Z.of_nat (Decimal.nb_digits l)) 18)
            as [Hle|Hgt]; [lia|];
          pose proof (Z.pow_le_mono_r 10 19 (Z.of_nat (Decimal.nb_digits l))
                        ltac:(lia) ltac:(lia)) as Hpow;
          lia
      end.
Qed.

(** [int()] reads back the decimal text of a 64-bit integer, with blanks
    around it or without. *)
Lemma int_of_str_decimal (z : Z) (w w' : string) :
  Int64.fits z = true -> all_blank w = true -> all_blank w' = true ->
  int_of_str (w ++ NilZero.string_of_int (Z.to_int z) ++ w') = Ok z.
Proof.
  intros Hz Hw Hw'.
  apply andb_prop in Hz as [Hlo Hhi].
  apply Z.leb_le in Hlo, Hhi. unfold Int64.min in Hlo. unfold Int64.max in Hhi.
  destruct z as [|p|p]; cbn [Z.to_int NilZero.string_of_int].
  - apply (proj1 (int_of_str_uint (Decimal.D0 Decimal.Nil) w w'
                    ltac:(discriminate) ltac:(vm_compute; discriminate) Hw Hw')).
  - pose proof (DecimalPos.Unsigned.to_uint_nonnil p) as Hnil.
    pose proof (nb_digits_to_uint p ltac:(lia)) as Hn.
    pose proof (DecimalPos.Unsigned.of_to p) as Hof.
    replace (NilZero.string_of_uint (Pos.to_uint p))
      with (NilEmpty.string_of_uint (Pos.to_uint p))
      by (destruct (Pos.to_uint p); [congruence | reflexivity..]).
    rewrite (proj1 (int_of_str_uint (Pos.to_uint p) w w' Hnil
                      ltac:(unfold max_str_digits; lia) Hw Hw')), Hof.
    reflexivity.
  - pose proof (DecimalPos.Unsigned.to_uint_nonnil p) as Hnil.
    pose proof (nb_digits_to_uint p ltac:(lia)) as Hn.
    pose proof (DecimalPos.Unsigned.of_to p) as Hof.
    replace (NilZero.string_of_uint (Pos.to_uint p))
      with (NilEmpty.string_of_uint (Pos.to_uint p))
      by (destruct (Pos.to_uint p); [congruence | reflexivity..]).
    rewrite (proj2 (int_of_str_uint (Pos.to_uint p) w w' Hnil
                      ltac:(unfold max_str_digits; lia) Hw Hw')), Hof.
    reflexivity.
Qed.

(** *** The coercion *)

(** Cutting the fraction off goes towards zero and loses less than one
    unit; a whole number is kept. *)
Lemma truncate_bounds (q : Q) :
  (0 <= q -> inject_Z (truncate q) <= q /\ q < inject_Z (truncate q) + 1)%Q
  /\ (q <= 0 ->
      q <= inject_Z (truncate q) /\ inject_Z (truncate q) - 1 < q)%Q
  /\ (forall n : Z, (q == inject_Z n)%Q -> truncate q = n).
Proof.
  destruct q as [n d]. unfold truncate, Qle, Qlt, Qeq, Qplus, Qminus, Qopp,
    inject_Z. simpl.
  pose proof (Z.quot_rem' n (Zpos d)) as Hqr.
  split; [|split].
  - intros Hn. assert (H0 : (0 <= n)%Z) by lia.
    pose proof (Z.rem_bound_pos n (Zpos d) H0 ltac:(lia)). nia.
  - intros Hn. assert (H0 : (n <= 0)%Z) by lia.
    pose proof (Z.rem_bound_pos (- n) (Zpos d) ltac:(lia) ltac:(lia)) as Hr.
    rewrite Z.rem_opp_l in Hr by lia. nia.
  - intros m Hm. rewrite Z.mul_1_r in Hm. subst n.
    apply Z.quot_mul. lia.
Qed.

(** The numbers that keep their integer part in 64 bits. *)
Lemma fits_truncate (q : Q) :
  Int64.fits (truncate q) = true
  <-> (inject_Z Int64.min - 1 < q /\ q < inject_Z Int64.max + 1)%Q.
Proof.
  unfold Int64.fits. rewrite andb_true_iff, !Z.leb_le.
  destruct q as [n d]. unfold truncate, Qlt, Qplus, Qminus, Qopp, inject_Z,
    Int64.min, Int64.max. simpl.
  pose proof (Z.quot_rem' n (Zpos d)) as Hqr.
  destruct (Z.le_gt_cases 0 n) as [Hn|Hn].
  - pose proof (Z.rem_bound_pos n (Zpos d) Hn ltac:(lia)).
    pose proof (Z.quot_pos n (Zpos d) Hn ltac:(lia)). split; intros; nia.
  - pose proof (Z.rem_bound_pos (- n) (Zpos d) ltac:(lia) ltac:(lia)) as Hr.
    rewrite Z.rem_opp_l in Hr by lia.
    assert (n ÷ Zpos d <= 0)%Z.
    { rewrite <- (Z.opp_involutive n), Z.quot_opp_l by lia.
      pose proof (Z.quot_pos (- n) (Zpos d) ltac:(lia) ltac:(lia)). lia. }
    split; intros; nia.
Qed.

Lemma fits_beyond (q : Q) :
  (q <= inject_Z Int64.min - 1 \/ inject_Z Int64.max + 1 <= q)%Q ->
  Int64.fits (truncate q) = false.
Proof.
  intros Hq. destruct (Int64.fits (truncate q)) eqn:E; [|reflexivity].
  apply fits_truncate in E as [E1 E2]. destruct Hq as [Hq|Hq]; exfalso.
  - exact (Qlt_irrefl _ (Qlt_le_trans _ _ _ E1 Hq)).
  - exact (Qlt_irrefl _ (Qlt_le_trans _ _ _ E2 Hq)).
Qed.

Lemma coerce_number (o : bool) (q : Q) :
  Int64.fits (truncate q) = true ->
  coerce_tier o (TierNumber q) = Ok (truncate q).
Proof.
  intros H. unfold coerce_tier, Int64.of_int, Int64.of_float. rewrite H.
  now destruct o.
Qed.

Lemma coerce_number_beyond (q : Q) :
  Int64.fits (truncate q) = false ->
  coerce_tier false (TierNumber q) = Ok Int64.min
  /\ coerce_tier true (TierNumber q) = Raise OverflowError.
Proof.
  intros H. unfold coerce_tier, Int64.of_int, Int64.of_float. rewrite H.
  now split.
Qed.

Lemma coerce_text (o : bool) (s : string) (z : Z) :
  int_of_str s = Ok z ->
  coerce_tier o (TierText s)
  = if Int64.fits z then Ok z else Raise OverflowError.
Proof. intros H. unfold coerce_tier, Int64.of_int. now rewrite H. Qed.

Lemma coerce_text_refused (o : bool) (s : string) :
  int_of_str s = Raise ValueError ->
  coerce_tier o (TierText s) = Raise ValueError.
Proof. intros H. unfold coerce_tier. now rewrite H. Qed.

(** What the coercion returns fits into 64 bits. *)
Lemma coerce_fits (o : bool) (t : TierCell) (z : Z) :
  coerce_tier o t = Ok z -> Int64.fits z = true.
Proof.
  unfold coerce_tier, Int64.of_int, Int64.of_float.
  destruct t as [|q|s].
  - now intros [= <-].
  - destruct (Int64.fits (truncate q)) eqn:E; destruct o;
      intros [= <-]; easy.
  - destruct (int_of_str s) as [n|e]; simpl; [|discriminate].
    destruct (Int64.fits n) eqn:E; [|discriminate]. now intros [= <-].
Qed.

Lemma coerce_text_inv (o : bool) (s : string) (z : Z) :
  coerce_tier o (TierText s) = Ok z -> int_of_str s = Ok z.
Proof.
  unfold coerce_tier, Int64.of_int.
  destruct (int_of_str s) as [n|e]; simpl; [|discriminate].
  destruct (Int64.fits n); [|discriminate]. now intros [= <-].
Qed.

(** The two errors of the coercion. *)
Lemma coerce_error (o : bool) (t : TierCell) (e : PyError) :
  coerce_tier o t = Raise e -> e = ValueError \/ e = OverflowError.
Proof.
  unfold coerce_tier, Int64.of_int, Int64.of_float.
  destruct t as [|q|s]; [discriminate| |].
  - destruct o; [|discriminate].
    destruct (Int64.fits (truncate q)); [discriminate|].
    intros [= <-]. now right.
  - destruct (int_of_str s) as [n|e'] eqn:E; simpl.
    + destruct (Int64.fits n); [discriminate|]. intros [= <-]. now right.
    + intros [= <-]. left. now apply int_of_str_error in E.
Qed.

(** Only the tier can make a row fail. *)
Lemma clean_row_error (o : bool) (i : nat) (r : Sheet.row) (e : PyError) :
  clean_row o (i, r) = Raise e <-> coerce_tier o (Sheet.Tier r) = Raise e.
Proof.
  unfold clean_row. destruct (coerce_tier o (Sheet.Tier r)); simpl;
    split; intros H; try discriminate; injection H as ->; reflexivity.
Qed.

(** The first element that fails gives the error of [mapM]. *)
Lemma mapM_first {A B : Type} (f : A -> Result B) (l : list A) (i : nat)
      (a : A) (e : PyError) :
  nth_error l i = Some a -> f a = Raise e ->
  (forall j b, j < i -> nth_error l j = Some b -> exists y, f b = Ok y) ->
  mapM f l = Raise e.
Proof.
  revert i. induction l as [|x l IH]; intros i Hi Hf Hbefore.
  - now destruct i.
  - destruct i as [|i]; simpl in Hi |- *.
    + injection Hi as ->. now rewrite Hf.
    + destruct (Hbefore 0 x ltac:(lia) eq_refl) as [y ->]. simpl.
      rewrite (IH i Hi Hf); [reflexivity|].
      intros j b Hj Hb. apply (Hbefore (S j) b); [lia | exact Hb].
Qed.

(** A tier that cannot be coerced makes the cleaning raise, with the error
    of the first such tier. *)
Lemma clean_bad_tier sheet i r e :
  nth_error sheet i = Some r ->
  coerce_tier (object_tiers sheet) (Sheet.Tier r) = Raise e ->
  exists e',
    clean_pmkb_df sheet = Raise e'
    /\ (e' = ValueError \/ e' = OverflowError)
    /\ ((forall j r', j < i -> nth_error sheet j = Some r' ->
           exists z, coerce_tier (object_tiers sheet) (Sheet.Tier r') = Ok z)
        -> e' = e).
Proof.
  intros Hr Hc. destruct (clean_pmkb_df sheet) as [df|e'] eqn:E.
  - destruct (clean_nth _ _ _ _ E Hr) as [row [_ Hrow]].
    apply clean_row_inv in Hrow as [Hrow _]. congruence.
  - exists e'. split; [reflexivity|]. split.
    + apply mapM_Raise in E as [[j r'] [_ E]].
      apply clean_row_error in E. now apply coerce_error in E.
    + intros Hbefore.
      assert (E' : clean_pmkb_df sheet = Raise e); [|congruence].
      apply (mapM_first _ _ i (i, r)).
      * now rewrite enumerate_nth, Hr.
      * now apply clean_row_error.
      * intros j [k r'] Hj Hn. rewrite enumerate_nth in Hn.
        destruct (nth_error sheet j) as [r''|] eqn:Hj'; [|discriminate].
        injection Hn as <- <-.
        destruct (Hbefore j r'' Hj Hj') as [z Hz].
        unfold clean_row. rewrite Hz. simpl. eexists. reflexivity.
Qed.

(** C5: a missing tier becomes 0 and a tier that is present becomes a
    64-bit integer.  A number loses its fraction, towards zero; beyond the
    64 bits it becomes the least integer in a column of numbers and is an
    [OverflowError] in a column that also holds text.  Text is read by
    [int()]: the decimal text of a 64-bit integer, with blanks around it or
    without, gives that integer, and text that [int()] refuses, such as text
    without any digit or text that starts with a character that is no
    blank, sign or digit, is a [ValueError].  A tier that cannot be coerced
    makes the whole run raise, with [ValueError] or [OverflowError], the
    error of the first such tier, and nothing is written.  When every tier
    can be coerced the cleaning returns a frame. *)
Theorem tier_coercion (sheet : list Sheet.row) :
  (forall df, clean_pmkb_df sheet = Ok df ->
     forall i r, nth_error sheet i = Some r ->
     exists row,
       nth_error df i = Some row
       /\ coerce_tier (object_tiers sheet) (Sheet.Tier r) = Ok (Row.Tier row)
       /\ (Int64.min <= Row.Tier row <= Int64.max)%Z
       /\ (Sheet.Tier r = TierMissing -> Row.Tier row = 0%Z)
       /\ (forall q, Sheet.Tier r = TierNumber q ->
             Row.Tier row
             = if Int64.fits (truncate q) then truncate q else Int64.min)
       /\ (forall s, Sheet.Tier r = TierText s ->
             int_of_str s = Ok (Row.Tier row)))
  /\ (forall o q,
        (inject_Z Int64.min - 1 < q /\ q < inject_Z Int64.max + 1)%Q ->
        exists z,
          coerce_tier o (TierNumber q) = Ok z
          /\ (0 <= q -> inject_Z z <= q /\ q < inject_Z z + 1)%Q
          /\ (q <= 0 -> q <= inject_Z z /\ inject_Z z - 1 < q)%Q
          /\ (forall n : Z, (q == inject_Z n)%Q -> z = n))
  /\ (forall q,
        (q <= inject_Z Int64.min - 1 \/ inject_Z Int64.max + 1 <= q)%Q ->
        coerce_tier false (TierNumber q) = Ok Int64.min
        /\ coerce_tier true (TierNumber q) = Raise OverflowError)
  /\ (forall o z w w',
        (Int64.min <= z <= Int64.max)%Z ->
        all_blank w = true -> all_blank w' = true ->
        coerce_tier o
          (TierText (w ++ NilZero.string_of_int (Z.to_int z) ++ w'))
        = Ok z)
  /\ (forall o s,
        (has_digit s = false
         \/ int_of_str s = Raise ValueError
         \/ exists c s', s = String c s' /\ is_blank c = false
                         /\ digit c = None
                         /\ c <> "-"%char /\ c <> "+"%char) ->
        coerce_tier o (TierText s) = Raise ValueError)
  /\ (forall i r e,
        nth_error sheet i = Some r ->
        coerce_tier (object_tiers sheet) (Sheet.Tier r) = Raise e ->
        exists e',
          clean_pmkb_df sheet = Raise e'
          /\ (e' = ValueError \/ e' = OverflowError)
          /\ ((forall j r', j < i -> nth_error sheet j = Some r' ->
                 exists z,
                   coerce_tier (object_tiers sheet) (Sheet.Tier r') = Ok z)
              -> e' = e)
          /\ forall a fs,
               xlsx2df (pmkb_xlsx a) fs = (Ok sheet, fs) ->
               main a fs = (Raise e', fs))
  /\ ((forall r, In r sheet ->
         exists z, coerce_tier (object_tiers sheet) (Sheet.Tier r) = Ok z) ->
      exists df, clean_pmkb_df sheet = Ok df).
Proof.
  split; [|split; [|split; [|split; [|split; [|split]]]]].
  - intros df H i r Hr. destruct (clean_nth _ _ _ _ H Hr) as [row [Hrow Hc]].
    exists row. split; [exact Hrow|].
    apply clean_row_inv in Hc as [Hc _]. split; [exact Hc|]. split; [|split].
    + apply coerce_fits, andb_prop in Hc as [H1 H2].
      apply Z.leb_le in H1, H2. now split.
    + intros Ht. rewrite Ht in Hc. simpl in Hc. congruence.
    + split.
      * intros q Ht. rewrite Ht in Hc.
        destruct (Int64.fits (truncate q)) eqn:Hq.
        -- rewrite (coerce_number _ _ Hq) in Hc. congruence.
        -- destruct (coerce_number_beyond _ Hq) as [Hf Ho].
           destruct (object_tiers sheet); congruence.
      * intros s Ht. rewrite Ht in Hc. now apply coerce_text_inv in Hc.
  - intros o q Hq. apply fits_truncate in Hq. exists (truncate q).
    split; [now apply coerce_number | apply truncate_bounds].
  - intros q Hq. apply coerce_number_beyond, fits_beyond, Hq.
  - intros o z w w' [Hlo Hhi] Hw Hw'.
    assert (Hz : Int64.fits z = true).
    { unfold Int64.fits. apply andb_true_intro.
      split; now apply Z.leb_le. }
    rewrite (coerce_text o _ z (int_of_str_decimal z w w' Hz Hw Hw')), Hz.
    reflexivity.
  - intros o s [Hs|[Hs|[c [s' [-> [Hb [Hd [Hm Hp]]]]]]]];
      apply coerce_text_refused.
    + now apply int_of_str_no_digit.
    + exact Hs.
    + now apply int_of_str_first.
  - intros i r e Hr Hc.
    destruct (clean_bad_tier sheet i r e Hr Hc) as [e' [E [He Hfirst]]].
    exists e'. split; [exact E|]. split; [exact He|]. split; [exact Hfirst|].
    intros a fs Hx. unfold main, bindIO. rewrite Hx.
    unfold lift. rewrite E. reflexivity.
  - intros H. apply mapM_total. intros [i r] Hin.
    apply in_combine_r in Hin. destruct (H r Hin) as [z Hz].
    unfold clean_row. rewrite Hz. simpl. eexists. reflexivity.
Qed.

Lemma tier_coercion_witness :
  (exists row,
     nth_error [{| Row.Source := 0;
                   Row.Gene := Some "KRAS";
                   Row.TumorType := None;
                   Row.TissueType := Some "Lung";
                   Row.Variant := Some "G12C";
                   Row.Tier := 0;
                   Row.Interpretation := Some "Sensitizing mutation.";
                   Row.Citation := "C" |}] 0 = Some row
     /\ Row.Tier row = 0%Z)
  /\ coerce_tier true (TierText " -2 ") = Ok (-2)%Z
  /\ coerce_tier true (TierText "high") = Raise ValueError
  /\ main (args (Some "pmkb.db") None None None None) (disk sheet_braf)
     = (Raise ValueError, disk sheet_braf).
Proof.
  split; [|split; [|split]].
  - destruct (proj1 (tier_coercion [kras]) _ eq_refl 0 _ eq_refl)
      as [row [Hrow [_ [_ [H0 _]]]]].
    exists row. split; [exact Hrow | apply H0; reflexivity].
  - apply (proj1 (proj2 (proj2 (proj2 (tier_coercion [])))) true (-2)%Z
             " " " ");
      [unfold Int64.min, Int64.max; lia | reflexivity..].
  - apply (proj1 (proj2 (proj2 (proj2 (proj2 (tier_coercion []))))) true
             "high").
    left. reflexivity.
  - destruct (proj1 (proj2 (proj2 (proj2 (proj2 (proj2
                (tier_coercion sheet_braf))))))
                1 braf ValueError eq_refl eq_refl)
      as [e' [_ [_ [Hfirst Hmain]]]].
    rewrite <- Hfirst.
    + apply Hmain. reflexivity.
    + intros [|j] r' Hj Hr'; [|lia].
      injection Hr' as <-. exists 1%Z. reflexivity.
Defined.

End Tiers.

(** ** Joins and the entries table *)

Section EntryFacts.

Import PyStr ReSplit Pmkb.

Lemma merge_In {A B : Type} (L : list (nat * A)) (R : list (nat * B)) k a b :
  In (k, (a, b)) (merge L R) <-> In (k, a) L /\ In (k, b) R.
Proof.
  unfold merge. rewrite in_flat_map. split.
  - intros [[k1 a1] [HL H]]. apply in_map_iff in H as [[k2 b2] [E H]].
    apply filter_In in H as [HR Hk]. simpl in *.
    apply Nat.eqb_eq in Hk. injection E as -> -> ->. subst k2. now split.
  - intros [HL HR]. exists (k, a). split; [exact HL|].
    apply in_map_iff. exists (k, b). split; [reflexivity|].
    apply filter_In. split; [exact HR|]. simpl. apply Nat.eqb_refl.
Qed.

Lemma key_is_map_length {A B : Type} (g : B -> A) (X : list B) k i :
  List.length (filter (key_is i) (map (fun r => (k, g r)) X))
  = if k =? i then List.length X else 0.
Proof.
  induction X as [|x X IH]; simpl.
  - now destruct (k =? i).
  - unfold key_is at 1. simpl. destruct (k =? i); simpl; now rewrite IH.
Qed.

(** The rows of one key in a join: every left row of the key with every
    right row of the key. *)
Lemma merge_count {A B : Type} (L : list (nat * A)) (R : list (nat * B)) i :
  List.length (filter (key_is i) (merge L R))
  = List.length (filter (key_is i) L) * List.length (filter (key_is i) R).
Proof.
  unfold merge. induction L as [|[k a] L IH]; [reflexivity|].
  simpl. rewrite filter_app, length_app, IH.
  rewrite (key_is_map_length (fun r => (a, snd r))).
  unfold key_is at 3. simpl. destruct (k =? i) eqn:E; simpl; [|reflexivity].
  apply Nat.eqb_eq in E. subst k. reflexivity.
Qed.

(** In a list keyed by position, the rows of key [i] are those of place [i]. *)
Lemma keyed_flat_map {A B : Type} (h : nat * A -> list (nat * B))
    (l : list A) (start i : nat) :
  (forall jc x, In x (h jc) -> fst x = fst jc) ->
  filter (key_is i) (flat_map h (combine (seq start (List.length l)) l))
  = match (if start <=? i then nth_error l (i - start) else None) with
    | Some c => h (i, c)
    | None => []
    end.
Proof.
  intros Hh. revert start. induction l as [|a l IH]; intros start.
  - simpl. destruct (start <=? i); [|reflexivity]. now destruct (i - start).
  - cbn [List.length seq combine flat_map]. rewrite filter_app, IH.
    destruct (start =? i) eqn:E.
    + apply Nat.eqb_eq in E. subst start.
      rewrite Nat.leb_refl, Nat.sub_diag. cbn [nth_error].
      replace (S i <=? i) with false by (symmetry; apply Nat.leb_gt; lia).
      rewrite app_nil_r. apply forallb_filter_id, forallb_forall.
      intros x Hx. unfold key_is. rewrite (Hh _ _ Hx). apply Nat.eqb_refl.
    + apply Nat.eqb_neq in E.
      assert (H0 : filter (key_is i) (h (start, a)) = []).
      { destruct (filter (key_is i) (h (start, a))) as [|x f] eqn:Hf;
          [reflexivity|].
        assert (Hx : In x (filter (key_is i) (h (start, a))))
          by (rewrite Hf; now left).
        apply filter_In in Hx as [Hx Hk]. apply Hh in Hx.
        apply Nat.eqb_eq in Hk. simpl in Hx. congruence. }
      rewrite H0. cbn [app].
      destruct (start <=? i) eqn:Hle.
      * apply Nat.leb_le in Hle.
        replace (S start <=? i) with true by (symmetry; apply Nat.leb_le; lia).
        replace (i - start) with (S (i - S start)) by lia. reflexivity.
      * apply Nat.leb_gt in Hle.
        replace (S start <=? i) with false by (symmetry; apply Nat.leb_gt; lia).
        reflexivity.
Qed.

(** The rows that [split_stack] gives for the row [i] of the frame. *)
Lemma split_stack_key splitter col t i :
  split_stack splitter col = Ok t ->
  filter (key_is i) t
  = match nth_error col i with
    | Some c => map (pair i) (tokens splitter c)
    | None => []
    end.
Proof.
  unfold split_stack. destruct (existsb notna col); [|discriminate].
  intros [= <-].
  set (h := fun ic : nat * Cell => map (pair (fst ic)) (tokens splitter (snd ic))).
  assert (E : forall L,
    map (fun it : nat * string => (fst it, strip (snd it)))
      (flat_map (fun ic : nat * Cell =>
         match snd ic with
         | Some s => map (fun t => (fst ic, t)) (splitter s)
         | None => []
         end) L) = flat_map h L).
  { induction L as [|[j c] L IH]; [reflexivity|].
    simpl. rewrite map_app, IH. f_equal. unfold h. simpl.
    destruct c as [s|]; [|reflexivity]. simpl. now rewrite !map_map. }
  rewrite E. unfold enumerate. rewrite keyed_flat_map.
  - simpl. rewrite Nat.sub_0_r. now destruct (nth_error col i).
  - intros [j c] x Hx. unfold h in Hx. apply in_map_iff in Hx as [y [<- _]].
    reflexivity.
Qed.

Lemma split_stack_In splitter col t i x :
  split_stack splitter col = Ok t ->
  In (i, x) t <->
  exists c, nth_error col i = Some c /\ In x (tokens splitter c).
Proof.
  intros H. pose proof (split_stack_key _ _ _ i H) as Hk.
  assert (E : In (i, x) t <-> In (i, x) (filter (key_is i) t)).
  { rewrite filter_In. unfold key_is. simpl. rewrite Nat.eqb_refl. tauto. }
  rewrite E, Hk. destruct (nth_error col i) as [c|].
  - rewrite in_map_iff. split.
    + intros [y [[= <-] Hy]]. now exists c.
    + intros [c' [[= <-] Hx]]. now exists x.
  - simpl. split; [tauto | intros [c [Hc _]]; discriminate].
Qed.

(** The [Source] column of the cleaned frame is the row number. *)
Lemma clean_Source sheet df i row :
  clean_pmkb_df sheet = Ok df -> nth_error df i = Some row ->
  Row.Source row = i.
Proof.
  intros H Hr. destruct (clean_nth_inv _ _ _ _ H Hr) as [r [_ Hc]].
  apply clean_row_inv in Hc as [_ ->]. reflexivity.
Qed.

(** A column of the cleaned frame with its [Source]: one row for a key. *)
Lemma column_key {A : Type} (g : Row.row -> A) sheet df i :
  clean_pmkb_df sheet = Ok df ->
  filter (key_is i) (map (fun r => (Row.Source r, g r)) df)
  = match nth_error df i with
    | Some row => [(i, g row)]
    | None => []
    end.
Proof.
  intros H.
  assert (E : map (fun r => (Row.Source r, g r)) df
              = flat_map (fun ir : nat * Row.row => [(fst ir, g (snd ir))])
                         (enumerate df)).
  { assert (Hs : forall j row, nth_error df j = Some row -> Row.Source row = 0 + j)
      by (intros j row Hj; simpl; now apply (clean_Source _ _ _ _ H)).
    clear H. unfold enumerate. revert Hs. generalize 0 as start.
    induction df as [|r l IH]; intros start Hs; [reflexivity|].
    simpl. rewrite (Hs 0 r eq_refl), Nat.add_0_r. f_equal.
    apply IH. intros j row Hj. rewrite (Hs (S j) row Hj). lia. }
  rewrite E. unfold enumerate. rewrite keyed_flat_map.
  - simpl. rewrite Nat.sub_0_r. now destruct (nth_error df i).
  - intros [j c] x Hx. simpl in Hx. destruct Hx as [<-|[]]. reflexivity.
Qed.

Lemma column_In {A : Type} (g : Row.row -> A) sheet df i a :
  clean_pmkb_df sheet = Ok df ->
  In (i, a) (map (fun r => (Row.Source r, g r)) df) <->
  exists row, nth_error df i = Some row /\ a = g row.
Proof.
  intros H. pose proof (column_key g _ _ i H) as Hk.
  assert (E : forall l : list (nat * A),
             In (i, a) l <-> In (i, a) (filter (key_is i) l)).
  { intros l. rewrite filter_In. unfold key_is. simpl.
    rewrite Nat.eqb_refl. tauto. }
  rewrite E, Hk. destruct (nth_error df i) as [row|]; simpl.
  - split.
    + intros [[= <-]|[]]. now exists row.
    + intros [row' [[= <-] ->]]. now left.
  - split; [tauto | intros [row [Hr _]]; discriminate].
Qed.

Lemma make_entries_inv df es :
  make_entries df = Ok es ->
  exists tumor tissue variant,
    split_stack (split ",") (map Row.TumorType df) = Ok tumor
    /\ split_stack (split ",") (map Row.TissueType df) = Ok tissue
    /\ split_stack re_split (map Row.Variant df) = Ok variant
    /\ es = map entry_of
              (merge (merge (merge (merge tumor tissue) variant)
                        (map (fun r => (Row.Source r, Row.Tier r)) df))
                 (map (fun r => (Row.Source r, Row.Gene r)) df)).
Proof.
  unfold make_entries.
  destruct (split_stack (split ",") (map Row.TumorType df)) as [tumor|];
    [|discriminate].
  destruct (split_stack (split ",") (map Row.TissueType df)) as [tissue|];
    [|discriminate].
  destruct (split_stack re_split (map Row.Variant df)) as [variant|];
    [|discriminate].
  simpl. intros [= <-]. now exists tumor, tissue, variant.
Qed.

(** [make_entries] returns a frame as soon as each of the three columns
    holds some text. *)
Lemma make_entries_succeeds df :
  existsb notna (map Row.TumorType df) = true ->
  existsb notna (map Row.TissueType df) = true ->
  existsb notna (map Row.Variant df) = true ->
  exists es, make_entries df = Ok es.
Proof.
  intros H1 H2 H3. unfold make_entries, split_stack.
  rewrite H1, H2, H3. simpl. eexists. reflexivity.
Qed.

Lemma tokens_nth (splitter : string -> list string) (g : Row.row -> Cell)
    df i :
  match nth_error (map g df) i with
  | Some c => map (pair i) (tokens splitter c)
  | None => []
  end
  = match nth_error df i with
    | Some row => map (pair i) (tokens splitter (g row))
    | None => []
    end.
Proof. rewrite nth_error_map. now destruct (nth_error df i). Qed.

(** The entries of one source: as many as there are choices of a tumor
    piece, a tissue piece and a variant piece of that row. *)
Lemma entries_count sheet df es i :
  clean_pmkb_df sheet = Ok df -> make_entries df = Ok es ->
  List.length (filter (fun e => Entry.Source e =? i) es)
  = match nth_error df i with
    | Some row =>
        List.length (tokens (split ",") (Row.TumorType row))
        * List.length (tokens (split ",") (Row.TissueType row))
        * List.length (tokens re_split (Row.Variant row))
    | None => 0
    end.
Proof.
  intros Hc He.
  destruct (make_entries_inv _ _ He) as [tu [ti [va [H1 [H2 [H3 ->]]]]]].
  rewrite filter_map_swap, length_map.
  rewrite (filter_ext _ (key_is i))
    by (intros [k [[[[t s] v] z] g]]; reflexivity).
  rewrite !merge_count.
  rewrite (split_stack_key _ _ _ i H1), (split_stack_key _ _ _ i H2),
    (split_stack_key _ _ _ i H3), !tokens_nth.
  rewrite !(column_key _ _ _ i Hc).
  destruct (nth_error df i) as [row|]; simpl; [|reflexivity].
  rewrite !length_map. lia.
Qed.

(** The entries are the rows that the four joins let through. *)
Lemma entries_In sheet df es e :
  clean_pmkb_df sheet = Ok df -> make_entries df = Ok es ->
  In e es <->
  exists row,
    nth_error df (Entry.Source e) = Some row
    /\ In (Entry.TumorType e) (tokens (split ",") (Row.TumorType row))
    /\ In (Entry.TissueType e) (tokens (split ",") (Row.TissueType row))
    /\ In (Entry.Variant e) (tokens re_split (Row.Variant row))
    /\ Entry.Tier e = Row.Tier row
    /\ Entry.Gene e = Row.Gene row.
Proof.
  intros Hc He.
  destruct (make_entries_inv _ _ He) as [tu [ti [va [H1 [H2 [H3 ->]]]]]].
  rewrite in_map_iff. split.
  - intros [[k [[[[t s] v] z] g]] [<- H]]. simpl.
    apply merge_In in H as [H Hg]. apply merge_In in H as [H Hz].
    apply merge_In in H as [H Hv]. apply merge_In in H as [Ht Hs].
    apply (column_In _ _ _ _ _ Hc) in Hg as [row [Hrow ->]].
    apply (column_In _ _ _ _ _ Hc) in Hz as [row' [Hrow' ->]].
    apply (split_stack_In _ _ _ _ _ H1) in Ht as [c1 [Hc1 Ht]].
    apply (split_stack_In _ _ _ _ _ H2) in Hs as [c2 [Hc2 Hs]].
    apply (split_stack_In _ _ _ _ _ H3) in Hv as [c3 [Hc3 Hv]].
    rewrite nth_error_map, Hrow in Hc1, Hc2, Hc3. simpl in *.
    injection Hc1 as <-. injection Hc2 as <-. injection Hc3 as <-.
    exists row. repeat split; try assumption. congruence.
  - intros [row [Hrow [Ht [Hs [Hv [Hz Hg]]]]]].
    exists (Entry.Source e,
            ((((Entry.TumorType e, Entry.TissueType e), Entry.Variant e),
              Entry.Tier e), Entry.Gene e)).
    split; [now destruct e|].
    repeat (apply merge_In; split).
    + apply (split_stack_In _ _ _ _ _ H1). eexists.
      rewrite nth_error_map, Hrow. split; [reflexivity | exact Ht].
    + apply (split_stack_In _ _ _ _ _ H2). eexists.
      rewrite nth_error_map, Hrow. split; [reflexivity | exact Hs].
    + apply (split_stack_In _ _ _ _ _ H3). eexists.
      rewrite nth_error_map, Hrow. split; [reflexivity | exact Hv].
    + apply (column_In _ _ _ _ _ Hc). now exists row.
    + apply (column_In _ _ _ _ _ Hc). now exists row.
Qed.

End EntryFacts.

(** ** The entries of a fact *)

Section Entries.

Import PyStr ReSplit Pmkb Examples.

(** C1: for every fact of a sheet that is normalized, the entries that carry
    its source id are as many as the product of the numbers of its tumor
    type, tissue type and variant pieces, and they are the whole cross
    product of the three lists of pieces: every entry of the source takes
    its three values from them, and every choice of three pieces is an
    entry of the source.  The lengths of the three lists play no part. *)
Theorem cross_expansion (sheet : list Sheet.row) (df : list Row.row)
    (es : list Entry.row) :
  clean_pmkb_df sheet = Ok df -> make_entries df = Ok es ->
  forall i r, nth_error sheet i = Some r ->
  let tumor_types := tokens (split ",") (Sheet.TumorTypes r) in
  let tissue_types := tokens (split ",") (Sheet.TissueTypes r) in
  let variants := tokens re_split (Sheet.Variants r) in
  List.length (filter (fun e => Entry.Source e =? i) es)
  = List.length tumor_types * List.length tissue_types * List.length variants
  /\ (forall e, In e es -> Entry.Source e = i ->
        In (Entry.TumorType e) tumor_types
        /\ In (Entry.TissueType e) tissue_types
        /\ In (Entry.Variant e) variants)
  /\ (forall t s v,
        In t tumor_types -> In s tissue_types -> In v variants ->
        exists e, In e es /\ Entry.Source e = i /\ Entry.TumorType e = t
                  /\ Entry.TissueType e = s /\ Entry.Variant e = v).
Proof.
  intros Hc He i r Hr. destruct (clean_nth _ _ _ _ Hc Hr) as [row [Hrow Hcr]].
  apply clean_row_inv in Hcr as [_ Hfields].
  assert (E1 : Row.TumorType row = Sheet.TumorTypes r) by now rewrite Hfields.
  assert (E2 : Row.TissueType row = Sheet.TissueTypes r) by now rewrite Hfields.
  assert (E3 : Row.Variant row = Sheet.Variants r) by now rewrite Hfields.
  cbv zeta. rewrite <- E1, <- E2, <- E3. split; [|split].
  - now rewrite (entries_count _ _ _ i Hc He), Hrow.
  - intros e Hin Hs. apply (entries_In _ _ _ e Hc He) in Hin
      as [row' [Hrow' [Ht [Hti [Hv _]]]]].
    rewrite Hs, Hrow in Hrow'. injection Hrow' as <-. now repeat split.
  - intros t s v Ht Hs Hv.
    exists {| Entry.Source := i; Entry.TumorType := t; Entry.TissueType := s;
              Entry.Variant := v; Entry.Tier := Row.Tier row;
              Entry.Gene := Row.Gene row |}.
    split; [|now repeat split].
    apply (entries_In _ _ _ _ Hc He). exists row. now repeat split.
Qed.

Lemma cross_expansion_witness :
  List.length
    (filter (fun e => Entry.Source e =? 1)
       [Entry.mk 0 "Lung Cancer" "Lung" "L858R" 1 (Some "EGFR");
        Entry.mk 0 "Glioma" "Lung" "L858R" 1 (Some "EGFR");
        Entry.mk 1 "Melanoma" "Skin" "V600E" 2 (Some "BRAF");
        Entry.mk 1 "Melanoma" "Skin" "V600K" 2 (Some "BRAF");
        Entry.mk 1 "Melanoma" "Eye" "V600E" 2 (Some "BRAF");
        Entry.mk 1 "Melanoma" "Eye" "V600K" 2 (Some "BRAF")])
  = 1 * 2 * 2.
Proof.
  apply (cross_expansion
           [egfr;
            fact (Some "BRAF") (Some "Melanoma") (Some "Skin , Eye")
              (Some "V600E, V600K") (TierNumber (5 # 2)) [Some "D"]]
           _ _ eq_refl eq_refl 1 _ eq_refl).
Defined.

(** C9: every entry comes from the fact whose row number is its source id,
    and carries the gene of that fact and its tier as [clean_pmkb_df]
    has coerced it. *)
Theorem copy_invariant (sheet : list Sheet.row) (df : list Row.row)
    (es : list Entry.row) :
  clean_pmkb_df sheet = Ok df -> make_entries df = Ok es ->
  forall e, In e es ->
  exists r row,
    nth_error sheet (Entry.Source e) = Some r
    /\ nth_error df (Entry.Source e) = Some row
    /\ Entry.Gene e = Sheet.Gene r
    /\ Entry.Tier e = Row.Tier row
    /\ coerce_tier (object_tiers sheet) (Sheet.Tier r) = Ok (Entry.Tier e).
Proof.
  intros Hc He e Hin.
  apply (entries_In _ _ _ e Hc He) in Hin as [row [Hrow [_ [_ [_ [Hz Hg]]]]]].
  destruct (clean_nth_inv _ _ _ _ Hc Hrow) as [r [Hr Hcr]].
  apply clean_row_inv in Hcr as [Ht Hfields].
  exists r, row. repeat split; try assumption.
  - rewrite Hg, Hfields. reflexivity.
  - now rewrite Hz.
Qed.

Lemma copy_invariant_witness :
  exists r row,
    nth_error sheet_egfr 0 = Some r
    /\ nth_error [Row.mk 0 (Some "EGFR") (Some "Lung Cancer, Glioma")
                    (Some "Lung") (Some "L858R") 1
                    (Some "Sensitizing mutation.")
                    ("A" ++ newline ++ newline ++ "B")] 0 = Some row
    /\ Some "EGFR"%string = Sheet.Gene r
    /\ 1%Z = Row.Tier row
    /\ coerce_tier (object_tiers sheet_egfr) (Sheet.Tier r) = Ok 1%Z.
Proof.
  apply (copy_invariant sheet_egfr _ _ eq_refl eq_refl
           (Entry.mk 0 "Glioma" "Lung" "L858R" 1 (Some "EGFR"))).
  right. left. reflexivity.
Defined.

(** C4, as stated, fails: the second fact of [sheet_kras] has no tumor
    type, the run succeeds, and no entry carries its source id 1. *)
Lemma missing_tumor_type_drops_fact :
  exists df es,
    clean_pmkb_df sheet_kras = Ok df
    /\ make_entries df = Ok es
    /\ nth_error sheet_kras 1 = Some kras
    /\ Sheet.TumorTypes kras = None
    /\ filter (fun e => Entry.Source e =? 1) es = []
    /\ ~ (exists e, In e es /\ Entry.Source e = 1).
Proof.
  eexists. eexists.
  split; [vm_compute; reflexivity|].
  split; [vm_compute; reflexivity|].
  repeat split.
  intros [e [Hin Hs]]. simpl in Hin.
  destruct Hin as [<-|[<-|[]]]; discriminate Hs.
Qed.

(** C4, amended: a fact contributes entries exactly when none of its
    tumor types, tissue types and variants cells is missing; a cell that is
    there and holds the empty text counts as the single value [""], so that
    such a fact keeps its entries, while a fact with a missing cell has no
    entry at all. *)
Theorem entries_of_present_fields (sheet : list Sheet.row)
    (df : list Row.row) (es : list Entry.row) :
  clean_pmkb_df sheet = Ok df -> make_entries df = Ok es ->
  forall i r, nth_error sheet i = Some r ->
  ((exists e, In e es /\ Entry.Source e = i) <->
   notna (Sheet.TumorTypes r) && notna (Sheet.TissueTypes r)
   && notna (Sheet.Variants r) = true)
  /\ tokens (split ",") (Some ""%string) = [""%string]
  /\ tokens re_split (Some ""%string) = [""%string].
Proof.
  intros Hc He i r Hr.
  destruct (clean_nth _ _ _ _ Hc Hr) as [row [Hrow Hcr]].
  apply clean_row_inv in Hcr as [_ Hfields].
  assert (E1 : Row.TumorType row = Sheet.TumorTypes r) by now rewrite Hfields.
  assert (E2 : Row.TissueType row = Sheet.TissueTypes r) by now rewrite Hfields.
  assert (E3 : Row.Variant row = Sheet.Variants r) by now rewrite Hfields.
  rewrite <- E1, <- E2, <- E3.
  split; [|split; reflexivity]. split.
  - intros [e [Hin Hs]]. apply (entries_In _ _ _ e Hc He) in Hin
      as [row' [Hrow' [Ht [Hti [Hv _]]]]].
    rewrite Hs, Hrow in Hrow'. injection Hrow' as <-.
    destruct (Row.TumorType row); [|destruct Ht].
    destruct (Row.TissueType row); [|destruct Hti].
    destruct (Row.Variant row); [|destruct Hv]. reflexivity.
  - intros H. apply andb_prop in H as [H H3]. apply andb_prop in H as [H1 H2].
    destruct (Row.TumorType row) as [s1|] eqn:F1; [|discriminate].
    destruct (Row.TissueType row) as [s2|] eqn:F2; [|discriminate].
    destruct (Row.Variant row) as [s3|] eqn:F3; [|discriminate].
    assert (Hne : forall sep s, exists t, In t (map strip (split sep s))).
    { intros sep s. destruct s as [|c s]; simpl; [eexists; now left|].
      destruct (Ascii.eqb c sep); simpl; [eexists; now left|].
      destruct (split sep s); simpl; eexists; now left. }
    destruct (Hne ","%char s1) as [t Ht]. destruct (Hne ","%char s2) as [s Hs].
    assert (Hv : exists v, In v (map strip (re_split s3))).
    { pose proof (re_split_not_nil s3).
      destruct (re_split s3); [congruence|]. eexists. now left. }
    destruct Hv as [v Hv].
    exists {| Entry.Source := i; Entry.TumorType := t; Entry.TissueType := s;
              Entry.Variant := v; Entry.Tier := Row.Tier row;
              Entry.Gene := Row.Gene row |}.
    split; [|reflexivity].
    apply (entries_In _ _ _ _ Hc He). exists row. simpl.
    rewrite F1, F2, F3. now repeat split.
Qed.

Lemma entries_of_present_fields_witness :
  (exists e,
     In e [Entry.mk 0 "" "Lung" "G12C" 0 (Some "KRAS")]
     /\ Entry.Source e = 0).
Proof.
  apply (proj1 (entries_of_present_fields
           [fact (Some "KRAS") (Some "") (Some "Lung") (Some "G12C")
              TierMissing [Some "C"]]
           _ _ eq_refl eq_refl 0 _ eq_refl)).
  reflexivity.
Defined.

End Entries.


(** ** A run of [main] *)

Section MainFacts.

Import PyStr Pmkb Store Script.

Lemma connect_eq (path : string) (fs : FileSystem) :
  connect path fs = (opened (lookup path fs), fs).
Proof. reflexivity. Qed.

Lemma index_of_entries_columns (es : list Entry.row) :
  select "TissueType" "entries"
    [("entries", table_of_entries es)]
  = Ok (map (fun e => VText (Entry.TissueType e)) es).
Proof. unfold select. simpl. now rewrite map_map. Qed.

Lemma select_entries (column : string) (es : list Entry.row)
    (interpretations : Table) (tables : list (string * Table)) :
  select column "entries"
    (to_sql "entries" (table_of_entries es)
       (to_sql "interpretations" interpretations tables))
  = select column "entries" [("entries", table_of_entries es)].
Proof. reflexivity. Qed.

Lemma select_tumor_types (es : list Entry.row) :
  select "TumorType" "entries" [("entries", table_of_entries es)]
  = Ok (map (fun e => VText (Entry.TumorType e)) es).
Proof. unfold select. simpl. now rewrite map_map. Qed.

(** A run on a workbook that can be normalized, with a database path that
    is apart from the text outputs and holds a database or nothing, ends
    well and makes the writes of [outputs], and no other. *)
Lemma main_run (a : Args) (fs : FileSystem) (sheet : list Sheet.row)
    (df : list Row.row) (es : list Entry.row) (tables : list (string * Table)) :
  xlsx2df (pmkb_xlsx a) fs = (Ok sheet, fs) ->
  clean_pmkb_df sheet = Ok df ->
  make_entries df = Ok es ->
  db_apart a = true ->
  match given (pmkb_db a) with
  | Some db => opened (lookup db fs) = Ok tables
  | None => True
  end ->
  main a fs = (Ok tt, rev (map snd (outputs a df es tables)) ++ fs).
Proof.
  intros Hx Hc He Hapart Hdb.
  unfold main. unfold bindIO at 1. rewrite Hx.
  unfold bindIO at 1. unfold lift at 1. rewrite Hc.
  unfold bindIO at 1. unfold lift at 1. rewrite He.
  unfold outputs, both, db_apart in *.
  unfold if_given, if_both, save_interpretations, save_entries, save_db,
    save_db_tumor, save_db_tissues.
  destruct (given (pmkb_db a)) as [db|]; cbn [forallb] in Hapart;
  destruct (given (interpretations_file a)) as [pi|];
  destruct (given (entries_file a)) as [pe|];
  destruct (given (tumors_file a)) as [ptu|];
  destruct (given (tissues_file a)) as [pti|];
  cbn [andb negb] in Hapart;
  repeat match type of Hapart with
         | context [String.eqb ?x db] =>
             let E := fresh "E" in
             destruct (String.eqb x db) eqn:E; cbn [negb andb] in Hapart;
             [discriminate Hapart|]; rewrite String.eqb_sym in E
         end;
  cbn [output_if app map snd rev];
  unfold bindIO, put, ret, write, lift;
  repeat first
    [ rewrite connect_eq
    | progress cbn [lookup opened]
    | rewrite String.eqb_refl
    | rewrite Hdb
    | rewrite select_entries
    | rewrite index_of_entries_columns
    | rewrite select_tumor_types
    | match goal with
      | H : String.eqb _ _ = false |- _ => rewrite H
      end ];
  reflexivity.
Qed.




Lemma map_from_positions {A : Type} (f : A -> nat) (l : list A) start :
  (forall j x, nth_error l j = Some x -> f x = start + j) ->
  map f l = seq start (List.length l).
Proof.
  revert start. induction l as [|x l IH]; intros start H; [reflexivity|].
  simpl. rewrite (H 0 x eq_refl), Nat.add_0_r. f_equal.
  apply IH. intros j y Hj. rewrite (H (S j) y Hj). lia.
Qed.

Lemma clean_Sources sheet df :
  clean_pmkb_df sheet = Ok df ->
  map Row.Source df = seq 0 (List.length sheet).
Proof.
  intros H. rewrite <- (clean_length _ _ H). apply map_from_positions.
  intros j x Hj. simpl. now apply (clean_Source _ _ _ _ H).
Qed.

End MainFacts.

(** ** The two scripts

    Where every path can be written, [Os.main] is [Script.main]: the same
    result and the same files after the run. *)

Section OsScript.

Import PyStr Pmkb Store Script.

Lemma agree_bind (m m' k k' : IO unit)
    (P Q Q' : FileSystem -> FileSystem -> Prop) :
  Os.agree m m' P Q -> Os.agree k k' Q Q' ->
  Os.agree (m ;; k)%io (m' ;; k')%io P Q'.
Proof.
  intros Hm Hk fs fs' HP. unfold bindIO.
  destruct (Hm fs fs' HP) as [Hr [Hl HQ]].
  destruct (m fs) as [[[]|e] f1], (m' fs') as [[[]|e'] f1'];
    simpl in Hr, Hl, HQ; try discriminate.
  - apply Hk. now apply HQ.
  - simpl. split; [exact Hr|]. split; [exact Hl | discriminate].
Qed.

Lemma agree_any (m m' : IO unit) (P Q : FileSystem -> FileSystem -> Prop) :
  Os.agree m m' P Q -> Os.agree m m' P (fun _ _ => True).
Proof.
  intros H fs fs' HP. destruct (H fs fs' HP) as [Hr [Hl _]]. now repeat split.
Qed.

Lemma agree_ret : Os.agree (ret tt) (ret tt) Os.same_files Os.same_files.
Proof. intros fs fs' H. now repeat split. Qed.

Lemma agree_ret_with (db : string) :
  Os.agree (ret tt) (ret tt) (Os.same_with db) (Os.same_with db).
Proof. intros fs fs' H. split; [reflexivity|]. split; [apply H | now intros _]. Qed.

Lemma same_files_put (path : string) (c : FileContent) (fs fs' : FileSystem) :
  Os.same_files fs fs' ->
  Os.same_files ((path, c) :: fs) ((path, c) :: fs').
Proof. intros H p. simpl. now rewrite (H p). Qed.

Lemma agree_put (path : string) (c : FileContent) :
  Os.agree (put path c) (Os.to_file (fun _ => true) path c)
    Os.same_files Os.same_files.
Proof.
  intros fs fs' H. unfold Os.to_file, put, write. simpl.
  pose proof (same_files_put path c _ _ H). now repeat split.
Qed.

Lemma agree_put_with (db path : string) (c : FileContent) :
  Os.agree (put path c) (Os.to_file (fun _ => true) path c)
    (Os.same_with db) (Os.same_with db).
Proof.
  intros fs fs' [H Hdb]. unfold Os.to_file, put, write. simpl.
  pose proof (same_files_put path c _ _ H) as Hp.
  split; [reflexivity|]. split; [exact Hp|]. intros _. split; [exact Hp|].
  simpl. now destruct (db =? path)%string.
Qed.

Lemma agree_save_db (t1 t2 : Table) (db : string) :
  Os.agree (save_db t1 t2 db) (Os.save_db (fun _ => true) t1 t2 db)
    Os.same_files (Os.same_with db).
Proof.
  intros fs fs' H. unfold save_db, Os.save_db, connect, Os.connect,
    Os.commit, bindIO, get, put, lift, ret, write. rewrite <- (H db).
  destruct (lookup db fs) as [f|] eqn:L.
  - destruct (opened (Some f)) as [ts|e]; simpl.
    + pose proof (same_files_put db
                    (Sqlite (to_sql "entries" t2
                               (to_sql "interpretations" t1 ts))) _ _ H)
        as Hp.
      split; [reflexivity|]. split; [exact Hp|]. intros _.
      split; [exact Hp|]. simpl. rewrite String.eqb_refl. discriminate.
    + split; [reflexivity|]. split; [exact H | discriminate].
  - simpl.
    assert (Hp : Os.same_files
                   ((db, Sqlite (to_sql "entries" t2
                                   (to_sql "interpretations" t1 []))) :: fs)
                   ((db, Sqlite (to_sql "entries" t2
                                   (to_sql "interpretations" t1 [])))
                    :: (db, Text "") :: fs')).
    { intros p. simpl. destruct (p =? db)%string; [reflexivity | apply H]. }
    split; [reflexivity|]. split; [exact Hp|]. intros _.
    split; [exact Hp|]. simpl. rewrite String.eqb_refl. discriminate.
Qed.

(** With the database file in place, reading the terms is the same. *)
Lemma agree_terms (column : string) (db output : string) :
  Os.agree
    (tables <- connect db ;;
     xs <- lift (select column "entries" tables) ;;
     put output (write_lines (unique xs)))%io
    (tables <- Os.connect (fun _ => true) db ;;
     xs <- lift (select column "entries" tables) ;;
     Os.to_file (fun _ => true) output (write_lines (unique xs)))%io
    (Os.same_with db) (Os.same_with db).
Proof.
  intros fs fs' [H Hdb].
  unfold connect, Os.connect, Os.to_file, bindIO, get, put, lift, ret,
    write. rewrite <- (H db).
  destruct (lookup db fs) as [f|] eqn:L; [|congruence].
  destruct (opened (Some f)) as [ts|e]; simpl;
    [|split; [reflexivity|]; split; [exact H | discriminate]].
  destruct (select column "entries" ts) as [xs|e]; simpl;
    [|split; [reflexivity|]; split; [exact H | discriminate]].
  pose proof (same_files_put output (write_lines (unique xs)) _ _ H) as Hp.
  split; [reflexivity|]. split; [exact Hp|]. intros _. split; [exact Hp|].
  simpl. destruct (db =? output)%string; [discriminate | now rewrite L].
Qed.

Lemma bind_same {A : Type} (m : IO A) (k k' : A -> IO unit)
    (fs : FileSystem) :
  (forall x fs1, fst (k x fs1) = fst (k' x fs1)
                 /\ Os.same_files (snd (k x fs1)) (snd (k' x fs1))) ->
  fst (bindIO m k fs) = fst (bindIO m k' fs)
  /\ Os.same_files (snd (bindIO m k fs)) (snd (bindIO m k' fs)).
Proof.
  intros H. unfold bindIO. destruct (m fs) as [[x|e] fs1]; [apply H|].
  split; [reflexivity | intros p; reflexivity].
Qed.

(** Where every path can be written, the run of [Os.main] has the result
    of the run of [main] and leaves the same files. *)
Lemma os_main_script (a : Args) (fs : FileSystem) :
  fst (main a fs) = fst (Os.main (fun _ => true) a fs)
  /\ Os.same_files (snd (main a fs)) (snd (Os.main (fun _ => true) a fs)).
Proof.
  unfold Os.main, main.
  apply bind_same. intros sheet fs1. clear fs.
  apply bind_same. intros df fs2. clear fs1.
  apply bind_same. intros es fs3. clear fs2.
  match goal with
  | |- fst (?m fs3) = fst (?m' fs3) /\ _ =>
      assert (H : Os.agree m m' Os.same_files (fun _ _ => True))
  end.
  { unfold if_given, if_both, save_interpretations, save_entries,
      Os.save_interpretations, Os.save_entries, save_db_tumor,
      save_db_tissues, Os.save_db_tumor, Os.save_db_tissues.
    destruct (given (pmkb_db a)), (given (interpretations_file a)),
      (given (entries_file a)), (given (tumors_file a)),
      (given (tissues_file a));
      repeat (eapply agree_bind;
              [first [ apply agree_put | apply agree_put_with
                     | apply agree_ret | apply agree_ret_with
                     | apply agree_save_db | apply agree_terms ]|]);
      eapply agree_any;
      first [ apply agree_put | apply agree_put_with
            | apply agree_ret | apply agree_ret_with
            | apply agree_save_db | apply agree_terms ]. }
  destruct (H fs3 fs3 (fun p => eq_refl)) as [Hr [Hl _]].
  split; [exact Hr | exact Hl].
Qed.

End OsScript.

(** ** The outputs of a run *)

Section Outputs.

Import PyStr Pmkb Store Script Examples.

(** C6, as stated, fails: the interpretations file of a run on [sheet_egfr]
    holds the eight columns of the cleaned frame, [Gene] and [Tier] among
    them, and not the three columns alone. *)
Lemma interpretations_file_has_all_columns :
  exists t rest,
    main (args None (Some "pmkb.interpretations.tsv") None None None)
         (disk sheet_egfr)
    = (Ok tt, ("pmkb.interpretations.tsv", TsvUtf16 t) :: rest)
    /\ columns t <> ["Source"; "Interpretation"; "Citation"]%string
    /\ In "Gene"%string (columns t)
    /\ In "Tier"%string (columns t).
Proof.
  eexists. eexists. split; [vm_compute; reflexivity|].
  split; [discriminate|]. simpl. tauto.
Qed.

(** C6, amended: the interpretations artifact of a run has exactly one row
    for each fact, keyed uniquely by the source id, which is the row number
    of the fact; each row has the eight columns of the cleaned frame
    (Source, Gene, TumorType, TissueType, Variant, Tier, Interpretation,
    Citation): [main] saves the cleaned frame itself, as a file and as the
    table [interpretations] of the database, and leaves
    [make_interpretations], which keeps Source, Interpretation and Citation
    only, out. *)
Theorem interpretations_artifact (a : Args) (fs : FileSystem)
    (sheet : list Sheet.row) (df : list Row.row) (es : list Entry.row)
    (tables : list (string * Table)) :
  xlsx2df (pmkb_xlsx a) fs = (Ok sheet, fs) ->
  clean_pmkb_df sheet = Ok df ->
  make_entries df = Ok es ->
  db_apart a = true ->
  match given (pmkb_db a) with
  | Some db => opened (lookup db fs) = Ok tables
  | None => True
  end ->
  exists (t : Table) (written : FileSystem),
    main a fs = (Ok tt, written ++ fs)
    /\ (forall p, given (interpretations_file a) = Some p ->
                  In (p, TsvUtf16 t) written)
    /\ (forall db, given (pmkb_db a) = Some db ->
                   exists ts, In (db, Sqlite ts) written
                              /\ lookup "interpretations" ts = Some t)
    /\ columns t = ["Source"; "Gene"; "TumorType"; "TissueType"; "Variant";
                    "Tier"; "Interpretation"; "Citation"]%string
    /\ List.length (records t) = List.length sheet
    /\ map (fun r => nth 0 r VNull) (records t)
       = map (fun i => VInt (Z.of_nat i)) (seq 0 (List.length sheet))
    /\ NoDup (map (fun r => nth 0 r VNull) (records t)).
Proof.
  intros Hx Hc He Hapart Hdb.
  exists (table_of_df df), (rev (map snd (outputs a df es tables))).
  split; [now apply (main_run a fs sheet)|].
  assert (Hkeys : map (fun r => nth 0 r VNull) (records (table_of_df df))
                  = map (fun i => VInt (Z.of_nat i))
                        (seq 0 (List.length sheet))).
  { simpl. rewrite map_map. simpl.
    rewrite <- (clean_Sources _ _ Hc), map_map. reflexivity. }
  split; [|split; [|split; [reflexivity|split; [|split; [exact Hkeys|]]]]].
  - intros p Hp. rewrite <- in_rev. unfold outputs. rewrite Hp. simpl.
    now left.
  - intros db Hp. eexists. split.
    + rewrite <- in_rev. unfold outputs. rewrite Hp.
      rewrite !map_app. apply in_or_app. right. apply in_or_app. right.
      apply in_or_app. left. simpl. left. reflexivity.
    + reflexivity.
  - simpl. rewrite length_map. now apply clean_length.
  - rewrite Hkeys. apply NoDup_map_NoDup_ForallPairs; [|apply seq_NoDup].
    intros x y _ _ [= H]. now apply Nat2Z.inj.
Qed.

Lemma interpretations_artifact_witness :
  exists (t : Table) (written : FileSystem),
    main (args (Some "pmkb.db") (Some "pmkb.interpretations.tsv") None None
            None) (disk sheet_kras)
    = (Ok tt, written ++ disk sheet_kras)
    /\ In ("pmkb.interpretations.tsv"%string, TsvUtf16 t) written
    /\ List.length (records t) = 2.
Proof.
  destruct (interpretations_artifact
              (args (Some "pmkb.db") (Some "pmkb.interpretations.tsv") None
                 None None)
              (disk sheet_kras) sheet_kras _ _ [] eq_refl eq_refl eq_refl
              eq_refl eq_refl)
    as [t [written [Hm [Hf [_ [_ [Hn _]]]]]]].
  exists t, written. split; [exact Hm|]. split; [|exact Hn].
  apply Hf. reflexivity.
Defined.

(** C7 at a failing input: on [sheet_egfr], whose entries have the tumor
    types Lung Cancer and Glioma and the tissue type Lung, the run with
    [--db], [--tumors] and [--tissues] writes the tissue type to the tumor
    terms file and the tumor types to the tissue terms file. *)
Theorem terms_files_swapped :
  exists es fs',
    bind (clean_pmkb_df sheet_egfr) make_entries = Ok es
    /\ map Entry.TumorType es = ["Lung Cancer"; "Glioma"]%string
    /\ map Entry.TissueType es = ["Lung"; "Lung"]%string
    /\ main (args (Some "pmkb.db") None None (Some "pmkb.tumor-terms.txt")
               (Some "pmkb.tissue-terms.txt")) (disk sheet_egfr)
       = (Ok tt, fs')
    /\ lookup "pmkb.tumor-terms.txt" fs'
       = Some (Text ("Lung" ++ newline))
    /\ lookup "pmkb.tissue-terms.txt" fs'
       = Some (Text ("Lung Cancer" ++ newline ++ "Glioma" ++ newline)).
Proof.
  eexists. eexists.
  split; [vm_compute; reflexivity|].
  split; [reflexivity|]. split; [reflexivity|].
  split; [vm_compute; reflexivity|].
  split; reflexivity.
Qed.




End Outputs.

(** ** The matcher *)

Section MatcherFacts.

Import Matcher.

Lemma seen_In (x : nat) (seen : list nat) :
  existsb (Nat.eqb x) seen = true <-> In x seen.
Proof.
  rewrite existsb_exists. split.
  - intros [y [Hy E]]. apply Nat.eqb_eq in E. now subst y.
  - intros H. exists x. split; [exact H | apply Nat.eqb_refl].
Qed.

Lemma distinct_sources_In (seen : list nat) (l : list Entry.row) e :
  In e (distinct_sources seen l) -> In e l /\ ~ In (Entry.Source e) seen.
Proof.
  revert seen. induction l as [|x l IH]; intros seen; simpl; [tauto|].
  destruct (existsb (Nat.eqb (Entry.Source x)) seen) eqn:E.
  - intros H. apply IH in H as [H1 H2]. split; [now right | exact H2].
  - simpl. intros [<-|H].
    + split; [now left|]. rewrite <- seen_In. congruence.
    + apply IH in H as [H1 H2]. split; [now right|].
      intros H3. apply H2. now right.
Qed.

Lemma distinct_sources_NoDup (seen : list nat) (l : list Entry.row) :
  NoDup (map Entry.Source (distinct_sources seen l)).
Proof.
  revert seen. induction l as [|x l IH]; intros seen; simpl; [constructor|].
  destruct (existsb (Nat.eqb (Entry.Source x)) seen); [apply IH|].
  simpl. constructor; [|apply IH].
  intros H. apply in_map_iff in H as [e [Hs He]].
  apply distinct_sources_In in He as [_ He]. apply He. now left.
Qed.

Lemma distinct_sources_complete (seen : list nat) (l : list Entry.row) e :
  In e l -> ~ In (Entry.Source e) seen ->
  In (Entry.Source e) (map Entry.Source (distinct_sources seen l)).
Proof.
  revert seen. induction l as [|x l IH]; intros seen; simpl; [tauto|].
  intros Hin Hs.
  destruct (existsb (Nat.eqb (Entry.Source x)) seen) eqn:E.
  - destruct Hin as [->|Hin]; [|now apply IH].
    apply seen_In in E. contradiction.
  - simpl. destruct (Nat.eq_dec (Entry.Source x) (Entry.Source e)) as [Heq|Hne];
      [now left|]. right.
    destruct Hin as [->|Hin]; [congruence|].
    apply IH; [exact Hin|]. intros [H|H]; [congruence | contradiction].
Qed.

Lemma insert_by_tier_perm e l : Permutation (insert_by_tier e l) (e :: l).
Proof.
  induction l as [|x l IH]; simpl; [reflexivity|].
  destruct (Entry.Tier e <? Entry.Tier x)%Z; [reflexivity|].
  rewrite IH. apply perm_swap.
Qed.

Lemma sort_by_tier_perm l : Permutation (sort_by_tier l) l.
Proof.
  induction l as [|x l IH]; simpl; [reflexivity|].
  rewrite insert_by_tier_perm. now constructor.
Qed.

Lemma resolve_sources (interpretations : list Interp.row) (ids : list nat) :
  map Interp.Source (flat_map (resolve interpretations) ids)
  = filter (fun j =>
              match find (fun i => Interp.Source i =? j) interpretations with
              | Some _ => true
              | None => false
              end) ids.
Proof.
  induction ids as [|j ids IH]; [reflexivity|].
  simpl. rewrite map_app, IH. unfold resolve.
  destruct (find (fun i => Interp.Source i =? j) interpretations) as [i|] eqn:E;
    [|reflexivity].
  apply find_some in E as [_ E]. apply Nat.eqb_eq in E. simpl. now rewrite E.
Qed.

Lemma count_by_source (out : list Interp.row) (s : nat) :
  List.length (filter (fun i => Interp.Source i =? s) out)
  = count_occ Nat.eq_dec (map Interp.Source out) s.
Proof.
  induction out as [|i out IH]; [reflexivity|].
  simpl. destruct (Nat.eq_dec (Interp.Source i) s) as [E|E].
  - apply Nat.eqb_eq in E. rewrite E. simpl. now rewrite IH.
  - apply Nat.eqb_neq in E. now rewrite E.
Qed.

(** C10: when entries of one source id match the variant of the sample, be
    they one or many, the interpretation of that source id is in the result
    exactly once; no source id is in the result twice. *)
Theorem matcher_deduplicates (q : SampleVariant) (v : string)
    (entries : list Entry.row) (interpretations : list Interp.row) (s : nat) :
  variant_description q = Some v ->
  (exists e, In e entries /\ matches q v e = true /\ Entry.Source e = s) ->
  (exists i, In i interpretations /\ Interp.Source i = s) ->
  exists out,
    find_interpretations q entries interpretations = Found out
    /\ List.length (filter (fun i => Interp.Source i =? s) out) = 1
    /\ NoDup (map Interp.Source out)
    /\ (forall i, In i out -> In i interpretations).
Proof.
  intros Hv [e [He [Hm Hs]]] [i [Hi His]].
  unfold find_interpretations. rewrite Hv. eexists. split; [reflexivity|].
  set (hits := filter (matches q v) entries).
  set (ids := map Entry.Source (sort_by_tier (distinct_sources [] hits))).
  assert (Hnd : NoDup ids).
  { unfold ids. eapply Permutation_NoDup;
      [symmetry; apply Permutation_map, sort_by_tier_perm|].
    apply distinct_sources_NoDup. }
  assert (Hin : In s ids).
  { unfold ids. eapply Permutation_in;
      [symmetry; apply Permutation_map, sort_by_tier_perm|].
    rewrite <- Hs. apply distinct_sources_complete; [|intros []].
    apply filter_In. now split. }
  assert (Hout : NoDup (map Interp.Source
                          (flat_map (resolve interpretations) ids))).
  { rewrite resolve_sources. now apply NoDup_filter. }
  split; [|split; [exact Hout|]].
  - rewrite count_by_source. apply NoDup_count_occ'; [exact Hout|].
    rewrite resolve_sources. apply filter_In. split; [exact Hin|].
    destruct (find (fun i0 => Interp.Source i0 =? s) interpretations) eqn:E;
      [reflexivity|].
    apply (find_none _ _ E) in Hi. apply Nat.eqb_neq in Hi. contradiction.
  - intros x Hx. apply in_flat_map in Hx as [j [_ Hx]]. unfold resolve in Hx.
    destruct (find (fun i0 => Interp.Source i0 =? j) interpretations) eqn:E;
      [|destruct Hx].
    destruct Hx as [<-|[]]. now apply find_some in E.
Qed.

Lemma matcher_deduplicates_witness :
  exists out,
    find_interpretations Examples.egfr_sample Examples.egfr_entries
      Examples.egfr_interpretations = Found out
    /\ List.length (filter (fun i => Interp.Source i =? 0) out) = 1.
Proof.
  destruct (matcher_deduplicates Examples.egfr_sample "L858R"
              Examples.egfr_entries Examples.egfr_interpretations 0 eq_refl)
    as [out [Hf [Hn _]]].
  - eexists. split; [right; left; reflexivity|]. split; reflexivity.
  - eexists. split; [left; reflexivity | reflexivity].
  - exists out. split; [exact Hf | exact Hn].
Defined.

End MatcherFacts.

(** * Further properties of the scripts *)

(** ** Cleaning *)

Section MoreCleaning.

Import PyStr Pmkb Examples.

Lemma lstrip_idem (s : string) : lstrip (lstrip s) = lstrip s.
Proof.
  induction s as [|c s IH]; simpl; [reflexivity|].
  destruct (is_space c) eqn:E; [exact IH|]. simpl. now rewrite E.
Qed.

Lemma lstrip_strip (s : string) : lstrip (strip s) = strip s.
Proof. unfold strip. now rewrite lstrip_rstrip, lstrip_idem. Qed.

Lemma rstrip_strip (s : string) : rstrip (strip s) = strip s.
Proof. unfold strip. apply rstrip_idem. Qed.

Lemma strip_idem (s : string) : strip (strip s) = strip s.
Proof.
  unfold strip at 1. now rewrite lstrip_strip, rstrip_strip.
Qed.

(** X1: cleaning keeps the rows of the sheet, one for one and in their
    order; the [Source] of a row is its position, counted from 0, so that no
    two rows share one; the gene, the three multi-valued cells and the
    interpretation are taken over as they are. *)
Theorem clean_keeps_rows (sheet : list Sheet.row) (df : list Row.row) :
  clean_pmkb_df sheet = Ok df ->
  List.length df = List.length sheet
  /\ map Row.Source df = seq 0 (List.length sheet)
  /\ NoDup (map Row.Source df)
  /\ (forall i r, nth_error sheet i = Some r ->
       exists row,
         nth_error df i = Some row
         /\ Row.Source row = i
         /\ Row.Gene row = Sheet.Gene r
         /\ Row.TumorType row = Sheet.TumorTypes r
         /\ Row.TissueType row = Sheet.TissueTypes r
         /\ Row.Variant row = Sheet.Variants r
         /\ Row.Interpretation row = Sheet.Interpretations r).
Proof.
  intros H. split; [now apply clean_length|].
  split; [now apply clean_Sources|].
  split; [rewrite (clean_Sources _ _ H); apply seq_NoDup|].
  intros i r Hr. destruct (clean_nth _ _ _ _ H Hr) as [row [Hrow Hc]].
  exists row. split; [exact Hrow|].
  apply clean_row_inv in Hc as [_ ->]. now repeat split.
Qed.

Lemma clean_keeps_rows_witness :
  map Row.Source
    [Row.mk 0 (Some "EGFR") (Some "Lung Cancer, Glioma") (Some "Lung")
       (Some "L858R") 1 (Some "Sensitizing mutation.")
       ("A" ++ newline ++ newline ++ "B");
     Row.mk 1 (Some "KRAS") None (Some "Lung") (Some "G12C") 0
       (Some "Sensitizing mutation.") "C"]
  = seq 0 (List.length sheet_kras).
Proof.
  apply (proj1 (proj2 (clean_keeps_rows sheet_kras _ eq_refl))).
Defined.

(** X2: the citations text of a cleaned row neither begins nor ends with a
    blank, and it is empty when every citation cell of the fact is empty. *)
Theorem citation_without_outer_blanks (sheet : list Sheet.row)
    (df : list Row.row) :
  clean_pmkb_df sheet = Ok df ->
  forall i r, nth_error sheet i = Some r ->
  exists row,
    nth_error df i = Some row
    /\ lstrip (Row.Citation row) = Row.Citation row
    /\ rstrip (Row.Citation row) = Row.Citation row
    /\ (forallb (fun c => is_empty (fillna c)) (Sheet.Citations r) = true ->
        Row.Citation row = ""%string).
Proof.
  intros H i r Hr. destruct (clean_nth _ _ _ _ H Hr) as [row [Hrow Hc]].
  exists row. split; [exact Hrow|].
  apply clean_row_inv in Hc as [_ ->]. simpl. unfold collapse_citations.
  split; [apply lstrip_strip|]. split; [apply rstrip_strip|].
  intros Hb. apply (collapse_blank_tail [] _ Hb).
Qed.

Lemma citation_without_outer_blanks_witness :
  exists row,
    nth_error [Row.mk 0 (Some "TP53") (Some "Any") (Some "Any")
                 (Some "R175H") 3 (Some "Sensitizing mutation.") ""] 0
    = Some row
    /\ Row.Citation row = ""%string.
Proof.
  destruct (citation_without_outer_blanks
              [fact (Some "TP53") (Some "Any") (Some "Any") (Some "R175H")
                 (TierNumber (7 # 2)) [None; Some ""; None]]
              _ eq_refl 0 _ eq_refl) as [row [Hrow [_ [_ Hc]]]].
  exists row. split; [exact Hrow | apply Hc; reflexivity].
Defined.

End MoreCleaning.

(** ** Tiers that are numbers *)

Section MoreTiers.

Import Pmkb.

(** X3: in a sheet whose tiers are numbers or missing, the cleaning never
    fails, whatever the numbers are.  A number whose integer part fits into
    64 bits becomes the integer next to it in the direction of zero, so
    that less than one unit is lost, and a whole number is kept as it is;
    a number beyond that becomes the least 64-bit integer. *)
Theorem tier_number_truncated (sheet : list Sheet.row) :
  object_tiers sheet = false ->
  exists df,
    clean_pmkb_df sheet = Ok df
    /\ forall i r q,
         nth_error sheet i = Some r -> Sheet.Tier r = TierNumber q ->
         exists row,
           nth_error df i = Some row
           /\ ((inject_Z Int64.min - 1 < q /\ q < inject_Z Int64.max + 1)%Q ->
               (0 <= q -> inject_Z (Row.Tier row) <= q
                          /\ q < inject_Z (Row.Tier row) + 1)%Q
               /\ (q <= 0 -> q <= inject_Z (Row.Tier row)
                             /\ inject_Z (Row.Tier row) - 1 < q)%Q
               /\ (forall n : Z, (q == inject_Z n)%Q -> Row.Tier row = n))
           /\ ((q <= inject_Z Int64.min - 1 \/ inject_Z Int64.max + 1 <= q)%Q ->
               Row.Tier row = Int64.min).
Proof.
  intros Ho.
  assert (Hall : forall r, In r sheet -> is_text (Sheet.Tier r) = false).
  { intros r Hr. destruct (is_text (Sheet.Tier r)) eqn:E; [|reflexivity].
    unfold object_tiers in Ho.
    assert (H : existsb (fun r => is_text (Sheet.Tier r)) sheet = true)
      by (apply existsb_exists; now exists r).
    congruence. }
  destruct (mapM_total (clean_row (object_tiers sheet)) (enumerate sheet))
    as [df Hdf].
  { intros [i r] Hin. apply in_combine_r in Hin. specialize (Hall r Hin).
    unfold clean_row. rewrite Ho.
    destruct (Sheet.Tier r); [| |discriminate]; simpl; eexists; reflexivity. }
  exists df. split; [exact Hdf|].
  intros i r q Hr Ht. destruct (clean_nth _ _ _ _ Hdf Hr) as [row [Hrow Hc]].
  exists row. split; [exact Hrow|].
  apply clean_row_inv in Hc as [Hc _]. rewrite Ho, Ht in Hc.
  split.
  - intros Hq. apply fits_truncate in Hq.
    rewrite (coerce_number _ _ Hq) in Hc. injection Hc as <-.
    apply truncate_bounds.
  - intros Hq.
    rewrite (proj1 (coerce_number_beyond _ (fits_beyond _ Hq))) in Hc.
    congruence.
Qed.

Lemma tier_number_truncated_witness :
  exists df,
    clean_pmkb_df [Examples.egfr; Examples.kras] = Ok df
    /\ exists row, nth_error df 0 = Some row /\ Row.Tier row = 1%Z.
Proof.
  destruct (tier_number_truncated [Examples.egfr; Examples.kras] eq_refl)
    as [df [Hdf H]].
  exists df. split; [exact Hdf|].
  destruct (H 0 Examples.egfr (1 # 1)%Q eq_refl eq_refl) as [row [Hrow [Hin _]]].
  exists row. split; [exact Hrow|].
  apply Hin; [split; reflexivity | reflexivity].
Defined.

End MoreTiers.

(** ** The interpretations frame *)

Section MoreInterpretations.

Import PyStr Pmkb Examples.

(** X5: [make_interpretations] on the cleaned frame gives one row for each
    fact, in the order of the sheet: the row of fact [i] has the key [i],
    the interpretation of the fact and its collapsed citations; the keys
    are all different. *)
Theorem interpretations_of_facts (sheet : list Sheet.row) (df : list Row.row) :
  clean_pmkb_df sheet = Ok df ->
  List.length (make_interpretations df) = List.length sheet
  /\ NoDup (map Interp.Source (make_interpretations df))
  /\ (forall i r, nth_error sheet i = Some r ->
      nth_error (make_interpretations df) i
      = Some {| Interp.Source := i;
                Interp.Interpretation := Sheet.Interpretations r;
                Interp.Citation := collapse_citations (Sheet.Citations r) |}).
Proof.
  intros H. unfold make_interpretations. split; [|split].
  - rewrite length_map. now apply clean_length.
  - rewrite map_map. simpl. change (fun x => Row.Source x) with Row.Source.
    rewrite (clean_Sources _ _ H). apply seq_NoDup.
  - intros i r Hr. destruct (clean_nth _ _ _ _ H Hr) as [row [Hrow Hc]].
    rewrite nth_error_map, Hrow. simpl.
    apply clean_row_inv in Hc as [_ ->]. reflexivity.
Qed.

Lemma interpretations_of_facts_witness :
  nth_error (make_interpretations
               [Row.mk 0 (Some "EGFR") (Some "Lung Cancer, Glioma")
                  (Some "Lung") (Some "L858R") 1
                  (Some "Sensitizing mutation.")
                  ("A" ++ newline ++ newline ++ "B")]) 0
  = Some (Interp.mk 0 (Some "Sensitizing mutation.")
            (collapse_citations [Some "A"; None; Some "B"]%string)).
Proof.
  apply (proj2 (proj2 (interpretations_of_facts sheet_egfr _ eq_refl))
           0 egfr eq_refl).
Defined.

End MoreInterpretations.

(** ** The two splitters *)

Section MoreSplitting.

Import PyStr Re ReSplit Pmkb Chars Examples.

Lemma split_not_nil (sep : ascii) (s : string) : split sep s <> [].
Proof.
  destruct s as [|c s]; simpl; [discriminate|].
  destruct (Ascii.eqb c sep); [discriminate|].
  destruct (split sep s); discriminate.
Qed.

Lemma split_join (sep : ascii) (s : string) :
  join (String sep "") (split sep s) = s.
Proof.
  unfold join. induction s as [|c s IH]; [reflexivity|].
  simpl. destruct (Ascii.eqb c sep) eqn:E.
  - apply Ascii.eqb_eq in E. subst c.
    pose proof (split_not_nil sep s) as Hn.
    destruct (split sep s) as [|t ts]; [congruence|].
    change (String.concat (String sep "") ("" :: t :: ts))%string
      with (String sep (String.concat (String sep "") (t :: ts))).
    now rewrite IH.
  - pose proof (split_not_nil sep s) as Hn.
    destruct (split sep s) as [|t ts]; [congruence|].
    simpl in *. destruct ts; simpl in *; now rewrite <- IH.
Qed.

Lemma split_length (sep : ascii) (s : string) :
  List.length (split sep s) = S (count sep s).
Proof.
  induction s as [|c s IH]; [reflexivity|].
  simpl. destruct (Ascii.eqb c sep); simpl.
  - now rewrite IH.
  - pose proof (split_not_nil sep s) as Hn.
    destruct (split sep s) as [|t ts]; [congruence|]. exact IH.
Qed.

Lemma split_pieces (sep : ascii) (s : string) :
  Forall (fun t => contains sep t = false) (split sep s).
Proof.
  induction s as [|c s IH]; simpl.
  - constructor; [reflexivity | constructor].
  - destruct (Ascii.eqb c sep) eqn:E.
    + constructor; [reflexivity | exact IH].
    + destruct (split sep s) as [|t ts]; simpl.
      * constructor; [simpl; now rewrite E | constructor].
      * inversion IH as [|? ? Ht Hts]; subst.
        constructor; [simpl; now rewrite E, Ht | exact Hts].
Qed.

Lemma split_atomic (sep : ascii) (s : string) :
  contains sep s = false -> split sep s = [s].
Proof.
  induction s as [|c s IH]; [reflexivity|].
  simpl. destruct (Ascii.eqb c sep); simpl; [discriminate|].
  intros H. now rewrite (IH H).
Qed.

Lemma contains_lstrip (c : ascii) (s : string) :
  contains c s = false -> contains c (lstrip s) = false.
Proof.
  induction s as [|x s IH]; [reflexivity|].
  simpl. destruct (is_space x); [|exact (fun H => H)].
  intros H. apply orb_false_elim in H as [_ H]. now apply IH.
Qed.

Lemma contains_rstrip (c : ascii) (s : string) :
  contains c s = false -> contains c (rstrip s) = false.
Proof.
  induction s as [|x s IH]; [reflexivity|].
  simpl. intros H. apply orb_false_elim in H as [Hx H].
  destruct (is_space x && is_empty (rstrip s)); [reflexivity|].
  simpl. now rewrite Hx, (IH H).
Qed.

(** X4: splitting a cell at its commas loses nothing: the pieces are one
    more than the commas of the cell, none of them holds a comma, and
    joined by commas they are the cell again. *)
Theorem comma_split_round_trip (s : string) :
  join "," (split "," s) = s
  /\ List.length (split "," s) = S (count "," s)
  /\ Forall (fun t => contains "," t = false) (split "," s).
Proof.
  split; [apply split_join|]. split; [apply split_length | apply split_pieces].
Qed.

Lemma starts_upper_rstrip (s : string) :
  starts_upper (rstrip s) = true -> starts_upper s = true.
Proof.
  destruct s as [|c s]; simpl; [discriminate|].
  now destruct (is_space c && is_empty (rstrip s)).
Qed.

Lemma splitting_comma_lstrip (s : string) :
  splitting_comma s = false -> splitting_comma (lstrip s) = false.
Proof.
  induction s as [|c s IH]; [reflexivity|].
  simpl. destruct (is_space c); [|exact (fun H => H)].
  intros H. apply orb_false_elim in H as [_ H]. now apply IH.
Qed.

Lemma splitting_comma_rstrip (s : string) :
  splitting_comma s = false -> splitting_comma (rstrip s) = false.
Proof.
  induction s as [|c s IH]; [reflexivity|].
  simpl. intros H. apply orb_false_elim in H as [Hc H].
  destruct (is_space c && is_empty (rstrip s)); [reflexivity|].
  simpl. rewrite (IH H), orb_false_r.
  destruct (Ascii.eqb c ","); [|reflexivity]. simpl in *.
  destruct (starts_upper (lstrip (rstrip s))) eqn:E; [|reflexivity].
  rewrite lstrip_rstrip in E. apply starts_upper_rstrip in E. congruence.
Qed.

Lemma re_split_first_prefix (s t : string) (ts : list string) :
  re_split s = t :: ts -> exists x, s = (t ++ x)%string.
Proof.
  revert t ts. induction s as [|c s IH]; intros t ts.
  - simp re_split. intros [= <- _]. now exists ""%string.
  - rewrite re_split_cons. destruct (match_sep (String c s)).
    + intros [= <- _]. now exists (String c s).
    + destruct (re_split s) as [|t' ts'] eqn:E; simpl.
      * intros [= <- _]. now apply re_split_not_nil in E.
      * intros [= <- _]. destruct (IH _ _ eq_refl) as [x ->].
        now exists x.
Qed.

(** No piece of [re_split] holds a comma at which the pattern matches. *)
Lemma re_split_pieces (s : string) :
  Forall (fun t => splitting_comma t = false) (re_split s).
Proof.
  remember (String.length s) as n eqn:Hn. revert s Hn.
  induction n as [n IH] using lt_wf_ind. intros s Hn.
  destruct s as [|c s]; [simp re_split; now repeat constructor|].
  rewrite re_split_cons. destruct (match_sep (String c s)) as [rest|] eqn:Hm.
  - constructor; [reflexivity|].
    apply (IH (String.length rest)); [|reflexivity].
    apply match_sep_shorter in Hm. lia.
  - assert (Hs : Forall (fun t => splitting_comma t = false) (re_split s))
      by (apply (IH (String.length s)); [simpl in Hn; lia | reflexivity]).
    destruct (re_split s) as [|t ts] eqn:E; [now apply re_split_not_nil in E|].
    inversion Hs as [|? ? Ht Hts]; subst. simpl.
    constructor; [|exact Hts]. simpl. rewrite Ht, orb_false_r.
    destruct (Ascii.eqb c ",") eqn:Ec; [|reflexivity].
    apply Ascii.eqb_eq in Ec. subst c. simpl.
    destruct (starts_upper (lstrip t)) eqn:Eu; [|reflexivity].
    destruct (re_split_first_prefix _ _ _ E) as [x ->].
    destruct (lstrip_split t) as [w [Hw Hl]].
    rewrite Hl, append_assoc in Hm.
    pose proof (match_sep_here "" w (lstrip t ++ x)%string eq_refl Hw) as H.
    simpl in H. rewrite H in Hm; [discriminate|].
    destruct (lstrip t); [discriminate | exact Eu].
Qed.

Lemma re_split_atomic (s : string) :
  splitting_comma s = false -> re_split s = [s].
Proof.
  intros H. apply re_split_no_match. intros p x ->.
  destruct (match_sep x) as [r|] eqn:Hm; [|reflexivity].
  destruct (match_sep_inv _ _ Hm) as [w1 [w2 [-> [_ [Hw2 Hr]]]]].
  rewrite <- append_assoc, splitting_comma_app in H; [discriminate|].
  now rewrite lstrip_app, Hw2, (lstrip_starts_upper _ Hr).
Qed.

(** Every piece of [re_split] but the first starts with the upper-case
    letter that the pattern saw. *)
Lemma re_split_later_pieces (s : string) :
  Forall (fun t => starts_upper t = true) (tl (re_split s)).
Proof.
  remember (String.length s) as n eqn:Hn. revert s Hn.
  induction n as [n IH] using lt_wf_ind. intros s Hn.
  destruct s as [|c s]; [simp re_split; constructor|].
  rewrite re_split_cons. destruct (match_sep (String c s)) as [rest|] eqn:Hm.
  - simpl. pose proof (match_sep_shorter _ _ Hm) as Hlt.
    destruct (match_sep_inv _ _ Hm) as [_ [_ [_ [_ [_ Hu]]]]].
    pose proof (IH (String.length rest) ltac:(lia) rest eq_refl) as Hr.
    destruct rest as [|u r]; [discriminate Hu|].
    rewrite re_split_cons in *.
    assert (Hnone : match_sep (String u r) = None).
    { rewrite match_sep_eq. simpl in Hu. simpl.
      rewrite (upper_not_space _ Hu). simpl.
      destruct (Ascii.eqb u ",") eqn:E; [|reflexivity].
      apply Ascii.eqb_eq in E. subst u. discriminate Hu. }
    rewrite Hnone in *.
    destruct (re_split r) as [|t ts]; simpl in *;
      (constructor; [exact Hu | exact Hr]).
  - pose proof (IH (String.length s) ltac:(simpl in Hn; lia) s eq_refl) as Hs.
    destruct (re_split s) as [|t ts]; [constructor | exact Hs].
Qed.

Lemma starts_upper_strip (s : string) :
  starts_upper s = true -> starts_upper (strip s) = true.
Proof.
  intros H. unfold strip. rewrite (lstrip_starts_upper _ H).
  destruct s as [|c s]; [discriminate|]. simpl in *.
  now rewrite (upper_not_space _ H).
Qed.

(** X7: the pieces that the variant splitter makes of a cell start, all but
    the first, with an upper-case letter: a variant never starts with the
    lower-case continuation of the variant before it. *)
Theorem variant_tokens_start_upper (s : string) :
  Forall (fun t => starts_upper t = true) (tl (tokens re_split (Some s))).
Proof.
  unfold tokens. pose proof (re_split_later_pieces s) as H.
  destruct (re_split s) as [|t ts]; [constructor|]. simpl in *.
  induction H as [|x l Hx Hl IH]; simpl; constructor.
  - now apply starts_upper_strip.
  - exact IH.
Qed.

End MoreSplitting.

(** ** More on the entries *)

Section MoreEntries.

Import PyStr Re ReSplit Pmkb Chars Store Script Examples.

Lemma make_entries_values df es e :
  make_entries df = Ok es -> In e es ->
  exists c1 c2 c3,
    In (Entry.TumorType e) (tokens (split ",") c1)
    /\ In (Entry.TissueType e) (tokens (split ",") c2)
    /\ In (Entry.Variant e) (tokens re_split c3).
Proof.
  intros He Hin.
  destruct (make_entries_inv _ _ He) as [tu [ti [va [H1 [H2 [H3 ->]]]]]].
  apply in_map_iff in Hin as [[k [[[[t s] v] z] g]] [<- H]]. simpl.
  apply merge_In in H as [H _]. apply merge_In in H as [H _].
  apply merge_In in H as [H Hv]. apply merge_In in H as [Ht Hs].
  apply (split_stack_In _ _ _ _ _ H1) in Ht as [c1 [_ Ht]].
  apply (split_stack_In _ _ _ _ _ H2) in Hs as [c2 [_ Hs]].
  apply (split_stack_In _ _ _ _ _ H3) in Hv as [c3 [_ Hv]].
  now exists c1, c2, c3.
Qed.

Lemma comma_token_atomic (c : Cell) (t : string) :
  In t (tokens (split ",") c) -> tokens (split ",") (Some t) = [t].
Proof.
  destruct c as [s|]; simpl; [|tauto].
  intros H. apply in_map_iff in H as [x [<- Hx]].
  pose proof (split_pieces "," s) as Hp.
  rewrite Forall_forall in Hp. specialize (Hp x Hx). simpl in Hp.
  rewrite split_atomic; [simpl; now rewrite strip_idem|].
  unfold strip. now apply contains_rstrip, contains_lstrip.
Qed.

Lemma variant_token_atomic (c : Cell) (t : string) :
  In t (tokens re_split c) -> tokens re_split (Some t) = [t].
Proof.
  destruct c as [s|]; simpl; [|tauto].
  intros H. apply in_map_iff in H as [x [<- Hx]].
  pose proof (re_split_pieces s) as Hp.
  rewrite Forall_forall in Hp. specialize (Hp x Hx). simpl in Hp.
  rewrite re_split_atomic; [simpl; now rewrite strip_idem|].
  unfold strip. now apply splitting_comma_rstrip, splitting_comma_lstrip.
Qed.

(** X6: the values of an entry are atomic: split again, the tumor type
    and the tissue type of an entry stay what they are (they hold no comma
    and no blank at their ends), and so does its variant. *)
Theorem entries_values_atomic (df : list Row.row) (es : list Entry.row) :
  make_entries df = Ok es ->
  forall e, In e es ->
    tokens (split ",") (Some (Entry.TumorType e)) = [Entry.TumorType e]
    /\ tokens (split ",") (Some (Entry.TissueType e)) = [Entry.TissueType e]
    /\ tokens re_split (Some (Entry.Variant e)) = [Entry.Variant e]
    /\ contains "," (Entry.TumorType e) = false
    /\ contains "," (Entry.TissueType e) = false.
Proof.
  intros He e Hin.
  destruct (make_entries_values _ _ _ He Hin) as [c1 [c2 [c3 [H1 [H2 H3]]]]].
  assert (Hc : forall c t, In t (tokens (split ",") c) ->
                           contains "," t = false).
  { intros [s|] t; simpl; [|tauto].
    intros H. apply in_map_iff in H as [x [<- Hx]].
    pose proof (split_pieces "," s) as Hp.
    rewrite Forall_forall in Hp. specialize (Hp x Hx). simpl in Hp.
    unfold strip. now apply contains_rstrip, contains_lstrip. }
  split; [now apply (comma_token_atomic c1)|].
  split; [now apply (comma_token_atomic c2)|].
  split; [now apply (variant_token_atomic c3)|].
  split; [now apply (Hc c1) | now apply (Hc c2)].
Qed.

Lemma entries_values_atomic_witness :
  tokens (split ",") (Some "Glioma"%string) = ["Glioma"%string]
  /\ tokens (split ",") (Some "Lung"%string) = ["Lung"%string]
  /\ tokens re_split (Some "L858R"%string) = ["L858R"%string]
  /\ contains "," "Glioma" = false
  /\ contains "," "Lung" = false.
Proof.
  apply (entries_values_atomic
           [Row.mk 0 (Some "EGFR") (Some "Lung Cancer, Glioma") (Some "Lung")
              (Some "L858R") 1 (Some "Sensitizing mutation.") "A"]
           _ eq_refl (Entry.mk 0 "Glioma" "Lung" "L858R" 1 (Some "EGFR"))).
  right. left. reflexivity.
Defined.

(** X8: a fact whose three cells hold one value each (no comma in the
    tumor and tissue cells, no splitting comma in the variant cell) has
    exactly one entry: its source id, the three values without the blanks
    at their ends, its tier and its gene. *)
Theorem single_valued_fact (sheet : list Sheet.row) (df : list Row.row)
    (es : list Entry.row) :
  clean_pmkb_df sheet = Ok df -> make_entries df = Ok es ->
  forall i r t s v,
    nth_error sheet i = Some r ->
    Sheet.TumorTypes r = Some t -> contains "," t = false ->
    Sheet.TissueTypes r = Some s -> contains "," s = false ->
    Sheet.Variants r = Some v -> splitting_comma v = false ->
    exists z,
      coerce_tier (object_tiers sheet) (Sheet.Tier r) = Ok z
      /\ filter (fun e => Entry.Source e =? i) es
         = [{| Entry.Source := i;
               Entry.TumorType := strip t;
               Entry.TissueType := strip s;
               Entry.Variant := strip v;
               Entry.Tier := z;
               Entry.Gene := Sheet.Gene r |}].
Proof.
  intros Hc He i r t s v Hr Ht Hnt Hs Hns Hv Hnv.
  destruct (clean_nth _ _ _ _ Hc Hr) as [row [Hrow Hcr]].
  apply clean_row_inv in Hcr as [Hz Hfields].
  exists (Row.Tier row). split; [exact Hz|].
  assert (E1 : Row.TumorType row = Some t) by (rewrite Hfields; exact Ht).
  assert (E2 : Row.TissueType row = Some s) by (rewrite Hfields; exact Hs).
  assert (E3 : Row.Variant row = Some v) by (rewrite Hfields; exact Hv).
  assert (E4 : Row.Gene row = Sheet.Gene r) by now rewrite Hfields.
  pose proof (entries_count _ _ _ i Hc He) as Hn.
  rewrite Hrow, E1, E2, E3 in Hn. simpl in Hn.
  rewrite (split_atomic _ _ Hnt), (split_atomic _ _ Hns),
    (re_split_atomic _ Hnv) in Hn. simpl in Hn.
  set (e := {| Entry.Source := i; Entry.TumorType := strip t;
               Entry.TissueType := strip s; Entry.Variant := strip v;
               Entry.Tier := Row.Tier row; Entry.Gene := Sheet.Gene r |}).
  assert (Hin : In e (filter (fun e => Entry.Source e =? i) es)).
  { apply filter_In. split; [|apply Nat.eqb_refl].
    apply (entries_In _ _ _ _ Hc He). exists row. simpl.
    rewrite E1, E2, E3, E4. simpl.
    rewrite (split_atomic _ _ Hnt), (split_atomic _ _ Hns),
      (re_split_atomic _ Hnv). simpl. now repeat split; try left. }
  destruct (filter (fun e => Entry.Source e =? i) es) as [|x [|y l]];
    try discriminate Hn.
  destruct Hin as [->|[]]. reflexivity.
Qed.

Lemma single_valued_fact_witness :
  exists z,
    coerce_tier false (Sheet.Tier kras) = Ok z
    /\ filter (fun e => Entry.Source e =? 0)
         [Entry.mk 0 "Lung Cancer" "Lung" "G12C" 0 (Some "KRAS")]
       = [Entry.mk 0 (strip " Lung Cancer") (strip "Lung ") (strip "G12C")
            z (Some "KRAS")].
Proof.
  apply (single_valued_fact
           [fact (Some "KRAS") (Some " Lung Cancer") (Some "Lung ")
              (Some "G12C") TierMissing [Some "C"; None]]
           _ _ eq_refl eq_refl 0 _ " Lung Cancer" "Lung " "G12C" eq_refl
           eq_refl eq_refl eq_refl eq_refl eq_refl eq_refl).
Defined.

(** X9: a run on a sheet in which the tumor type column, the tissue type
    column or the variant column holds no text at all (an empty sheet is
    one) raises [AttributeError], whatever the flags are, and writes
    nothing; with some text in each of the three columns [make_entries]
    returns a frame. *)
Theorem columns_need_text (sheet : list Sheet.row) (df : list Row.row) :
  clean_pmkb_df sheet = Ok df ->
  if existsb notna (map Sheet.TumorTypes sheet)
     && existsb notna (map Sheet.TissueTypes sheet)
     && existsb notna (map Sheet.Variants sheet)
  then exists es, make_entries df = Ok es
  else make_entries df = Raise AttributeError
       /\ forall a fs,
            xlsx2df (pmkb_xlsx a) fs = (Ok sheet, fs) ->
            main a fs = (Raise AttributeError, fs).
Proof.
  intros Hc.
  assert (Hcol : forall (f : Sheet.row -> Cell) (g : Row.row -> Cell),
             (forall o i r row, clean_row o (i, r) = Ok row -> g row = f r) ->
             map g df = map f sheet).
  { intros f g Hfg. apply mapM_Ok in Hc. unfold enumerate in Hc.
    revert Hc. generalize (object_tiers sheet) as o. generalize 0 as start.
    revert df.
    induction sheet as [|r l IH]; intros df start o H; simpl in H.
    - inversion H. reflexivity.
    - inversion H as [|? row ? df' Hr Hl]; subst. simpl.
      rewrite (Hfg _ _ _ _ Hr). f_equal. now apply (IH _ (S start) o). }
  rewrite <- (Hcol Sheet.TumorTypes Row.TumorType),
    <- (Hcol Sheet.TissueTypes Row.TissueType),
    <- (Hcol Sheet.Variants Row.Variant);
    try (intros o i r row H; apply clean_row_inv in H as [_ ->]; reflexivity).
  destruct (existsb notna (map Row.TumorType df)) eqn:E1;
    [destruct (existsb notna (map Row.TissueType df)) eqn:E2;
     [destruct (existsb notna (map Row.Variant df)) eqn:E3|]|]; simpl.
  - now apply make_entries_succeeds.
  - assert (He : make_entries df = Raise AttributeError)
      by (unfold make_entries, split_stack; now rewrite E1, E2, E3).
    split; [exact He|]. intros a fs Hx. unfold main, bindIO.
    rewrite Hx. unfold lift. now rewrite Hc, He.
  - assert (He : make_entries df = Raise AttributeError)
      by (unfold make_entries, split_stack; now rewrite E1, E2).
    split; [exact He|]. intros a fs Hx. unfold main, bindIO.
    rewrite Hx. unfold lift. now rewrite Hc, He.
  - assert (He : make_entries df = Raise AttributeError)
      by (unfold make_entries, split_stack; now rewrite E1).
    split; [exact He|]. intros a fs Hx. unfold main, bindIO.
    rewrite Hx. unfold lift. now rewrite Hc, He.
Qed.

Lemma columns_need_text_witness :
  main (args (Some "pmkb.db") (Some "pmkb.interpretations.tsv") None None
          None) (disk [])
  = (Raise AttributeError, disk []).
Proof.
  apply (proj2 (columns_need_text [] [] eq_refl)). reflexivity.
Defined.

End MoreEntries.

(** ** Saving *)

Section MoreSaving.

Import PyStr Pmkb Store Script Examples.


Lemma to_sql_twice (interpretations entries : Table)
    (tables : list (string * Table)) :
  let saved := to_sql "entries" entries
                 (to_sql "interpretations" interpretations tables) in
  to_sql "entries" entries (to_sql "interpretations" interpretations saved)
  = saved.
Proof.
  unfold to_sql. simpl. do 2 f_equal.
  induction tables as [|[k t] l IH]; [reflexivity|].
  simpl. destruct (String.eqb k "interpretations") eqn:E1; simpl; [exact IH|].
  destruct (String.eqb k "entries") eqn:E2; simpl; [exact IH|].
  rewrite E1. simpl. rewrite E2. simpl. now rewrite IH.
Qed.








(** X12: without the workbook the run raises [FileNotFoundError], and with
    a workbook that has no sheet [Interpretations] it raises [KeyError]; in
    both cases nothing is written, whatever the flags are. *)
Theorem workbook_errors (a : Args) (fs : FileSystem) :
  (lookup (pmkb_xlsx a) fs = None ->
   main a fs = (Raise FileNotFoundError, fs))
  /\ (forall sheets,
        lookup (pmkb_xlsx a) fs = Some (Workbook sheets) ->
        lookup "Interpretations" sheets = None ->
        main a fs = (Raise KeyError, fs)).
Proof.
  split.
  - intros H. unfold main, bindIO at 1. unfold xlsx2df, bindIO, get.
    now rewrite H.
  - intros sheets H Hs. unfold main, bindIO at 1. unfold xlsx2df, bindIO, get.
    now rewrite H, Hs.
Qed.

Lemma workbook_errors_witness :
  main (args (Some "pmkb.db") None None None None)
       [("pmkb.xlsx", Workbook [("Sheet1", sheet_egfr)])]
  = (Raise KeyError, [("pmkb.xlsx", Workbook [("Sheet1", sheet_egfr)])]).
Proof.
  apply (proj2 (workbook_errors (args (Some "pmkb.db") None None None None)
                  [("pmkb.xlsx", Workbook [("Sheet1", sheet_egfr)])])
           [("Sheet1", sheet_egfr)]); reflexivity.
Defined.

(** X13: with one path for [--entries] and for [--db], the entries file is
    written first, and the interpretations file before it when its flag is
    given; the database is then opened on the entries file, which is no
    database: the run raises [DatabaseError] and leaves these files. *)
Theorem partial_output_on_database_error (a : Args) (fs : FileSystem)
    (sheet : list Sheet.row) (df : list Row.row) (es : list Entry.row)
    (path : string) :
  xlsx2df (pmkb_xlsx a) fs = (Ok sheet, fs) ->
  clean_pmkb_df sheet = Ok df ->
  make_entries df = Ok es ->
  given (entries_file a) = Some path ->
  given (pmkb_db a) = Some path ->
  main a fs
  = (Raise DatabaseError,
     (path, CsvQuoted (table_of_entries es))
     :: match given (interpretations_file a) with
        | Some p => [(p, TsvUtf16 (table_of_df df))]
        | None => []
        end ++ fs).
Proof.
  intros Hx Hc He Hentries Hdb.
  unfold main. unfold bindIO at 1. rewrite Hx.
  unfold bindIO at 1. unfold lift at 1. rewrite Hc.
  unfold bindIO at 1. unfold lift at 1. rewrite He.
  unfold if_given, if_both. rewrite Hentries, Hdb.
  unfold save_interpretations, save_entries, save_db.
  destruct (given (interpretations_file a)) as [p|];
    unfold bindIO, put, ret, write; rewrite connect_eq; simpl;
    rewrite String.eqb_refl; reflexivity.
Qed.

Lemma partial_output_on_database_error_witness :
  main (args (Some "pmkb.out") None (Some "pmkb.out") None None)
       (disk sheet_egfr)
  = (Raise DatabaseError,
     ("pmkb.out"%string,
      CsvQuoted (table_of_entries
                   [Entry.mk 0 "Lung Cancer" "Lung" "L858R" 1 (Some "EGFR");
                    Entry.mk 0 "Glioma" "Lung" "L858R" 1 (Some "EGFR")]))
     :: disk sheet_egfr).
Proof.
  apply (partial_output_on_database_error
           (args (Some "pmkb.out") None (Some "pmkb.out") None None)
           (disk sheet_egfr) sheet_egfr _ _ "pmkb.out"
           eq_refl eq_refl eq_refl eq_refl eq_refl).
Defined.

End MoreSaving.

(** ** Runs of the script *)

Section MoreRuns.

Import PyStr Pmkb Store Script Paths Examples.

(** X14: run without any output flag, the script reads the workbook
    [pmkb.xlsx] (or the one of [--pmkb-xlsx]), normalizes it, and writes
    nothing. *)
Theorem parse_without_outputs (o : Options) (fs : FileSystem)
    (sheet : list Sheet.row) (df : list Row.row) (es : list Entry.row) :
  given (opt_db o) = None ->
  given (opt_interpretations o) = None ->
  given (opt_entries o) = None ->
  given (opt_tumors o) = None ->
  given (opt_tissues o) = None ->
  xlsx2df (match opt_pmkb_xlsx o with
           | Some p => p
           | None => "pmkb.xlsx"%string
           end) fs = (Ok sheet, fs) ->
  clean_pmkb_df sheet = Ok df ->
  make_entries df = Ok es ->
  parse o fs = (Ok tt, fs).
Proof.
  intros H1 H2 H3 H4 H5 Hx Hc He. unfold parse.
  rewrite (main_run _ fs sheet df es []); simpl; try assumption.
  - unfold outputs, both. simpl. now rewrite H1, H2, H3, H4, H5.
  - unfold db_apart. simpl. now rewrite H1.
  - now rewrite H1.
Qed.

Lemma parse_without_outputs_witness :
  parse (mkOptions None None None None None None) (disk sheet_kras)
  = (Ok tt, disk sheet_kras).
Proof.
  apply (parse_without_outputs (mkOptions None None None None None None)
           (disk sheet_kras) sheet_kras _ _
           eq_refl eq_refl eq_refl eq_refl eq_refl eq_refl eq_refl eq_refl).
Defined.

Lemma xlsx2df_same (path : string) (fs fs' : FileSystem)
    (sheet : list Sheet.row) :
  lookup path fs' = lookup path fs ->
  xlsx2df path fs = (Ok sheet, fs) ->
  xlsx2df path fs' = (Ok sheet, fs').
Proof.
  unfold xlsx2df, bindIO, get. intros ->.
  destruct (lookup path fs) as [[sheets|t|t|ts|x]|]; try discriminate.
  destruct (lookup "Interpretations" sheets); [|discriminate].
  unfold ret. now intros [= ->].
Qed.

(** X15: a run whose outputs keep away from the workbook, and whose text
    outputs keep away from the database, can be made again: the second run
    ends well too and writes the same files with the same content, the
    database included. *)
Theorem rerun_writes_the_same (a : Args) (fs : FileSystem)
    (sheet : list Sheet.row) (df : list Row.row) (es : list Entry.row)
    (tables : list (string * Table)) :
  xlsx2df (pmkb_xlsx a) fs = (Ok sheet, fs) ->
  clean_pmkb_df sheet = Ok df ->
  make_entries df = Ok es ->
  paths_apart a = true ->
  match given (pmkb_db a) with
  | Some db => opened (lookup db fs) = Ok tables
  | None => True
  end ->
  exists written : FileSystem,
    main a fs = (Ok tt, written ++ fs)
    /\ main a (written ++ fs) = (Ok tt, written ++ written ++ fs).
Proof.
  intros Hx Hc He Hapart Hdb.
  set (saved := to_sql "entries" (table_of_entries es)
                  (to_sql "interpretations" (table_of_df df) tables)).
  assert (Hout : outputs a df es saved = outputs a df es tables).
  { unfold outputs, saved. now rewrite to_sql_twice. }
  exists (rev (map snd (outputs a df es tables))).
  assert (Hda : db_apart a = true).
  { unfold paths_apart in Hapart. apply andb_prop in Hapart as [_ H].
    unfold db_apart. destruct (given (pmkb_db a)) as [db|]; [|reflexivity].
    unfold away_from in H. simpl in *.
    repeat (apply andb_prop in H as [?H H]).
    now rewrite H0, H1, H2. }
  split; [now apply (main_run a fs sheet)|].
  rewrite <- Hout at 2.
  apply (main_run a _ sheet df es saved); try assumption.
  - apply (xlsx2df_same _ fs); [|exact Hx].
    unfold paths_apart in Hapart. apply andb_prop in Hapart as [H _].
    unfold away_from in H. simpl in H. unfold outputs, both.
    destruct (given (interpretations_file a)), (given (entries_file a)),
      (given (pmkb_db a)), (given (tumors_file a)), (given (tissues_file a));
      simpl in *;
      repeat match type of H with
             | context [String.eqb ?x (pmkb_xlsx a)] =>
                 let E := fresh "E" in
                 destruct (String.eqb x (pmkb_xlsx a)) eqn:E;
                 cbn [negb andb] in H; [discriminate H|];
                 rewrite String.eqb_sym in E
             end;
      repeat match goal with
             | E : String.eqb _ _ = false |- _ => rewrite E; clear E
             end; reflexivity.
  - unfold paths_apart in Hapart. apply andb_prop in Hapart as [_ H].
    unfold away_from in H. unfold outputs, both.
    destruct (given (pmkb_db a)) as [db|]; [|exact I].
    cbn [forallb] in H.
    destruct (given (interpretations_file a)), (given (entries_file a)),
      (given (tumors_file a)), (given (tissues_file a));
      simpl in *;
      repeat match type of H with
             | context [String.eqb ?x db] =>
                 let E := fresh "E" in
                 destruct (String.eqb x db) eqn:E;
                 cbn [negb andb] in H; [discriminate H|];
                 rewrite String.eqb_sym in E
             end;
      repeat match goal with
             | E : String.eqb _ _ = false |- _ => rewrite E; clear E
             end; rewrite ?String.eqb_refl; reflexivity.
Qed.

Lemma rerun_writes_the_same_witness :
  exists written : FileSystem,
    main (args (Some "pmkb.db") None (Some "pmkb.entries.csv")
            (Some "pmkb.tumor-terms.txt") None) (disk sheet_egfr)
    = (Ok tt, written ++ disk sheet_egfr)
    /\ main (args (Some "pmkb.db") None (Some "pmkb.entries.csv")
               (Some "pmkb.tumor-terms.txt") None)
            (written ++ disk sheet_egfr)
       = (Ok tt, written ++ written ++ disk sheet_egfr).
Proof.
  apply (rerun_writes_the_same
           (args (Some "pmkb.db") None (Some "pmkb.entries.csv")
              (Some "pmkb.tumor-terms.txt") None)
           (disk sheet_egfr) sheet_egfr _ _ []
           eq_refl eq_refl eq_refl eq_refl eq_refl).
Defined.

(** X18: the entries file and the table [entries] of the database hold one
    and the same frame: the six columns Source, TumorType, TissueType,
    Variant, Tier and Gene, and one record for each entry that
    [make_entries] has made. *)
Theorem entries_artifacts_agree (a : Args) (fs : FileSystem)
    (sheet : list Sheet.row) (df : list Row.row) (es : list Entry.row)
    (tables : list (string * Table)) :
  xlsx2df (pmkb_xlsx a) fs = (Ok sheet, fs) ->
  clean_pmkb_df sheet = Ok df ->
  make_entries df = Ok es ->
  db_apart a = true ->
  match given (pmkb_db a) with
  | Some db => opened (lookup db fs) = Ok tables
  | None => True
  end ->
  exists (t : Table) (written : FileSystem),
    main a fs = (Ok tt, written ++ fs)
    /\ (forall p, given (entries_file a) = Some p ->
                  In (p, CsvQuoted t) written)
    /\ (forall db, given (pmkb_db a) = Some db ->
                   exists ts, In (db, Sqlite ts) written
                              /\ lookup "entries" ts = Some t)
    /\ columns t = ["Source"; "TumorType"; "TissueType"; "Variant"; "Tier";
                    "Gene"]%string
    /\ List.length (records t) = List.length es
    /\ (forall r, In r (records t) -> List.length r = 6)
    /\ select "Variant" "entries" [("entries", t)]
       = Ok (map (fun e => VText (Entry.Variant e)) es).
Proof.
  intros Hx Hc He Hapart Hdb.
  exists (table_of_entries es), (rev (map snd (outputs a df es tables))).
  split; [now apply (main_run a fs sheet)|].
  split; [|split; [|split; [reflexivity|split; [|split]]]].
  - intros p Hp. rewrite <- in_rev. unfold outputs. rewrite Hp.
    rewrite !map_app. apply in_or_app. right. apply in_or_app. left.
    simpl. now left.
  - intros db Hp. eexists. split.
    + rewrite <- in_rev. unfold outputs. rewrite Hp.
      rewrite !map_app. apply in_or_app. right. apply in_or_app. right.
      apply in_or_app. left. simpl. left. reflexivity.
    + reflexivity.
  - simpl. now rewrite length_map.
  - intros r Hr. simpl in Hr. apply in_map_iff in Hr as [e [<- _]].
    reflexivity.
  - unfold select. simpl. now rewrite map_map.
Qed.

Lemma entries_artifacts_agree_witness :
  exists (t : Table) (written : FileSystem),
    main (args (Some "pmkb.db") None (Some "pmkb.entries.csv") None None)
         (disk sheet_egfr)
    = (Ok tt, written ++ disk sheet_egfr)
    /\ In ("pmkb.entries.csv"%string, CsvQuoted t) written
    /\ List.length (records t) = 2.
Proof.
  destruct (entries_artifacts_agree
              (args (Some "pmkb.db") None (Some "pmkb.entries.csv") None None)
              (disk sheet_egfr) sheet_egfr _ _ [] eq_refl eq_refl eq_refl
              eq_refl eq_refl)
    as [t [written [Hm [Hf [_ [_ [Hn _]]]]]]].
  exists t, written. split; [exact Hm|]. split; [|exact Hn].
  apply Hf. reflexivity.
Defined.

End MoreRuns.

(** ** The report script *)

Section ReportFacts.

Import PyStr Chars Store Script Report.

Lemma rfind_from_cases (c : ascii) (s : string) (i last : Z) :
  (contains c s = false /\ rfind_from c s i last = last)
  \/ (exists a b, s = (a ++ String c b)%string /\ contains c b = false
                  /\ rfind_from c s i last
                     = (i + Z.of_nat (String.length a))%Z).
Proof.
  revert i last. induction s as [|x s IH]; intros i last; simpl.
  - left. split; reflexivity.
  - destruct (IH (i + 1)%Z (if Ascii.eqb x c then i else last))
      as [[Hn Hr]|[a [b [Hs [Hb Hr]]]]].
    + destruct (Ascii.eqb x c) eqn:E.
      * right. apply Ascii.eqb_eq in E. subst x.
        exists ""%string, s. simpl. rewrite Hr. repeat split; [exact Hn | lia].
      * left. simpl. split; [exact Hn | exact Hr].
    + right. exists (String x a), b. subst s. simpl.
      rewrite Hr. repeat split; [exact Hb | lia].
Qed.

Lemma substring_prefix (a x : string) :
  substring 0 (String.length a) (a ++ x) = a.
Proof. induction a as [|c a IH]; simpl; [now destruct x | now rewrite IH]. Qed.

Lemma substring_whole (x : string) : substring 0 (String.length x) x = x.
Proof. induction x as [|c x IH]; simpl; [reflexivity | now rewrite IH]. Qed.

Lemma substring_suffix (a x : string) :
  substring (String.length a) (String.length x) (a ++ x) = x.
Proof.
  induction a as [|c a IH]; simpl; [apply substring_whole | exact IH].
Qed.

Lemma substring_middle (a m x : string) :
  substring (String.length a) (String.length m) (a ++ m ++ x) = m.
Proof.
  induction a as [|c a IH]; simpl; [apply substring_prefix | exact IH].
Qed.

Lemma append_length (a b : string) :
  String.length (a ++ b) = String.length a + String.length b.
Proof. induction a as [|c a IH]; simpl; [reflexivity | now rewrite IH]. Qed.

Lemma contains_app (c : ascii) (a b : string) :
  contains c (a ++ b) = contains c a || contains c b.
Proof.
  induction a as [|x a IH]; simpl; [reflexivity|].
  now rewrite IH, orb_assoc.
Qed.

(** Two ways to cut one text: the shorter head is a head of the longer. *)
Lemma append_cut (a a' x y : string) :
  (a ++ x)%string = (a' ++ y)%string ->
  String.length a' <= String.length a ->
  exists m, a = (a' ++ m)%string /\ y = (m ++ x)%string.
Proof.
  revert a. induction a' as [|c a' IH]; intros a H Hl; simpl in *.
  - exists a. now split.
  - destruct a as [|d a]; simpl in *; [lia|].
    injection H as -> H. destruct (IH a H ltac:(lia)) as [m [-> ->]].
    now exists m.
Qed.

(** The two parts of [splitext]. *)
Lemma splitext_parts (p : string) :
  (fst (splitext p) ++ snd (splitext p))%string = p
  /\ (snd (splitext p) = ""%string
      \/ exists e, snd (splitext p) = String "." e
                   /\ contains "." e = false /\ contains "/" e = false).
Proof.
  unfold splitext, rfind.
  destruct (rfind_from_cases "." p 0 (-1)) as [[_ Hd]|[a [b [Hp [Hb Hd]]]]].
  - rewrite Hd.
    destruct (rfind_from_cases "/" p 0 (-1)) as [[_ Hs]|[a' [b' [_ [_ Hs]]]]];
      rewrite Hs;
      (replace (_ <? -1)%Z with false by (symmetry; apply Z.ltb_ge; lia));
      simpl; split; [apply append_nil_r | now left | apply append_nil_r
                    | now left].
  - rewrite Hd. simpl Z.add.
    match goal with
    | |- context [if ?c then _ else _] => destruct c eqn:Hcond
    end; simpl; [|split; [apply append_nil_r | now left]].
    apply andb_prop in Hcond as [Hlt _]. apply Z.ltb_lt in Hlt.
    unfold slice. rewrite Z.sub_0_r, !Nat2Z.id. simpl Z.to_nat.
    assert (Hlen : Z.to_nat (Z.of_nat (String.length p)
                             - Z.of_nat (String.length a))
                   = String.length (String "." b)).
    { subst p. rewrite append_length. simpl. lia. }
    rewrite Hlen. subst p.
    rewrite substring_prefix, substring_suffix.
    split; [reflexivity|]. right. exists b. split; [reflexivity|].
    split; [exact Hb|].
    destruct (rfind_from_cases "/" (a ++ String "." b) 0 (-1))
      as [[Hn _]|[a' [b' [Hp' [Hb' Hs]]]]].
    + rewrite contains_app in Hn. apply orb_false_elim in Hn as [_ Hn].
      simpl in Hn. exact Hn.
    + rewrite Hs in Hlt.
      destruct (append_cut a a' (String "." b) (String "/" b') Hp'
                  ltac:(lia)) as [m [Ha Hb2]].
      destruct m as [|x m]; simpl in Hb2; [discriminate Hb2|].
      injection Hb2 as <- Hb2. subst b'.
      rewrite contains_app in Hb'. apply orb_false_elim in Hb' as [_ Hb'].
      simpl in Hb'. exact Hb'.
Qed.

(** X16: [splitext] cuts a path in two parts that make the path again; the
    second part is empty, or it is a dot followed by text without dot and
    without slash: the extension of the file name. *)
Theorem splitext_round_trip (p : string) :
  (fst (splitext p) ++ snd (splitext p))%string = p
  /\ (snd (splitext p) = ""%string
      \/ exists e, snd (splitext p) = String "." e
                   /\ contains "." e = false /\ contains "/" e = false).
Proof. exact (splitext_parts p). Qed.

(** X17: [make_report] writes one file, the rendered text, after the
    rendering has ended well; when the rendering raises, it writes nothing.
    The file is at the output path when one is given and is not empty, and
    else at the input path with [.html] in the place of its extension, so
    that an input whose extension is [.html] is replaced by its report.
    [main] hands the first input and the output path on. *)
Theorem report_output (render : string -> IO string) (input : string)
    (rest : list string) (output : option string) (fs : FileSystem) :
  let root := fst (splitext input) in
  let ext := snd (splitext input) in
  let path := match given output with
              | Some o => o
              | None => (root ++ ".html")%string
              end in
  input = (root ++ ext)%string
  /\ (ext = ""%string
      \/ exists e, ext = String "." e
                   /\ contains "." e = false /\ contains "/" e = false)
  /\ (given output = None -> ext = ".html"%string -> path = input)
  /\ main render (input :: rest) output
     = Some (make_report render input output)
  /\ match render input fs with
     | (Ok parsed, fs') =>
         make_report render input output fs
         = (Ok tt, (path, Text parsed) :: fs')
     | (Raise e, fs') =>
         make_report render input output fs = (Raise e, fs')
     end.
Proof.
  destruct (splitext_parts input) as [Hrt Hext]. cbv zeta.
  split; [now rewrite Hrt|]. split; [exact Hext|]. split.
  - intros -> E. now rewrite <- E.
  - split; [reflexivity|]. unfold make_report, bindIO.
    destruct (render input fs) as [[parsed|e] fs']; reflexivity.
Qed.

Lemma report_output_witness :
  (fst (splitext "runs/sample.html") ++ ".html")%string
  = "runs/sample.html"%string
  /\ make_report (fun input => ret ("<html>" ++ input ++ "</html>")%string)
       "runs/sample.html" (Some ""%string)
       [("runs/sample.html", Text "chr7 EGFR L858R")]
     = (Ok tt,
        [("runs/sample.html"%string, Text "<html>runs/sample.html</html>");
         ("runs/sample.html"%string, Text "chr7 EGFR L858R")]).
Proof.
  pose proof (report_output
                (fun input => ret ("<html>" ++ input ++ "</html>")%string)
                "runs/sample.html" [] (Some ""%string)
                [("runs/sample.html", Text "chr7 EGFR L858R")])
    as [_ [_ [Hhtml [_ Hrun]]]].
  split; [apply Hhtml; reflexivity | exact Hrun].
Defined.

End ReportFacts.
